(** * Keystone: text analytics of the public-comment dashboard

    A shallow embedding of the client-side text routines of the dashboard
    (word-frequency counting, lexical sentiment scoring, extractive
    summarization, word-cloud clamping and the handlers around the backend
    calls), followed by the properties established about them.

    Conventions of the embedding.
    - A JavaScript string is a [string] whose characters are read as the
      code units U+0000..U+00FF; [length] is the number of code units.
    - An array is a [list]; [forEach] over a mutable accumulator is a
      [fold_left] that threads the accumulator.
    - An object used as a dictionary is an association list of its own
      properties in creation order, together with what it inherits from
      [Object.prototype].
    - Integers are [Z].  Scores and coordinates, which the code only
      compares against bounds, are exact rationals [Q].  The products
      [n * 0.2], [n * 0.3], ... of the summarizer feed [Math.ceil] and
      integer comparisons, so they are computed as binary64 does: exact
      product of the significands, then round to nearest, ties to even.
    - [Math.random()] is an explicit argument, a rational in [0, 1).
    - An awaited backend call is the outcome it settles with. *)

From Stdlib Require Import List String Ascii Bool Arith ZArith NArith QArith Qminmax Qround Lia.
From Stdlib Require Import Permutation Sorted.
Import ListNotations.

Local Open Scope string_scope.
Local Open Scope list_scope.
Local Open Scope Z_scope.

(** ** Strings *)

Module JsString.

Definition code (c : ascii) : N := N_of_ascii c.

Definition in_range (lo hi : N) (c : ascii) : bool :=
  ((lo <=? code c) && (code c <=? hi))%N.

(** [\s]: TAB, LF, VT, FF, CR, SPACE and NO-BREAK SPACE (the white space
    and line terminators below U+0100). *)
Definition is_space (c : ascii) : bool :=
  in_range 9 13 c || (code c =? 32)%N || (code c =? 160)%N.

(** [\w] is [A-Za-z0-9_]. *)
Definition is_word (c : ascii) : bool :=
  in_range 48 57 c || in_range 65 90 c || in_range 97 122 c || (code c =? 95)%N.

(** Upper-case letters: A-Z, and the Latin-1 letters U+00C0..U+00DE
    except the multiplication sign U+00D7. *)
Definition is_upper (c : ascii) : bool :=
  in_range 65 90 c || (in_range 192 222 c && negb (code c =? 215)%N).

Definition lower_char (c : ascii) : ascii :=
  if is_upper c then ascii_of_N (code c + 32) else c.

Fixpoint map_chars (f : ascii -> ascii) (s : string) : string :=
  match s with
  | EmptyString => EmptyString
  | String c s' => String (f c) (map_chars f s')
  end.

Definition toLowerCase (s : string) : string := map_chars lower_char s.

(** [s.replace(/[^\w\s]/g, ' ')] *)
Definition replace_non_word (s : string) : string :=
  map_chars (fun c => if is_word c || is_space c then c else " "%char) s.

Definition starts_with (sep : ascii -> bool) (s : string) : bool :=
  match s with
  | EmptyString => false
  | String c _ => sep c
  end.

(** [s.split(/[...]+/)] for a character class [sep]: the pieces between
    maximal runs of separators.  A leading or trailing run leaves an
    empty first or last piece; the empty string splits into [[""]]. *)
Fixpoint split_plus (sep : ascii -> bool) (s : string) : list string :=
  match s with
  | EmptyString => [EmptyString]
  | String c s' =>
      let r := split_plus sep s' in
      if sep c then (if starts_with sep s' then r else EmptyString :: r)
      else match r with
           | h :: t => String c h :: t
           | [] => [String c EmptyString]
           end
  end.

Definition split_spaces : string -> list string := split_plus is_space.

Fixpoint trim_start (s : string) : string :=
  match s with
  | EmptyString => EmptyString
  | String c s' => if is_space c then trim_start s' else s
  end.

Fixpoint trim_end (s : string) : string :=
  match s with
  | EmptyString => EmptyString
  | String c s' =>
      match trim_end s' with
      | EmptyString => if is_space c then EmptyString else String c EmptyString
      | r => String c r
      end
  end.

Definition trim (s : string) : string := trim_end (trim_start s).

(** [s.includes(t)] *)
Fixpoint includes (s t : string) : bool :=
  prefix t s ||
  match s with
  | EmptyString => false
  | String _ s' => includes s' t
  end.

(** [arr.includes(x)] on an array of strings *)
Definition mem (x : string) (l : list string) : bool :=
  existsb (String.eqb x) l.

(** [arr.join(sep)] *)
Definition join (sep : string) (l : list string) : string := String.concat sep l.

End JsString.

(** ** Arrays *)

Module JsArray.

Section Sort.
Context {A : Type}.
(** The comparator of [arr.sort(cmp)]: negative when the first argument
    goes first, positive when the second does, zero to keep the order. *)
Variable cmp : A -> A -> Z.

Fixpoint insert (x : A) (l : list A) : list A :=
  match l with
  | [] => [x]
  | y :: l' => if (cmp x y <=? 0)%Z then x :: l else y :: insert x l'
  end.

(** [Array.prototype.sort] is stable; for a consistent comparator the
    result is the one stable ordering, computed here by insertion. *)
Fixpoint sort (l : list A) : list A :=
  match l with
  | [] => []
  | x :: l' => insert x (sort l')
  end.
End Sort.

(** [arr.slice(0, n)] *)
Definition slice0 {A : Type} (n : nat) (l : list A) : list A := firstn n l.

End JsArray.

(** ** Objects used as dictionaries *)

Module JsObject.

(** The values that end up in the [frequency] dictionary. *)
Inductive value : Type :=
| Num (n : Z)
| Str (s : string).

(** Own properties, in creation order. *)
Definition obj : Type := list (string * value).

Definition empty : obj := [].

Fixpoint get_own (o : obj) (k : string) : option value :=
  match o with
  | [] => None
  | (k', v) :: o' => if String.eqb k k' then Some v else get_own o' k
  end.

(** What [String(Object)] prints. *)
Definition object_function_source : string :=
  "function Object() { [native code] }".

(** The members of [Object.prototype] whose names are made of lower-case
    word characters only; a key produced by the tokenizer can name no
    other member. *)
Definition inherited (k : string) : bool :=
  String.eqb k "constructor" || String.eqb k "__proto__".

(** The value of [(o[k] || 0) + 1].  A key that is not an own property is
    looked up in [Object.prototype]: [o["constructor"]] is the function
    [Object] and [o["__proto__"]] is the prototype itself, both truthy, so
    [+] concatenates their string forms with ["1"]. *)
Definition or0_plus1 (o : obj) (k : string) : value :=
  match get_own o k with
  | Some (Num n) => Num (n + 1)
  | Some (Str EmptyString) => Num 1
  | Some (Str s) => Str (s ++ "1")
  | None =>
      if String.eqb k "constructor" then Str (object_function_source ++ "1")
      else if String.eqb k "__proto__" then Str "[object Object]1"
      else Num 1
  end.

Fixpoint put (o : obj) (k : string) (v : value) : obj :=
  match o with
  | [] => [(k, v)]
  | (k', v') :: o' =>
      if String.eqb k k' then (k', v) :: o' else (k', v') :: put o' k v
  end.

(** [o[k] = v].  Assigning to ["__proto__"] runs the inherited setter,
    which ignores a value that is neither an object nor null. *)
Definition set (o : obj) (k : string) (v : value) : obj :=
  if String.eqb k "__proto__" then o else put o k v.

Definition is_digit (c : ascii) : bool := JsString.in_range 48 57 c.

Fixpoint all_digits (s : string) : bool :=
  match s with
  | EmptyString => true
  | String c s' => is_digit c && all_digits s'
  end.

Fixpoint decimal (acc : N) (s : string) : N :=
  match s with
  | EmptyString => acc
  | String c s' => decimal (10 * acc + (JsString.code c - 48))%N s'
  end.

(** A key is an array index when it is the canonical decimal form of an
    integer below 2^32 - 1. *)
Definition array_index (k : string) : option N :=
  match k with
  | EmptyString => None
  | String c rest =>
      if all_digits k
         && (negb (JsString.code c =? 48)%N || String.eqb rest EmptyString)
         && (decimal 0 k <? 4294967295)%N
      then Some (decimal 0 k) else None
  end.

Definition is_index (e : string * value) : bool :=
  match array_index (fst e) with Some _ => true | None => false end.

Definition index_of (e : string * value) : Z :=
  match array_index (fst e) with Some n => Z.of_N n | None => 0 end.

(** [Object.entries(o)]: array-index keys in ascending numeric order, then
    the other keys in creation order. *)
Definition entries (o : obj) : list (string * value) :=
  JsArray.sort (fun a b => index_of a - index_of b)%Z (filter is_index o)
  ++ filter (fun e => negb (is_index e)) o.

(** [ToNumber]; [None] is NaN.  The strings stored in a dictionary of
    counts are the ones built by [or0_plus1], none of which reads as a
    numeric literal. *)
Definition to_number (v : value) : option Z :=
  match v with
  | Num n => Some n
  | Str _ => None
  end.

(** The comparator [(a, b) => b - a] on two counts.  The sort reads a NaN
    result as zero; the comparator is then no consistent one and the order
    of the result is left to the engine, so that nothing is proved below
    about the order of entries when a count is a string. *)
Definition descending (a b : value) : Z :=
  match to_number a, to_number b with
  | Some x, Some y => y - x
  | _, _ => 0
  end.

End JsObject.

(** ** Word frequencies: [src/components/WordCloudGenerator.tsx] *)

Module WordCloudGenerator.
Import JsString JsObject.

Definition stopWords : list string :=
  ["the"; "a"; "an"; "and"; "or"; "but"; "in"; "on"; "at"; "to"; "for"; "of"; "with"; "by";
   "is"; "are"; "was"; "were"; "be"; "been"; "being"; "have"; "has"; "had"; "do"; "does"; "did";
   "will"; "would"; "could"; "should"; "may"; "might"; "must"; "can"; "this"; "that"; "these";
   "those"; "i"; "you"; "he"; "she"; "it"; "we"; "they"; "me"; "him"; "her"; "us"; "them";
   "my"; "your"; "his"; "her"; "its"; "our"; "their"; "am"; "as"; "if"; "so"; "than"; "very"].

(** [text.toLowerCase().replace(/[^\w\s]/g, ' ').split(/\s+/)] *)
Definition tokens (text : string) : list string :=
  split_spaces (replace_non_word (toLowerCase text)).

(** [words]: the tokens longer than two characters *)
Definition words (text : string) : list string :=
  filter (fun word => (2 <? String.length word)%nat) (tokens text).

Definition filteredWords (text : string) (removeStopWords : bool) : list string :=
  if removeStopWords
  then filter (fun word => negb (mem word stopWords)) (words text)
  else words text.

(** One step of the [forEach]: [frequency[word] = (frequency[word] || 0) + 1] *)
Definition count_word (frequency : obj) (word : string) : obj :=
  set frequency word (or0_plus1 frequency word).

Definition frequency_of (ws : list string) : obj :=
  fold_left count_word ws empty.

Definition by_count (a b : string * value) : Z := descending (snd a) (snd b).

Definition getWordFrequency (text : string) (removeStopWords : bool)
  : list (string * value) :=
  JsArray.slice0 50
    (JsArray.sort by_count
       (entries (frequency_of (filteredWords text removeStopWords)))).

(** The entries shown by [generateWordCloud] for the slider values
    [minWordLength] and [maxWords]. *)
Definition wordFreqs (inputText : string) (removeStopWords : bool)
           (minWordLength maxWords : nat) : list (string * value) :=
  JsArray.slice0 maxWords
    (filter (fun e => (minWordLength <=? String.length (fst e))%nat)
       (getWordFrequency inputText removeStopWords)).

End WordCloudGenerator.

(** ** Products of an integer and a decimal literal, as binary64 computes them *)

Module Binary64.

(** A positive binary64 constant [significand / 2^scale], with
    2^52 <= significand < 2^53. *)
Record literal : Type := { significand : Z; scale : Z }.

Definition lit_0_2 : literal := {| significand := 7205759403792794; scale := 55 |}.
Definition lit_0_3 : literal := {| significand := 5404319552844595; scale := 54 |}.
Definition lit_0_4 : literal := {| significand := 7205759403792794; scale := 54 |}.
Definition lit_0_6 : literal := {| significand := 5404319552844595; scale := 53 |}.
Definition lit_0_7 : literal := {| significand := 6305039478318694; scale := 53 |}.

(** Round the integer [p] to 53 significant bits, to nearest, ties to
    even: the result is [fst * 2^snd]. *)
Definition round53 (p : Z) : Z * Z :=
  let s := Z.max 0 (Z.log2 p - 52) in
  let q := Z.shiftr p s in
  let r := p - Z.shiftl q s in
  let up := match (2 * r ?= 2 ^ s)%Z with
            | Lt => false
            | Eq => Z.odd q
            | Gt => true
            end in
  (if up then q + 1 else q, s)%Z.

(** [n * c] for an integer [0 <= n < 2^53], as the rational the resulting
    double denotes. *)
Definition mul_int (n : Z) (c : literal) : Q :=
  let '(m, s) := round53 (n * significand c) in
  ((m * 2 ^ s) # Z.to_pos (2 ^ scale c))%Q.

(** [Math.ceil] *)
Definition ceil (x : Q) : Z := Qceiling x.

(** [i < x] and [i > x] for an integer [i] *)
Definition int_lt (i : Z) (x : Q) : bool := negb (Qle_bool x (inject_Z i)).
Definition int_gt (i : Z) (x : Q) : bool := negb (Qle_bool (inject_Z i) x).

End Binary64.

(** ** Extractive summarizer: [src/components/CommentSummarizer.tsx] *)

Module CommentSummarizer.
Import JsString.

Inductive length_setting : Type := short | medium | long.

Definition is_terminal (c : ascii) : bool :=
  Ascii.eqb c "." || Ascii.eqb c "!" || Ascii.eqb c "?".

(** [text.split(/[.!?]+/).filter(s => s.trim().length > 0)] *)
Definition sentences (text : string) : list string :=
  filter (fun s => (0 <? String.length (trim s))%nat) (split_plus is_terminal text).

Definition targetSentences (length : length_setting) (n : nat) : Z :=
  match length with
  | short => Z.max 1 (Binary64.ceil (Binary64.mul_int (Z.of_nat n) Binary64.lit_0_2))
  | medium => Z.max 2 (Binary64.ceil (Binary64.mul_int (Z.of_nat n) Binary64.lit_0_4))
  | long => Z.max 3 (Binary64.ceil (Binary64.mul_int (Z.of_nat n) Binary64.lit_0_6))
  end.

Definition keyTerms : list string :=
  ["bill"; "amendment"; "regulation"; "corporate"; "company"; "business";
   "compliance"; "governance"].

Record scored : Type := { sentence : string; score : Z; index : nat }.

(** The callback of [sentences.map((sentence, index) => ...)]; [n] is
    [sentences.length]. *)
Definition score_sentence (n : nat) (sentence : string) (index : nat) : scored :=
  let words := split_spaces (toLowerCase sentence) in
  let score := 0%Z in
  let score :=
    fold_left
      (fun score term =>
         if existsb (fun word => includes word term) words then (score + 2)%Z else score)
      keyTerms score in
  let score :=
    if Binary64.int_lt (Z.of_nat index) (Binary64.mul_int (Z.of_nat n) Binary64.lit_0_3)
    then (score + 1)%Z else score in
  let score :=
    if Binary64.int_gt (Z.of_nat index) (Binary64.mul_int (Z.of_nat n) Binary64.lit_0_7)
    then (score + 1)%Z else score in
  let score := if (10 <? List.length words)%nat then (score + 1)%Z else score in
  {| sentence := trim sentence; score := score; index := index |}.

Fixpoint map_indexed {A B : Type} (f : A -> nat -> B) (i : nat) (l : list A) : list B :=
  match l with
  | [] => []
  | x :: l' => f x i :: map_indexed f (S i) l'
  end.

Definition scoredSentences (text : string) : list scored :=
  let sentences := sentences text in
  map_indexed (score_sentence (List.length sentences)) 0 sentences.

Definition by_score (a b : scored) : Z := score b - score a.
Definition by_index (a b : scored) : Z := Z.of_nat (index a) - Z.of_nat (index b).

Definition topSentences (text : string) (length : length_setting) : list scored :=
  JsArray.sort by_index
    (JsArray.slice0
       (Z.to_nat (targetSentences length (List.length (sentences text))))
       (JsArray.sort by_score (scoredSentences text))).

Definition summarizeText (text : string) (length : length_setting) : string :=
  join ". " (map sentence (topSentences text length)) ++ ".".

End CommentSummarizer.

(** ** Lexical score: [src/components/CombinedInsights.tsx] *)

Module CombinedInsights.
Import JsString.

Definition positiveWords : list string :=
  ["good"; "excellent"; "great"; "support"; "beneficial"; "positive"; "agree";
   "helpful"; "useful"; "improvement"].

Definition negativeWords : list string :=
  ["bad"; "terrible"; "oppose"; "against"; "negative"; "disagree"; "harmful";
   "useless"; "wrong"; "problem"].

(** The body of the [forEach], with the two word lists made explicit. *)
Definition score_word (positive negative : list string) (score : Z) (word : string) : Z :=
  let score := if mem word positive then score + 1 else score in
  let score := if mem word negative then score - 1 else score in
  score.

Definition lexicalScoreWith (positive negative : list string) (text : string) : Z :=
  let words := split_spaces (toLowerCase text) in
  fold_left (score_word positive negative) words 0.

Definition lexicalScore (text : string) : Z :=
  lexicalScoreWith positiveWords negativeWords text.

End CombinedInsights.

(** ** What a backend call settles with *)

Module Backend.

(** The settled [fetch] followed by [response.json()] and the reading of
    the fields: the promise rejects, the body is not the JSON the code
    reads (a rejection or a TypeError inside the [try]), or it decodes to
    a payload. *)
Inductive outcome (A : Type) : Type :=
| Rejected
| Malformed
| Answer (payload : A).

Arguments Rejected {A}.
Arguments Malformed {A}.
Arguments Answer {A} payload.

Definition failed {A : Type} (o : outcome A) : bool :=
  match o with
  | Answer _ => false
  | _ => true
  end.

(** A row of the sentiment endpoint: [row[1] ?? "neutral"] and the number
    [parseFloat] reads from [row[2]] with the percent sign removed (0
    when the field is absent, [None] when it is NaN). *)
Record row : Type := { label : string; percent : option Q }.

End Backend.

(** ** Sentiment dashboard: [analyzeSentiment] of the dashboard component *)

Module SentimentDashboard.
Import JsString Backend.

Record result : Type :=
  { sentiment : string; score : Z; confidence : option Q; normalizedScore : Q }.

Definition neutral_result : result :=
  {| sentiment := "neutral"; score := 0; confidence := Some 0%Q; normalizedScore := 0%Q |}.

Definition positiveWords : list string := CombinedInsights.positiveWords.
Definition negativeWords : list string := CombinedInsights.negativeWords.

(** [Math.max(-1, Math.min(1, x))] *)
Definition clamp_unit (x : Q) : Q := Qmax (-1) (Qmin 1 x).

Definition analyzeSentiment (text : string) (response : outcome (list row)) : result :=
  match response with
  | Rejected | Malformed => neutral_result
  | Answer [] => neutral_result
  | Answer (row :: _) =>
      let words := split_spaces (toLowerCase text) in
      let score :=
        fold_left (CombinedInsights.score_word positiveWords negativeWords) words 0 in
      {| sentiment := toLowerCase (label row);
         score := score;
         confidence := option_map (fun p => p / 100)%Q (percent row);
         normalizedScore :=
           clamp_unit (inject_Z score / inject_Z (Z.of_nat (List.length words)) * 5)%Q |}
  end.

End SentimentDashboard.

(** ** Live stream: [analyzeSentiment] and its local fallback *)

Module LiveStreamAnalyzer.
Import JsString Backend.


(** A JavaScript number that may be NaN: [None] is NaN.  Finite numbers
    are kept as exact rationals, without the rounding of binary64; the
    properties proved of them state only bounds that the rounded results
    keep as well. *)
Definition number : Type := option Q.

Record result : Type := { sentiment : string; score : number; confidence : number }.

(** The successive values of [Math.random()] a call may consume. *)
Record draws : Type := { first : Q; second : Q }.

Definition positiveWords : list string :=
  ["good"; "great"; "excellent"; "wonderful"; "amazing"; "support"; "benefit";
   "helpful"; "improve"].

Definition negativeWords : list string :=
  ["bad"; "poor"; "terrible"; "awful"; "oppose"; "burden"; "restrictive";
   "unnecessary"; "concern"].

(** [list.forEach(word => { if (text.includes(word)) count++ })] *)
Definition count_present (text : string) (list : list string) : Z :=
  fold_left (fun count word => if includes text word then count + 1 else count) list 0.

Definition getLocalSentimentAnalysis (text : string) (random : draws) : result :=
  let text := toLowerCase text in
  let positiveCount := count_present text positiveWords in
  let negativeCount := count_present text negativeWords in
  if (negativeCount <? positiveCount)%Z then
    let confidence :=
      Qmin (0.5 + inject_Z (positiveCount - negativeCount) * 0.1) 0.9%Q in
    {| sentiment := "positive";
       score := Some (0.5 + confidence * 0.5)%Q;
       confidence := Some confidence |}
  else if (positiveCount <? negativeCount)%Z then
    let confidence :=
      Qmin (0.5 + inject_Z (negativeCount - positiveCount) * 0.1) 0.9%Q in
    {| sentiment := "negative";
       score := Some (- (0.5 + confidence * 0.5))%Q;
       confidence := Some confidence |}
  else
    {| sentiment := "neutral";
       score := Some ((second random - 0.5) * 0.4)%Q;
       confidence := Some (0.3 + first random * 0.2)%Q |}.

(** [analyzeSentiment], with the module constant [USE_LOCAL_FALLBACK] as
    an argument. *)
Definition analyzeSentiment (use_local_fallback : bool) (text : string)
           (response : outcome (list row)) (random : draws) : result :=
  if use_local_fallback then getLocalSentimentAnalysis text random
  else
    match response with
    | Rejected | Malformed => getLocalSentimentAnalysis text random
    | Answer [] => {| sentiment := "neutral"; score := Some 0%Q; confidence := Some 0%Q |}
    | Answer (row :: _) =>
        let sentiment := toLowerCase (label row) in
        let confidence := option_map (fun p => p / 100)%Q (percent row) in
        let score :=
          if String.eqb sentiment "positive"
          then option_map (fun c => 0.5 + c * 0.5)%Q confidence
          else if String.eqb sentiment "negative"
          then option_map (fun c => - 0.5 - c * 0.5)%Q confidence
          else Some ((first random - 0.5) * 0.4)%Q in
        {| sentiment := sentiment; score := score; confidence := confidence |}
    end.

End LiveStreamAnalyzer.

(** ** JSON values *)

Module Json.

(** A value decoded by [response.json()] or by [JSON.parse].  A number is
    kept as the string that [String(n)] gives for it, which is ["0"] for
    the two zeros and for them only; the members of an object are its own
    properties, under pairwise different names. *)
#[warnings="-register-all"] Inductive value : Type :=
| Null
| Bool (b : bool)
| Number (shown : string)
| Text (s : string)
| Array (items : list value)
| Object (members : list (string * value)).

Fixpoint lookup (members : list (string * value)) (name : string) : option value :=
  match members with
  | [] => None
  | (k, v) :: rest => if String.eqb k name then Some v else lookup rest name
  end.

(** [v.summary] for a value [v] other than [null]; [None] is [undefined].
    Only an object can have the property: no prototype of a decoded value
    has a member of this name. *)
Definition summary_of (v : value) : option value :=
  match v with
  | Object members => lookup members "summary"
  | _ => None
  end.

(** Whether [v || other] is [v]. *)
Definition truthy (v : value) : bool :=
  match v with
  | Null => false
  | Bool b => b
  | Number shown => negb (String.eqb shown "0")
  | Text s => negb (String.eqb s "")
  | Array _ | Object _ => true
  end.

End Json.

(** ** Backend summarizer: [handleSummarize] of the backend-driven component *)

Module BackendSummarizer.
Import JsString.

(** How the request settles: [fetch] rejects, [response.json()] rejects
    because the body is not JSON, or the body decodes to [data]. *)
Inductive fetched : Type :=
| FetchRejected
| NotJson
| Body (data : Json.value).

(** The component state.  [setSummary] is called with whatever the handler
    has extracted, which need not be a string. *)
Record state : Type :=
  { inputText : string;
    summary : Json.value;
    keyPhrases : list string;
    summaryLength : CommentSummarizer.length_setting;
    isProcessing : bool }.

Definition set_isProcessing (b : bool) (st : state) : state :=
  {| inputText := inputText st; summary := summary st; keyPhrases := keyPhrases st;
     summaryLength := summaryLength st; isProcessing := b |}.

Definition set_summary (s : Json.value) (st : state) : state :=
  {| inputText := inputText st; summary := s; keyPhrases := keyPhrases st;
     summaryLength := summaryLength st; isProcessing := isProcessing st |}.

Definition set_keyPhrases (l : list string) (st : state) : state :=
  {| inputText := inputText st; summary := summary st; keyPhrases := l;
     summaryLength := summaryLength st; isProcessing := isProcessing st |}.

Definition apostrophe : ascii := "'"%char.
Definition double_quote : ascii := "034"%char.

(** [s] without the prefix [p], when it starts with it. *)
Fixpoint strip (p s : string) : option string :=
  match p with
  | EmptyString => Some s
  | String a p' =>
      match s with
      | String b s' => if Ascii.eqb a b then strip p' s' else None
      | EmptyString => None
      end
  end.

(** The longest prefix made of characters of the class, and what follows
    it. *)
Fixpoint span (class : ascii -> bool) (s : string) : string * string :=
  match s with
  | EmptyString => (EmptyString, EmptyString)
  | String c s' =>
      if class c then let (taken, rest) := span class s' in (String c taken, rest)
      else (EmptyString, s)
  end.

(** The group captured by [/'summary':\s*'([^']+)'/] matched at the start
    of [s].  The two greedy runs decide: giving back white space or
    characters of the group leaves a character that is no apostrophe where
    one is required. *)
Definition match_here (s : string) : option string :=
  match strip "'summary':" s with
  | None => None
  | Some after_colon =>
      match trim_start after_colon with
      | String q after_quote =>
          if Ascii.eqb q apostrophe then
            let (group, rest) :=
              span (fun c => negb (Ascii.eqb c apostrophe)) after_quote in
            match group, rest with
            | String _ _, String _ _ => Some group
            | _, _ => None
            end
          else None
      | EmptyString => None
      end
  end.

(** [s.match(/'summary':\s*'([^']+)'/)]: the group of the leftmost match,
    [None] when there is no match. *)
Fixpoint first_match (s : string) : option string :=
  match match_here s with
  | Some group => Some group
  | None =>
      match s with
      | EmptyString => None
      | String _ s' => first_match s'
      end
  end.

(** [s.replace(/pat/g, rep)] for a pattern that is a word: the
    occurrences from left to right, the search resuming after each one;
    [skip] characters still belong to the last occurrence. *)
Fixpoint replace_all (pat rep : string) (skip : nat) (s : string) : string :=
  match s with
  | EmptyString => EmptyString
  | String c s' =>
      match skip with
      | S k => replace_all pat rep k s'
      | O =>
          if String.prefix pat s
          then (rep ++ replace_all pat rep (String.length pat - 1) s')%string
          else String c (replace_all pat rep 0 s')
      end
  end.

Definition normalize (s : string) : string :=
  replace_all "False" "false" 0
    (replace_all "True" "true" 0
       (replace_all "None" "null" 0
          (map_chars (fun c => if Ascii.eqb c apostrophe then double_quote else c) s))).

Definition inner_error : string := "Failed to parse inner summary:".
Definition outer_error : string := "Error fetching summary:".

Section Parsing.

(** [JSON.parse]; [None] is a SyntaxError. *)
Variable JSON_parse : string -> option Json.value.

(** The inner [try] and its [catch] on the decoded body: the value left
    in [parsedSummary] with the lines written to the console, or [None]
    for the value when the [catch] block throws in its turn, which is the
    case of the body [null]. *)
Definition parsedSummary (data : Json.value) : option Json.value * list string :=
  match data with
  | Json.Null => (None, [inner_error])
  | _ =>
      match Json.summary_of data with
      | Some (Json.Text s) =>
          match first_match s with
          | Some group => (Some (Json.Text group), [])
          | None =>
              let normalized := normalize s in
              match JSON_parse normalized with
              | None | Some Json.Null => (Some (Json.Text s), [inner_error])
              | Some inner =>
                  match Json.summary_of inner with
                  | Some v =>
                      if Json.truthy v then (Some v, [])
                      else (Some (Json.Text normalized), [])
                  | None => (Some (Json.Text normalized), [])
                  end
              end
          end
      | Some Json.Null => (Some (Json.Text "null"), [inner_error])
      | Some (Json.Array _) => (Some (Json.Text ""), [])
      | Some (Json.Object members) =>
          match Json.lookup members "summary" with
          | Some v => if Json.truthy v then (Some v, []) else (Some (Json.Text ""), [])
          | None => (Some (Json.Text ""), [])
          end
      | Some (Json.Number shown) => (Some (Json.Text shown), [])
      | Some (Json.Bool b) => (Some (Json.Text (if b then "true" else "false")), [])
      | None => (Some (Json.Text "undefined"), [])
      end
  end.

(** [handleSummarize]: the state once the handler has run to its end, and
    the lines written with [console.error]. *)
Definition handleSummarize (st : state) (response : fetched) : state * list string :=
  if String.eqb (trim (inputText st)) "" then (st, [])
  else
    let st := set_isProcessing true st in
    match response with
    | FetchRejected | NotJson => (set_isProcessing false st, [outer_error])
    | Body data =>
        match parsedSummary data with
        | (Some parsed, console) =>
            let st := set_summary parsed st in
            let st := set_keyPhrases [] st in
            (set_isProcessing false st, console)
        | (None, console) => (set_isProcessing false st, console ++ [outer_error])
        end
    end.

End Parsing.

End BackendSummarizer.

(** ** Word-cloud layout: the [generateWordCloud] of [src/components/AuthContext.tsx] *)

Module WordCloudLayout.

Local Open Scope Q_scope.

Definition width : Q := 1000.
Definition height : Q := 650.
Definition halfW : Q := width / 2.
Definition halfH : Q := height / 2.

Definition minSize : Q := 12.
Definition maxSize : Q := 36.

Definition size_of (count maxCount : Z) : Q :=
  minSize + (inject_Z count / inject_Z maxCount) * (maxSize - minSize).

(** [adjustedRadius] of a word of [len] characters drawn at [size]. *)
Definition adjustedRadius (size : Q) (len : nat) : Q :=
  let approxTextWidth := 0.6 * size * inject_Z (Z.of_nat len) in
  let baseRadius := Qmax 14 (size * 1.0) in
  let bubbleRadius := Qmax baseRadius (approxTextWidth / 2 + 10) in
  let paddingRadius := Qmin bubbleRadius 110 in
  Qmax 12 (paddingRadius * 0.92).

Record node : Type := { text : string; x : Q; y : Q; radius : Q }.

(** The body of the final [nodes.forEach]. *)
Definition clamp (n : node) : node :=
  {| text := text n;
     x := Qmax (- halfW + radius n) (Qmin (halfW - radius n) (x n));
     y := Qmax (- halfH + radius n) (Qmin (halfH - radius n) (y n));
     radius := radius n |}.

Definition clamp_all (nodes : list node) : list node := map clamp nodes.

End WordCloudLayout.

(** ** Sessions and permissions: [src/components/AuthContext.tsx] *)

Module AuthContext.
Import JsString.

Inductive UserRole : Type :=
| mca_official
| legislation_analyst
| domain_expert
| mca21_support
| citizen
| business_org
| business_corporate
| legal_firm
| legal_practitioner
| think_tank
| media_analyst.

(** The string a role is in the source. *)
Definition role_name (role : UserRole) : string :=
  match role with
  | mca_official => "mca_official"
  | legislation_analyst => "legislation_analyst"
  | domain_expert => "domain_expert"
  | mca21_support => "mca21_support"
  | citizen => "citizen"
  | business_org => "business_org"
  | business_corporate => "business_corporate"
  | legal_firm => "legal_firm"
  | legal_practitioner => "legal_practitioner"
  | think_tank => "think_tank"
  | media_analyst => "media_analyst"
  end.

(** [a === b] on two roles *)
Definition role_eqb (a b : UserRole) : bool := String.eqb (role_name a) (role_name b).

Record User : Type :=
  { id : string;
    email : string;
    name : string;
    role : UserRole;
    organization : option string;
    department : option string;
    verified : bool;
    permissions : list string }.

Record RegisterData : Type :=
  { reg_email : string;
    reg_password : string;
    reg_name : string;
    reg_role : UserRole;
    reg_organization : option string;
    reg_department : option string }.

Definition ROLE_PERMISSIONS (role : UserRole) : list string :=
  match role with
  | mca_official =>
      ["view_all_analyses"; "view_analyses"; "view_basic_analyses";
       "view_detailed_analytics"; "export_reports"; "manage_consultations";
       "admin_access"; "approve_comments"; "manage_bills"]
  | legislation_analyst =>
      ["view_all_analyses"; "view_analyses"; "view_basic_analyses";
       "view_detailed_analytics"; "export_reports"; "analyze_comments"; "create_reports"]
  | domain_expert =>
      ["view_analyses"; "view_basic_analyses"; "export_reports";
       "submit_expert_opinions"; "view_detailed_analytics"]
  | mca21_support =>
      ["view_analyses"; "technical_support"; "system_monitoring"; "user_support"]
  | citizen =>
      ["view_basic_analyses"; "submit_comments"; "view_public_consultations"]
  | business_org =>
      ["view_analyses"; "view_basic_analyses"; "submit_business_feedback";
       "view_consultations"; "export_basic_reports"]
  | business_corporate =>
      ["view_analyses"; "view_basic_analyses"; "submit_corporate_feedback";
       "view_consultations"; "export_reports"; "priority_support"]
  | legal_firm =>
      ["view_analyses"; "view_basic_analyses"; "submit_legal_opinions";
       "view_consultations"; "export_reports"; "legal_research_tools"]
  | legal_practitioner =>
      ["view_analyses"; "view_basic_analyses"; "submit_legal_opinions";
       "view_consultations"; "legal_research_tools"]
  | think_tank =>
      ["view_analyses"; "view_basic_analyses"; "submit_research_feedback";
       "view_consultations"; "export_reports"; "research_tools"]
  | media_analyst =>
      ["view_basic_analyses"; "submit_media_comments"; "view_public_consultations"]
  end.

Definition MOCK_USERS : list User :=
  [ {| id := "1"; email := "admin@mca.gov.in"; name := "Rajesh Kumar";
       role := mca_official; organization := None;
       department := Some "Policy Division"; verified := true;
       permissions := ROLE_PERMISSIONS mca_official |};
    {| id := "2"; email := "analyst@mca.gov.in"; name := "Priya Sharma";
       role := legislation_analyst; organization := None;
       department := Some "Legal Analysis"; verified := true;
       permissions := ROLE_PERMISSIONS legislation_analyst |};
    {| id := "3"; email := "expert@consultation.com"; name := "Dr. Amit Patel";
       role := domain_expert; organization := Some "Corporate Law Institute";
       department := None; verified := true;
       permissions := ROLE_PERMISSIONS domain_expert |};
    {| id := "4"; email := "citizen@email.com"; name := "Sneha Gupta";
       role := citizen; organization := None; department := None; verified := true;
       permissions := ROLE_PERMISSIONS citizen |};
    {| id := "5"; email := "legal@lawfirm.com"; name := "Vikram Singh";
       role := legal_firm; organization := Some "Singh & Associates";
       department := None; verified := true;
       permissions := ROLE_PERMISSIONS legal_firm |} ].

(** The module-level array [MOCK_USERS], the [user] and [loading] state of
    the provider, and the [mca_user] item of the local storage. *)
Record auth : Type :=
  { users : list User;
    user : option User;
    stored : option User;
    loading : bool }.

Definition initial : auth :=
  {| users := MOCK_USERS; user := None; stored := None; loading := false |}.

(** [login]: the state once the call has returned, and its result. *)
Definition login (st : auth) (email_ password : string) (role_ : UserRole) : auth * bool :=
  let foundUser :=
    find (fun u => String.eqb (toLowerCase (email u)) (toLowerCase email_)
                   && role_eqb (role u) role_)
      (users st) in
  match foundUser with
  | Some u =>
      if String.eqb password "password123"
      then ({| users := users st; user := Some u; stored := Some u; loading := false |}, true)
      else ({| users := users st; user := user st; stored := stored st; loading := false |},
            false)
  | None =>
      ({| users := users st; user := user st; stored := stored st; loading := false |}, false)
  end.

(** [register]; [now] is [Date.now().toString()]. *)
Definition register (st : auth) (userData : RegisterData) (now : string) : auth * bool :=
  let existingUser :=
    find (fun u => String.eqb (toLowerCase (email u)) (toLowerCase (reg_email userData)))
      (users st) in
  match existingUser with
  | Some _ =>
      ({| users := users st; user := user st; stored := stored st; loading := false |}, false)
  | None =>
      let newUser :=
        {| id := now;
           email := reg_email userData;
           name := reg_name userData;
           role := reg_role userData;
           organization := reg_organization userData;
           department := reg_department userData;
           verified := mem (role_name (reg_role userData)) ["citizen"; "media_analyst"];
           permissions := ROLE_PERMISSIONS (reg_role userData) |} in
      ({| users := users st ++ [newUser]; user := Some newUser; stored := Some newUser;
          loading := false |}, true)
  end.

Definition logout (st : auth) : auth :=
  {| users := users st; user := None; stored := None; loading := loading st |}.

Definition hasPermission (st : auth) (permission : string) : bool :=
  match user st with
  | Some u => mem permission (permissions u)
  | None => false
  end.

Definition isAuthenticated (st : auth) : bool :=
  match user st with
  | Some _ => true
  | None => false
  end.

End AuthContext.

(** ** Live stream: the comment list and its statistics *)

Module LiveStream.
Import JsString Backend LiveStreamAnalyzer.

Record Comment : Type :=
  { id : Z;
    text : string;
    c_sentiment : string;
    c_score : number;
    timestamp : Z;
    user : string }.

Record StreamStats : Type :=
  { totalComments : Z;
    positive : Z;
    negative : Z;
    neutral : Z;
    avgSentiment : number }.

Record HistoryEntry : Type :=
  { time : string;
    h_sentiment : number;
    h_positive : Z;
    h_negative : Z;
    h_neutral : Z }.

(** The state of the component, with [commentIdRef.current]. *)
Record stream : Type :=
  { comments : list Comment;
    stats : StreamStats;
    sentimentHistory : list HistoryEntry;
    commentId : Z }.

Definition no_stats : StreamStats :=
  {| totalComments := 0; positive := 0; negative := 0; neutral := 0;
     avgSentiment := Some 0%Q |}.

Definition initial : stream :=
  {| comments := []; stats := no_stats; sentimentHistory := []; commentId := 0 |}.






(** [a + b] on numbers, NaN absorbing *)
Definition add (a b : number) : number :=
  match a, b with
  | Some x, Some y => Some (x + y)%Q
  | _, _ => None
  end.







End LiveStream.

(** ** Combined insights: the backend calls and [handleAnalyze] *)

Module CombinedInsightsCalls.
Import JsString JsObject Backend.

(** The [getWordFrequency] of [src/components/CombinedInsights.tsx] *)
Definition stopWords : list string :=
  ["the"; "a"; "an"; "and"; "or"; "but"; "in"; "on"; "at"; "to"; "for"; "of"; "with"; "by"].

Definition words (text : string) : list string :=
  filter (fun word => (2 <? String.length word)%nat && negb (mem word stopWords))
    (split_spaces (replace_non_word (toLowerCase text))).

Definition getWordFrequency (text : string) : list (string * value) :=
  JsArray.slice0 20
    (JsArray.sort WordCloudGenerator.by_count
       (entries (fold_left WordCloudGenerator.count_word (words text) empty))).

Record analyzed : Type :=
  { a_id : nat; a_text : string; a_sentiment : string; a_score : Z }.

Record sentimentStats : Type :=
  { positive : nat; negative : nat; neutral : nat; total : nat }.

Definition count_label (label_ : string) (l : list analyzed) : nat :=
  List.length (filter (fun c => String.eqb (a_sentiment c) label_) l).

Fixpoint map_i {A B : Type} (f : A -> nat -> B) (i : nat) (l : list A) : list B :=
  match l with
  | [] => []
  | x :: l' => f x i :: map_i f (S i) l'
  end.

(** [fetchBackendSentiment] *)
Definition fetchBackendSentiment (comments : list string) (response : outcome (list row))
  : list analyzed * sentimentStats :=
  match response with
  | Answer rows =>
      let analyzedComments :=
        map_i
          (fun text i =>
             let sentiment :=
               toLowerCase
                 (match nth_error rows i with
                  | Some row => label row
                  | None => "neutral"
                  end) in
             {| a_id := i; a_text := text; a_sentiment := sentiment;
                a_score := CombinedInsights.lexicalScore text |})
          0 comments in
      (analyzedComments,
       {| positive := count_label "positive" analyzedComments;
          negative := count_label "negative" analyzedComments;
          neutral := count_label "neutral" analyzedComments;
          total := List.length analyzedComments |})
  | Rejected | Malformed =>
      let analyzedComments :=
        map_i
          (fun text i =>
             {| a_id := i; a_text := text; a_sentiment := "neutral"; a_score := 0 |})
          0 comments in
      (analyzedComments,
       {| positive := 0; negative := 0; neutral := List.length analyzedComments;
          total := List.length analyzedComments |})
  end.

(** [fetchBackendSummary]; the payload of an answer is [parsedSummary]. *)
Definition fetchBackendSummary (comments : list string) (response : outcome string) : string :=
  match response with
  | Answer parsedSummary => parsedSummary
  | Rejected | Malformed => ""
  end.

Record results : Type :=
  { sentiment : sentimentStats;
    summary : string;
    wordFreq : list (string * value);
    comments : list analyzed }.

Record state : Type :=
  { inputText : string; analysisResults : option results; isProcessing : bool }.

Definition is_newline (c : ascii) : bool := Ascii.eqb c "010".

(** [inputText.split(/\n+/).map(l => l.trim()).filter(l => l.length > 0)] *)
Definition comment_lines (inputText : string) : list string :=
  filter (fun l => (0 <? String.length l)%nat)
    (map trim (split_plus is_newline inputText)).

(** [handleAnalyze]: the state once the handler has run to its end. *)
Definition handleAnalyze (st : state) (sentimentResponse : outcome (list row))
           (summaryResponse : outcome string) : state :=
  if String.eqb (trim (inputText st)) "" then st
  else
    let comments_ := comment_lines (inputText st) in
    let sentimentRes := fetchBackendSentiment comments_ sentimentResponse in
    let summaryText := fetchBackendSummary comments_ summaryResponse in
    let wordFreq_ := getWordFrequency (inputText st) in
    {| inputText := inputText st;
       analysisResults :=
         Some {| sentiment := snd sentimentRes; summary := summaryText;
                 wordFreq := wordFreq_; comments := fst sentimentRes |};
       isProcessing := false |}.

End CombinedInsightsCalls.

(** ** Word-cloud layout: sizes of the words *)

Module WordCloudWords.
Import JsObject.
Local Open Scope Q_scope.

(** [Math.max(...counts)]; [None] is [-Infinity], the result on no
    argument. *)
Fixpoint maximum (counts : list Z) : option Z :=
  match counts with
  | [] => None
  | c :: rest =>
      match maximum rest with
      | None => Some c
      | Some m => Some (Z.max c m)
      end
  end.

Record word : Type := { w_text : string; w_count : Z; w_size : Q; w_radius : Q }.

(** The words handed to the layout by [generateWordCloud], for entries
    [wordFreqs] whose counts are all numbers (an entry with a string in
    the place of its count turns [maxCount], and with it every size and
    radius, into NaN; such entries are outside this definition). *)
Definition layout_words (wordFreqs : list (string * Z)) : list word :=
  match maximum (map snd wordFreqs) with
  | None => []
  | Some maxCount =>
      map (fun e =>
             let size := WordCloudLayout.size_of (snd e) maxCount in
             {| w_text := fst e; w_count := snd e; w_size := size;
                w_radius := WordCloudLayout.adjustedRadius size (String.length (fst e)) |})
        wordFreqs
  end.

(** The node built for a placed word: the layout and the simulation choose
    its position. *)
Definition node_of (w : word) (x y : Q) : WordCloudLayout.node :=
  {| WordCloudLayout.text := w_text w; WordCloudLayout.x := x; WordCloudLayout.y := y;
     WordCloudLayout.radius := w_radius w |}.

End WordCloudWords.

(** ** Sentiment dashboard: the comment list and what is charted *)

Module SentimentDashboardView.
Import JsString Backend.

(** [s.split('\n')]: the pieces between single separators, empty ones
    included. *)
Fixpoint split_char (sep : ascii) (s : string) : list string :=
  match s with
  | EmptyString => [EmptyString]
  | String c s' =>
      if Ascii.eqb c sep then EmptyString :: split_char sep s'
      else
        match split_char sep s' with
        | piece :: rest => String c piece :: rest
        | [] => [String c EmptyString]
        end
  end.

Definition sampleComments : list string :=
  ["This bill is excellent and will greatly benefit small businesses. I fully support this initiative.";
   "I oppose this amendment as it creates unnecessary burden on companies and may harm economic growth.";
   "The proposed changes seem reasonable and balanced. Need more clarity on implementation timeline.";
   "This is a terrible idea that will destroy our industry. Please reconsider this harmful legislation.";
   "Great step forward! This will improve transparency and accountability in corporate governance.";
   "I have concerns about the compliance costs but understand the need for better regulations.";
   "Strongly support this bill. It addresses long-standing issues in the corporate sector effectively.";
   "The implementation seems rushed. More consultation with stakeholders is needed before passing.";
   "This amendment is well-drafted and addresses key concerns of the business community.";
   "Unclear about the practical implications. More detailed guidelines are necessary."].

(** A listed comment; the id [`${n}-${Math.random()}`] is kept as its two
    parts. *)
Record comment : Type :=
  { id_number : nat; id_random : Q; text : string;
    sentiment : string; score : Z; confidence : option Q; normalizedScore : Q }.

Record state : Type := { inputText : string; comments : list comment; filter_ : string }.

Definition initial : state := {| inputText := ""; comments := []; filter_ := "all" |}.

(** What one handler run gets from outside: the backend's outcome for the
    i-th text and the i-th value of [Math.random()]. *)
Record world : Type :=
  { response : nat -> outcome (list row); random : nat -> Q }.

(** The comments built by a handler once the responses are in.  The
    handler is a closure of the render in which it was started: [seen] is
    the state of that render, and [comments.length] is read from it, also
    after the [await]. *)
Definition newComments (seen : state) (w : world) (texts : list string) : list comment :=
  CombinedInsightsCalls.map_i
    (fun line i =>
       let r := SentimentDashboard.analyzeSentiment line (response w i) in
       {| id_number := List.length (comments seen) + i; id_random := random w i;
          text := line;
          sentiment := SentimentDashboard.sentiment r;
          score := SentimentDashboard.score r;
          confidence := SentimentDashboard.confidence r;
          normalizedScore := SentimentDashboard.normalizedScore r |})
    0 texts.

Definition lines (inputText : string) : list string :=
  filter (fun l => negb (String.eqb l "")) (map trim (split_char "010" inputText)).

(** [handleAnalyze], started in the state [seen] and completed, when the
    responses are in, in the state [st]: the input and the number of
    comments are those of [seen], while [setComments(prev => ...)] and
    [setInputText('')] act on [st].  Other handlers may have run in
    between, a second run of this one included. *)
Definition handleAnalyzeFrom (seen st : state) (w : world) : state :=
  if String.eqb (trim (inputText seen)) "" then st
  else
    {| inputText := "";
       comments := newComments seen w (lines (inputText seen)) ++ comments st;
       filter_ := filter_ st |}.

(** [handleBulkUpload], started in [seen] and completed in [st]. *)
Definition handleBulkUploadFrom (seen st : state) (w : world) : state :=
  {| inputText := inputText st;
     comments := newComments seen w (JsArray.slice0 5 sampleComments) ++ comments st;
     filter_ := filter_ st |}.

(** The runs during which nothing else happens. *)
Definition handleAnalyze (st : state) (w : world) : state := handleAnalyzeFrom st st w.

Definition handleBulkUpload (st : state) (w : world) : state :=
  handleBulkUploadFrom st st w.

Definition setInputText (st : state) (value : string) : state :=
  {| inputText := value; comments := comments st; filter_ := filter_ st |}.

Definition setFilter (st : state) (value : string) : state :=
  {| inputText := inputText st; comments := comments st; filter_ := value |}.

Definition filteredComments (st : state) : list comment :=
  filter (fun c => String.eqb (filter_ st) "all" || String.eqb (sentiment c) (filter_ st))
    (comments st).

Record sentimentStats : Type :=
  { positive : nat; negative : nat; neutral : nat; total : nat }.

Definition count_label (label_ : string) (l : list comment) : nat :=
  List.length (filter (fun c => String.eqb (sentiment c) label_) l).

Definition stats (st : state) : sentimentStats :=
  {| positive := count_label "positive" (comments st);
     negative := count_label "negative" (comments st);
     neutral := count_label "neutral" (comments st);
     total := List.length (comments st) |}.

Record point : Type := { p_id : nat; p_sentiment : Q; p_type : string }.

Definition timeSeriesData (st : state) : list point :=
  CombinedInsightsCalls.map_i
    (fun c i => {| p_id := i + 1; p_sentiment := normalizedScore c; p_type := sentiment c |})
    0 (rev (JsArray.slice0 10 (comments st))).

End SentimentDashboardView.

(** ** Comment summarizer: [extractKeyPhrases] *)

Module KeyPhrases.
Import JsString.

Definition importantTerms : list string :=
  ["corporate governance"; "compliance requirements"; "regulatory framework";
   "business operations"; "financial reporting"; "shareholder rights";
   "board responsibilities"; "audit requirements"; "disclosure norms";
   "penalty provisions"; "implementation timeline"; "exemption criteria"].

(** [A-Z] and [a-z] *)
Definition is_AZ (c : ascii) : bool := in_range 65 90 c.
Definition is_az (c : ascii) : bool := in_range 97 122 c.

(** The longest prefix made of characters of the class, and what follows
    it: what a greedy [[...]*] consumes. *)
Fixpoint run (class : ascii -> bool) (s : string) : string * string :=
  match s with
  | EmptyString => (EmptyString, EmptyString)
  | String c s' =>
      if class c then let (taken, rest) := run class s' in (String c taken, rest)
      else (EmptyString, s)
  end.

(** A match of [/[A-Z][a-z]+ [A-Z][a-z]+/] at the start of [s].  Giving
    back letters of the first word cannot help, the next character would
    be a letter and not the space, so the greedy runs decide. *)
Definition match_here (s : string) : option string :=
  match s with
  | String u1 r1 =>
      if is_AZ u1 then
        let (l1, r2) := run is_az r1 in
        match l1, r2 with
        | String _ _, String " " (String u2 r4) =>
            if is_AZ u2 then
              let (l2, _) := run is_az r4 in
              match l2 with
              | String _ _ => Some (String u1 (l1 ++ String " " (String u2 l2)))
              | EmptyString => None
              end
            else None
        | _, _ => None
        end
      else None
  | EmptyString => None
  end.

(** [text.match(/.../g)]: the matches from left to right, the search
    resuming after each one; [skip] characters still belong to the last
    match. *)
Fixpoint scan (skip : nat) (s : string) : list string :=
  match s with
  | EmptyString => []
  | String _ s' =>
      match skip with
      | S k => scan k s'
      | O =>
          match match_here s with
          | Some m => m :: scan (String.length m - 1) s'
          | None => scan 0 s'
          end
      end
  end.

Definition capitalizedPhrases (text : string) : list string := scan 0 text.

(** [[...new Set(l)]]: the first occurrence of each value, in order. *)
Fixpoint unique_from (seen : list string) (l : list string) : list string :=
  match l with
  | [] => []
  | x :: rest =>
      if mem x seen then unique_from seen rest else x :: unique_from (x :: seen) rest
  end.

Definition unique : list string -> list string := unique_from [].

Definition extractKeyPhrases (text : string) : list string :=
  let phrases :=
    filter (fun term => includes (toLowerCase text) term) importantTerms
      ++ JsArray.slice0 5 (capitalizedPhrases text) in
  JsArray.slice0 8 (unique phrases).

End KeyPhrases.

(** * Properties *)

From Stdlib Require Import Lqa.

(** ** Sorting *)

Section SortFacts.
Context {A : Type}.
Variable cmp : A -> A -> Z.

Lemma insert_perm (x : A) (l : list A) :
  Permutation (x :: l) (JsArray.insert cmp x l).
Proof.
  induction l as [|y l IH]; simpl.
  - apply Permutation_refl.
  - destruct (cmp x y <=? 0).
    + apply Permutation_refl.
    + eapply perm_trans; [apply perm_swap|]. now apply perm_skip.
Qed.

Lemma sort_perm (l : list A) : Permutation l (JsArray.sort cmp l).
Proof.
  induction l as [|x l IH]; simpl.
  - apply perm_nil.
  - eapply perm_trans; [apply perm_skip, IH|]. apply insert_perm.
Qed.

Lemma sort_length (l : list A) : List.length (JsArray.sort cmp l) = List.length l.
Proof. symmetry. apply Permutation_length, sort_perm. Qed.

Lemma sort_In (x : A) (l : list A) : In x (JsArray.sort cmp l) <-> In x l.
Proof.
  split; intro H.
  - eapply Permutation_in; [apply Permutation_sym, sort_perm|exact H].
  - eapply Permutation_in; [apply sort_perm|exact H].
Qed.

Definition goes_first (a b : A) : Prop := cmp a b <= 0.

Hypothesis cmp_total : forall x y, cmp x y <= 0 \/ cmp y x <= 0.

Lemma insert_sorted (x : A) (l : list A) :
  Sorted goes_first l -> Sorted goes_first (JsArray.insert cmp x l).
Proof.
  induction 1 as [|y l Hs IH Hd]; simpl.
  - repeat constructor.
  - destruct (cmp x y <=? 0) eqn:E.
    + constructor; [now constructor|]. constructor. now apply Z.leb_le.
    + apply Z.leb_gt in E. constructor; [exact IH|].
      assert (Hyx : goes_first y x) by (destruct (cmp_total x y); [lia|assumption]).
      destruct Hd as [|z l' Hyz]; simpl.
      * now constructor.
      * destruct (cmp x z <=? 0); now constructor.
Qed.

Lemma sort_sorted (l : list A) : Sorted goes_first (JsArray.sort cmp l).
Proof.
  induction l as [|x l IH]; simpl; [constructor|now apply insert_sorted].
Qed.

End SortFacts.

(** ** Splitting *)

Lemma split_plus_nonempty (sep : ascii -> bool) (s : string) :
  JsString.split_plus sep s <> [].
Proof.
  induction s as [|c s IH]; simpl; [discriminate|].
  destruct (sep c).
  - destruct (JsString.starts_with sep s); [exact IH|discriminate].
  - destruct (JsString.split_plus sep s); discriminate.
Qed.

Lemma split_plus_length (sep : ascii -> bool) (s : string) :
  (1 <= List.length (JsString.split_plus sep s))%nat.
Proof.
  pose proof (split_plus_nonempty sep s).
  destruct (JsString.split_plus sep s); [congruence|simpl; lia].
Qed.

(** ** Lexical score *)

(** The number of tokens of [words] that belong to the word list [l]. *)
Definition occurrences (l : list string) (words : list string) : Z :=
  Z.of_nat (List.length (filter (fun word => JsString.mem word l) words)).

Lemma score_words_from (positive negative : list string) (words : list string) (acc : Z) :
  fold_left (CombinedInsights.score_word positive negative) words acc
  = acc + occurrences positive words - occurrences negative words.
Proof.
  revert acc. unfold occurrences.
  induction words as [|w words IH]; intro acc; simpl.
  - lia.
  - rewrite IH. unfold CombinedInsights.score_word.
    destruct (JsString.mem w positive), (JsString.mem w negative);
      cbn [List.length]; lia.
Qed.

Lemma count_present_from (text : string) (l : list string) (acc : Z) :
  fold_left (fun count word => if JsString.includes text word then count + 1 else count)
    l acc
  = acc + Z.of_nat (List.length (filter (fun word => JsString.includes text word) l)).
Proof.
  revert acc. induction l as [|w l IH]; intro acc; simpl; [lia|].
  rewrite IH. destruct (JsString.includes text w); cbn [List.length]; lia.
Qed.

(** C3, as the code has it.  [lexicalScore] lower-cases the text, splits
    it on white space and adds one for every token that is a positive word
    and subtracts one for every token that is a negative word, each
    occurrence counting and only whole tokens matching; on "good good bad"
    the score is 2 - 1 = 1, both with the lists of the component and with
    the lists [good] and [bad].  The local fallback of the live stream
    counts otherwise: a listed word counts once when the lower-cased text
    contains it, as a substring and however often, and the label follows
    the comparison of the two counts. *)
Theorem C3_lexicalScore_counts_tokens :
  (forall positive negative text,
      CombinedInsights.lexicalScoreWith positive negative text
      = occurrences positive (JsString.split_spaces (JsString.toLowerCase text))
        - occurrences negative (JsString.split_spaces (JsString.toLowerCase text)))
  /\ (forall text,
         CombinedInsights.lexicalScore text
         = CombinedInsights.lexicalScoreWith
             CombinedInsights.positiveWords CombinedInsights.negativeWords text)
  /\ CombinedInsights.lexicalScoreWith ["good"] ["bad"] "good good bad" = 2 - 1
  /\ CombinedInsights.lexicalScore "good good bad" = 1
  /\ (forall text l,
         LiveStreamAnalyzer.count_present text l
         = Z.of_nat (List.length (filter (fun word => JsString.includes text word) l)))
  /\ (forall text random,
         LiveStreamAnalyzer.sentiment
           (LiveStreamAnalyzer.getLocalSentimentAnalysis text random)
         = if LiveStreamAnalyzer.count_present (JsString.toLowerCase text)
                LiveStreamAnalyzer.negativeWords
              <? LiveStreamAnalyzer.count_present (JsString.toLowerCase text)
                   LiveStreamAnalyzer.positiveWords
           then "positive"
           else if LiveStreamAnalyzer.count_present (JsString.toLowerCase text)
                     LiveStreamAnalyzer.positiveWords
                   <? LiveStreamAnalyzer.count_present (JsString.toLowerCase text)
                        LiveStreamAnalyzer.negativeWords
                then "negative" else "neutral").
Proof.
  split; [|split; [|split; [|split; [|split]]]]; try reflexivity.
  - intros positive negative text. unfold CombinedInsights.lexicalScoreWith.
    rewrite score_words_from. lia.
  - intros text l. unfold LiveStreamAnalyzer.count_present.
    rewrite count_present_from. lia.
  - intros text random. unfold LiveStreamAnalyzer.getLocalSentimentAnalysis.
    destruct (_ <? _); [reflexivity|]. destruct (_ <? _); reflexivity.
Qed.

(** C3 as stated fails on the local fallback of the live stream, the
    second place it is read from: on "good good bad" two tokens are the
    positive word "good" and one is the negative word "bad", yet the
    fallback counts one positive and one negative word and calls the text
    neutral, with a score drawn at random and a difference of counts of 0,
    not 1. *)
Lemma C3_local_fallback_counts_a_word_once :
  occurrences ["good"] (JsString.split_spaces (JsString.toLowerCase "good good bad")) = 2
  /\ occurrences ["bad"] (JsString.split_spaces (JsString.toLowerCase "good good bad")) = 1
  /\ LiveStreamAnalyzer.count_present (JsString.toLowerCase "good good bad")
       LiveStreamAnalyzer.positiveWords = 1
  /\ LiveStreamAnalyzer.count_present (JsString.toLowerCase "good good bad")
       LiveStreamAnalyzer.negativeWords = 1
  /\ LiveStreamAnalyzer.count_present (JsString.toLowerCase "good good bad") ["good"]
     - LiveStreamAnalyzer.count_present (JsString.toLowerCase "good good bad") ["bad"]
     <> 2 - 1
  /\ forall random,
      LiveStreamAnalyzer.getLocalSentimentAnalysis "good good bad" random
      = {| LiveStreamAnalyzer.sentiment := "neutral";
           LiveStreamAnalyzer.score :=
             Some ((LiveStreamAnalyzer.second random - 0.5) * 0.4)%Q;
           LiveStreamAnalyzer.confidence :=
             Some (0.3 + LiveStreamAnalyzer.first random * 0.2)%Q |}.
Proof.
  repeat split; try (vm_compute; reflexivity).
  vm_compute. discriminate.
Qed.

(** ** Normalized score of the dashboard *)

Lemma clamp_unit_bounds (x : Q) :
  (-1 <= SentimentDashboard.clamp_unit x /\ SentimentDashboard.clamp_unit x <= 1)%Q.
Proof.
  unfold SentimentDashboard.clamp_unit. split.
  - apply Q.le_max_l.
  - apply Q.max_lub; [lra|apply Q.le_min_l].
Qed.

(** C2. Whatever the text and whatever the backend answers, the normalized
    score returned by [analyzeSentiment] lies in [-1, 1]; when the backend
    returns a row it is the lexical score divided by the number of tokens
    (never zero), times 5, clamped. *)
Theorem C2_normalizedScore_in_unit_interval :
  forall (text : string) (response : Backend.outcome (list Backend.row)),
    (-1 <= SentimentDashboard.normalizedScore
             (SentimentDashboard.analyzeSentiment text response)
     /\ SentimentDashboard.normalizedScore
          (SentimentDashboard.analyzeSentiment text response) <= 1)%Q
    /\ (1 <= List.length (JsString.split_spaces (JsString.toLowerCase text)))%nat
    /\ forall row rows,
        response = Backend.Answer (row :: rows) ->
        SentimentDashboard.normalizedScore
          (SentimentDashboard.analyzeSentiment text response)
        = SentimentDashboard.clamp_unit
            (inject_Z (SentimentDashboard.score
                         (SentimentDashboard.analyzeSentiment text response))
             / inject_Z (Z.of_nat
                           (List.length (JsString.split_spaces (JsString.toLowerCase text))))
             * 5)%Q.
Proof.
  intros text response. split; [|split].
  - destruct response as [| |[|row rows]]; simpl;
      try (split; discriminate); apply clamp_unit_bounds.
  - apply split_plus_length.
  - intros row rows ->. reflexivity.
Qed.

(** ** Word-cloud clamping *)

Lemma clamp_between (lo hi v : Q) :
  (lo <= hi -> lo <= Qmax lo (Qmin hi v) /\ Qmax lo (Qmin hi v) <= hi)%Q.
Proof.
  intro H. split.
  - apply Q.le_max_l.
  - apply Q.max_lub; [exact H|apply Q.le_min_l].
Qed.

(** Every radius computed by [generateWordCloud] lies between 12 and 101.2,
    whatever the font size and the length of the word. *)
Lemma adjustedRadius_bounds (size : Q) (len : nat) :
  (12 <= WordCloudLayout.adjustedRadius size len
   /\ WordCloudLayout.adjustedRadius size len <= 101.2)%Q.
Proof.
  unfold WordCloudLayout.adjustedRadius. split.
  - apply Q.le_max_l.
  - apply Q.max_lub; [lra|].
    set (b := Qmax (Qmax 14 (size * 1.0)) (0.6 * size * inject_Z (Z.of_nat len) / 2 + 10)).
    pose proof (Q.le_min_r b 110). lra.
Qed.

(** C8. A node whose radius is at most half the width and half the height
    of the 1000 x 650 canvas has, after the final clamping, its centre at
    least one radius away from each edge. *)
Theorem C8_clamped_center_within_canvas :
  forall n : WordCloudLayout.node,
    (WordCloudLayout.radius n <= WordCloudLayout.halfW)%Q ->
    (WordCloudLayout.radius n <= WordCloudLayout.halfH)%Q ->
    (- WordCloudLayout.halfW + WordCloudLayout.radius n
       <= WordCloudLayout.x (WordCloudLayout.clamp n)
     /\ WordCloudLayout.x (WordCloudLayout.clamp n)
        <= WordCloudLayout.halfW - WordCloudLayout.radius n
     /\ - WordCloudLayout.halfH + WordCloudLayout.radius n
        <= WordCloudLayout.y (WordCloudLayout.clamp n)
     /\ WordCloudLayout.y (WordCloudLayout.clamp n)
        <= WordCloudLayout.halfH - WordCloudLayout.radius n)%Q
    /\ WordCloudLayout.radius (WordCloudLayout.clamp n) = WordCloudLayout.radius n
    /\ WordCloudLayout.halfW == 500 /\ WordCloudLayout.halfH == 325.
Proof.
  intros n Hw Hh. split; [|split; [reflexivity|split; reflexivity]].
  destruct n as [t x y r]; simpl in *.
  assert (Hx : (- WordCloudLayout.halfW + r <= WordCloudLayout.halfW - r)%Q) by lra.
  assert (Hy : (- WordCloudLayout.halfH + r <= WordCloudLayout.halfH - r)%Q) by lra.
  destruct (clamp_between _ _ x Hx), (clamp_between _ _ y Hy). tauto.
Qed.

Lemma C8_clamped_center_within_canvas_witness :
  (- 500 + 40 <= WordCloudLayout.x
                   (WordCloudLayout.clamp
                      {| WordCloudLayout.text := "governance";
                         WordCloudLayout.x := 700; WordCloudLayout.y := -400;
                         WordCloudLayout.radius := 40 |})
   /\ WordCloudLayout.x
        (WordCloudLayout.clamp
           {| WordCloudLayout.text := "governance";
              WordCloudLayout.x := 700; WordCloudLayout.y := -400;
              WordCloudLayout.radius := 40 |}) <= 500 - 40)%Q.
Proof.
  pose proof (C8_clamped_center_within_canvas
                {| WordCloudLayout.text := "governance";
                   WordCloudLayout.x := 700; WordCloudLayout.y := -400;
                   WordCloudLayout.radius := 40 |}) as H.
  simpl WordCloudLayout.radius in H.
  assert (Hw : (40 <= WordCloudLayout.halfW)%Q) by (vm_compute; discriminate).
  assert (Hh : (40 <= WordCloudLayout.halfH)%Q) by (vm_compute; discriminate).
  destruct (H Hw Hh) as [[H1 [H2 _]] _].
  split.
  - eapply Qle_trans; [|exact H1]. vm_compute; discriminate.
  - eapply Qle_trans; [exact H2|]. vm_compute; discriminate.
Defined.

(** Every node built by [generateWordCloud] satisfies the premise of C8. *)
Lemma generated_nodes_fit (size : Q) (len : nat) :
  (WordCloudLayout.adjustedRadius size len <= WordCloudLayout.halfH
   /\ WordCloudLayout.adjustedRadius size len <= WordCloudLayout.halfW)%Q.
Proof.
  destruct (adjustedRadius_bounds size len) as [_ H].
  split; (eapply Qle_trans; [exact H|vm_compute; discriminate]).
Qed.

(** ** Local sentiment fallback *)

Lemma capped_confidence_bounds (d : Z) :
  1 <= d ->
  (0.6 <= Qmin (0.5 + inject_Z d * 0.1) 0.9 /\ Qmin (0.5 + inject_Z d * 0.1) 0.9 <= 0.9)%Q.
Proof.
  intro Hd. split.
  - apply Q.min_glb; [|lra].
    assert (H : (inject_Z 1 <= inject_Z d)%Q) by (rewrite <- Zle_Qle; exact Hd).
    change (inject_Z 1) with 1%Q in H. lra.
  - apply Q.le_min_r.
Qed.

(** C10, as the code has it.  For every text and all draws in [0, 1) the
    local fallback returns numbers, a score in [-0.95, 0.95] and a
    confidence in [0, 0.9]: on the positive branch the score is
    0.5 + confidence * 0.5 with the confidence capped at 0.9, on the
    negative branch it is the negation, and on the neutral branch the score
    lies in [-0.2, 0.2), the lower end included, with a confidence in
    [0.3, 0.5].  Only bounds that the rounded arithmetic of the code keeps
    are stated: the sum 0.3 + r * 0.2 rounds to 0.5 for the largest draw
    below 1, so the upper end of the confidence is included. *)
Theorem C10_local_fallback_ranges :
  forall (text : string) (random : LiveStreamAnalyzer.draws),
    (0 <= LiveStreamAnalyzer.first random)%Q ->
    (LiveStreamAnalyzer.first random < 1)%Q ->
    (0 <= LiveStreamAnalyzer.second random)%Q ->
    (LiveStreamAnalyzer.second random < 1)%Q ->
    exists s c : Q,
      LiveStreamAnalyzer.score
        (LiveStreamAnalyzer.getLocalSentimentAnalysis text random) = Some s
      /\ LiveStreamAnalyzer.confidence
           (LiveStreamAnalyzer.getLocalSentimentAnalysis text random) = Some c
      /\ (-0.95 <= s /\ s <= 0.95 /\ -1 < s /\ s < 1)%Q
      /\ (0 <= c /\ c <= 0.9)%Q
      /\ ((LiveStreamAnalyzer.sentiment
             (LiveStreamAnalyzer.getLocalSentimentAnalysis text random) = "positive"
           /\ s == 0.5 + c * 0.5)%Q
          \/ (LiveStreamAnalyzer.sentiment
                (LiveStreamAnalyzer.getLocalSentimentAnalysis text random) = "negative"
              /\ s == - (0.5 + c * 0.5))%Q
          \/ (LiveStreamAnalyzer.sentiment
                (LiveStreamAnalyzer.getLocalSentimentAnalysis text random) = "neutral"
              /\ -0.2 <= s /\ s < 0.2 /\ 0.3 <= c /\ c <= 0.5)%Q).
Proof.
  intros text random Hf0 Hf1 Hs0 Hs1.
  unfold LiveStreamAnalyzer.getLocalSentimentAnalysis.
  set (p := LiveStreamAnalyzer.count_present _ LiveStreamAnalyzer.positiveWords).
  set (n := LiveStreamAnalyzer.count_present _ LiveStreamAnalyzer.negativeWords).
  destruct (n <? p) eqn:Hpos; [|destruct (p <? n) eqn:Hneg]; simpl.
  - apply Z.ltb_lt in Hpos.
    destruct (capped_confidence_bounds (p - n)) as [Hlo Hhi]; [lia|].
    eexists _, _. split; [reflexivity|]. split; [reflexivity|].
    set (c := Qmin _ _) in *.
    repeat split; try lra. left. split; [reflexivity|lra].
  - apply Z.ltb_lt in Hneg.
    destruct (capped_confidence_bounds (n - p)) as [Hlo Hhi]; [lia|].
    eexists _, _. split; [reflexivity|]. split; [reflexivity|].
    set (c := Qmin _ _) in *.
    repeat split; try lra. right; left. split; [reflexivity|lra].
  - eexists _, _. split; [reflexivity|]. split; [reflexivity|].
    repeat split; try lra. right; right. repeat split; lra.
Qed.

Lemma C10_local_fallback_ranges_witness :
  exists s c : Q,
    LiveStreamAnalyzer.score
      (LiveStreamAnalyzer.getLocalSentimentAnalysis
         "Great bill, but a burden and a concern"
         {| LiveStreamAnalyzer.first := 0.25; LiveStreamAnalyzer.second := 0.75 |})
    = Some s
    /\ LiveStreamAnalyzer.confidence
         (LiveStreamAnalyzer.getLocalSentimentAnalysis
            "Great bill, but a burden and a concern"
            {| LiveStreamAnalyzer.first := 0.25; LiveStreamAnalyzer.second := 0.75 |})
       = Some c
    /\ (-0.95 <= s /\ s <= 0.95)%Q.
Proof.
  destruct (C10_local_fallback_ranges
              "Great bill, but a burden and a concern"
              {| LiveStreamAnalyzer.first := 0.25; LiveStreamAnalyzer.second := 0.75 |})
    as (s & c & Hs & Hc & (H1 & H2 & _) & _).
  - vm_compute; discriminate.
  - vm_compute; reflexivity.
  - vm_compute; discriminate.
  - vm_compute; reflexivity.
  - exists s, c. repeat split; assumption.
Defined.

(** C10 as stated fails on the neutral branch: a draw of 0 gives the score
    -0.2 itself, which is not inside the open interval (-0.2, 0.2). *)
Lemma C10_neutral_score_can_be_minus_0_2 :
  (0 <= 0 /\ 0 < 1)%Q
  /\ LiveStreamAnalyzer.sentiment
       (LiveStreamAnalyzer.getLocalSentimentAnalysis
          "The draft is under review"
          {| LiveStreamAnalyzer.first := 0; LiveStreamAnalyzer.second := 0 |})
     = "neutral"
  /\ exists s : Q,
      LiveStreamAnalyzer.score
        (LiveStreamAnalyzer.getLocalSentimentAnalysis
           "The draft is under review"
           {| LiveStreamAnalyzer.first := 0; LiveStreamAnalyzer.second := 0 |})
      = Some s
      /\ s == -0.2
      /\ ~ (-0.2 < s /\ s < 0.2)%Q.
Proof.
  split; [split; [discriminate|reflexivity]|].
  split; [reflexivity|].
  eexists. split; [reflexivity|]. split; [reflexivity|].
  intros [H _]. vm_compute in H. discriminate.
Qed.

(** ** Failing backend calls *)

(** The settled requests on which [handleSummarize] reaches its outer
    [catch]: a rejected [fetch], a body that is not JSON, and the JSON
    body [null]. *)
Definition reaches_catch (response : BackendSummarizer.fetched) : bool :=
  match response with
  | BackendSummarizer.FetchRejected | BackendSummarizer.NotJson
  | BackendSummarizer.Body Json.Null => true
  | BackendSummarizer.Body _ => false
  end.

Definition blank (st : BackendSummarizer.state) : bool :=
  String.eqb (JsString.trim (BackendSummarizer.inputText st)) "".

Lemma parsedSummary_of_body (JSON_parse : string -> option Json.value) (data : Json.value) :
  data <> Json.Null ->
  exists parsed,
    fst (BackendSummarizer.parsedSummary JSON_parse data) = Some parsed
    /\ (snd (BackendSummarizer.parsedSummary JSON_parse data) = []
        \/ snd (BackendSummarizer.parsedSummary JSON_parse data)
           = [BackendSummarizer.inner_error]).
Proof.
  intro Hdata. unfold BackendSummarizer.parsedSummary.
  destruct data as [|b|shown|s|items|members]; try congruence;
    cbn [Json.summary_of]; try (eexists; split; [reflexivity|now left]).
  destruct (Json.lookup members "summary") as [[|b|shown|s|items|inner_members]|];
    try (eexists; split; [reflexivity|tauto]).
  - destruct (BackendSummarizer.first_match s); [eexists; split; [reflexivity|tauto]|].
    destruct (JSON_parse (BackendSummarizer.normalize s)) as [inner|];
      [|eexists; split; [reflexivity|tauto]].
    destruct inner; try (eexists; split; [reflexivity|tauto]).
    cbn [Json.summary_of]. destruct (Json.lookup members0 "summary") as [v|];
      [destruct (Json.truthy v)|]; eexists; split; try reflexivity; tauto.
  - destruct (Json.lookup inner_members "summary") as [v|];
      [destruct (Json.truthy v)|]; eexists; split; try reflexivity; tauto.
Qed.

(** C7, as the code has it.  A request whose reading throws is caught at
    every call site and shows no error.  At the sentiment sites the
    live-stream [analyzeSentiment] then returns what the local keyword
    heuristic computes and the dashboard [analyzeSentiment] the fixed
    neutral result.  [handleSummarize] always ends with the processing
    flag cleared.  When the fetch rejects, the body is not JSON or the body
    is [null], it leaves the summary and the key phrases as they were,
    computes no local summary and writes "Error fetching summary:" to the
    console, after "Failed to parse inner summary:" for the body [null].
    Every other body is no failure to it: the key phrases are emptied and
    the summary is set to what the handler reads from the body, with at
    most the line "Failed to parse inner summary:" on the console. *)
Theorem C7_failures_are_caught :
  forall (sentiment_response : Backend.outcome (list Backend.row))
         (use_local_fallback : bool) (text : string)
         (random : LiveStreamAnalyzer.draws)
         (JSON_parse : string -> option Json.value)
         (st : BackendSummarizer.state) (response : BackendSummarizer.fetched),
    Backend.failed sentiment_response = true ->
    LiveStreamAnalyzer.analyzeSentiment use_local_fallback text sentiment_response random
    = LiveStreamAnalyzer.getLocalSentimentAnalysis text random
    /\ SentimentDashboard.analyzeSentiment text sentiment_response
       = SentimentDashboard.neutral_result
    /\ BackendSummarizer.isProcessing
         (fst (BackendSummarizer.handleSummarize JSON_parse st response))
       = (if blank st then BackendSummarizer.isProcessing st else false)
    /\ (reaches_catch response = true ->
        fst (BackendSummarizer.handleSummarize JSON_parse st response)
        = (if blank st then st else BackendSummarizer.set_isProcessing false st)
        /\ snd (BackendSummarizer.handleSummarize JSON_parse st response)
           = (if blank st then []
              else match response with
                   | BackendSummarizer.Body _ =>
                       [BackendSummarizer.inner_error; BackendSummarizer.outer_error]
                   | _ => [BackendSummarizer.outer_error]
                   end))
    /\ (reaches_catch response = false -> blank st = false ->
        exists data parsed,
          response = BackendSummarizer.Body data
          /\ fst (BackendSummarizer.parsedSummary JSON_parse data) = Some parsed
          /\ fst (BackendSummarizer.handleSummarize JSON_parse st response)
             = BackendSummarizer.set_isProcessing false
                 (BackendSummarizer.set_keyPhrases []
                    (BackendSummarizer.set_summary parsed
                       (BackendSummarizer.set_isProcessing true st)))
          /\ snd (BackendSummarizer.handleSummarize JSON_parse st response)
             = snd (BackendSummarizer.parsedSummary JSON_parse data)
          /\ ~ In BackendSummarizer.outer_error
                (snd (BackendSummarizer.handleSummarize JSON_parse st response))).
Proof.
  intros rs flag text random JSON_parse st response Hs.
  split; [|split; [|split; [|split]]].
  - destruct rs as [| |rows]; try discriminate Hs;
      unfold LiveStreamAnalyzer.analyzeSentiment; destruct flag; reflexivity.
  - destruct rs as [| |rows]; try discriminate Hs; reflexivity.
  - unfold BackendSummarizer.handleSummarize, blank.
    destruct (String.eqb _ ""); [reflexivity|].
    destruct response as [| |data]; try reflexivity.
    destruct (BackendSummarizer.parsedSummary JSON_parse data) as [[parsed|] console];
      reflexivity.
  - intro Hc. unfold BackendSummarizer.handleSummarize, blank.
    destruct (String.eqb _ ""); [split; reflexivity|].
    destruct response as [| |[| | | | |]]; try discriminate Hc; split; reflexivity.
  - intros Hc Hb. unfold BackendSummarizer.handleSummarize. unfold blank in Hb. rewrite Hb.
    destruct response as [| |data]; try discriminate Hc.
    assert (Hdata : data <> Json.Null) by (intros ->; discriminate Hc).
    destruct (parsedSummary_of_body JSON_parse data Hdata) as (parsed & Hp & Hconsole).
    exists data, parsed. split; [reflexivity|]. split; [exact Hp|].
    destruct (BackendSummarizer.parsedSummary JSON_parse data) as [[p|] console];
      [|discriminate Hp].
    injection Hp as ->. cbn [fst snd] in *. split; [reflexivity|]. split; [reflexivity|].
    destruct Hconsole as [->| ->]; [tauto|].
    intros [H|[]]. discriminate H.
Qed.

(** A state with two sentences typed and nothing summarized yet. *)
Definition two_sentences : BackendSummarizer.state :=
  {| BackendSummarizer.inputText := "The bill is good. It helps.";
     BackendSummarizer.summary := Json.Text "";
     BackendSummarizer.keyPhrases := [];
     BackendSummarizer.summaryLength := CommentSummarizer.medium;
     BackendSummarizer.isProcessing := false |}.

Lemma C7_failures_are_caught_witness :
  LiveStreamAnalyzer.analyzeSentiment false "I oppose this burden" Backend.Rejected
    {| LiveStreamAnalyzer.first := 0.5; LiveStreamAnalyzer.second := 0.5 |}
  = LiveStreamAnalyzer.getLocalSentimentAnalysis "I oppose this burden"
      {| LiveStreamAnalyzer.first := 0.5; LiveStreamAnalyzer.second := 0.5 |}
  /\ BackendSummarizer.handleSummarize (fun _ => None) two_sentences
       (BackendSummarizer.Body Json.Null)
     = (two_sentences,
        [BackendSummarizer.inner_error; BackendSummarizer.outer_error]).
Proof.
  destruct (C7_failures_are_caught
              (@Backend.Rejected (list Backend.row)) false "I oppose this burden"
              {| LiveStreamAnalyzer.first := 0.5; LiveStreamAnalyzer.second := 0.5 |}
              (fun _ => None) two_sentences (BackendSummarizer.Body Json.Null) eq_refl)
    as (H1 & _ & _ & H2 & _).
  destruct (H2 eq_refl) as [Hstate Hconsole].
  split; [exact H1|].
  rewrite (surjective_pairing (BackendSummarizer.handleSummarize _ _ _)).
  rewrite Hstate, Hconsole. reflexivity.
Defined.

(** C7 as stated fails at the summarization call site.  After a rejected
    request the summary is still empty, while the local extractive
    summarizer would have produced a text: no local computation stands in.
    And a malformed body need not be caught at all: the body [{}] sets the
    summary to "undefined", and a summary string that [JSON.parse] refuses
    is shown as it came. *)
Lemma C7_summarize_failure_yields_no_summary :
  reaches_catch BackendSummarizer.FetchRejected = true
  /\ (forall JSON_parse,
         BackendSummarizer.summary
           (fst (BackendSummarizer.handleSummarize JSON_parse two_sentences
                   BackendSummarizer.FetchRejected))
         = Json.Text "")
  /\ CommentSummarizer.summarizeText "The bill is good. It helps." CommentSummarizer.medium
     = "The bill is good. It helps."
  /\ (forall JSON_parse,
         BackendSummarizer.handleSummarize JSON_parse two_sentences
           (BackendSummarizer.Body (Json.Object []))
         = (BackendSummarizer.set_summary (Json.Text "undefined") two_sentences, []))
  /\ (forall JSON_parse,
         JSON_parse (BackendSummarizer.normalize "Service unavailable") = None ->
         BackendSummarizer.handleSummarize JSON_parse two_sentences
           (BackendSummarizer.Body
              (Json.Object [("summary", Json.Text "Service unavailable")]))
         = (BackendSummarizer.set_summary (Json.Text "Service unavailable") two_sentences,
            [BackendSummarizer.inner_error])).
Proof.
  split; [reflexivity|]. split; [reflexivity|]. split; [vm_compute; reflexivity|].
  split; [reflexivity|].
  intros JSON_parse H. unfold BackendSummarizer.handleSummarize.
  cbn [two_sentences BackendSummarizer.inputText].
  change (String.eqb (JsString.trim "The bill is good. It helps.") "") with false.
  cbv iota. unfold BackendSummarizer.parsedSummary.
  cbn [Json.summary_of Json.lookup].
  change (String.eqb "summary" "summary") with true. cbv iota.
  change (BackendSummarizer.first_match "Service unavailable") with (@None string).
  cbv iota. cbv zeta. rewrite H. reflexivity.
Qed.

(** ** Rounded products under [Math.ceil] *)

(** The rounded significand is within half a unit in the last place of the
    exact product, and the unit is fixed by the size of the product. *)
Lemma round53_near (p : Z) :
  0 < p ->
  0 <= snd (Binary64.round53 p)
  /\ 2 * Z.abs (fst (Binary64.round53 p) * 2 ^ snd (Binary64.round53 p) - p)
     <= 2 ^ snd (Binary64.round53 p)
  /\ p < 2 ^ snd (Binary64.round53 p) * 2 ^ 53
  /\ (snd (Binary64.round53 p) = 0 \/ 2 ^ snd (Binary64.round53 p) * 2 ^ 52 <= p).
Proof.
  intro Hp. unfold Binary64.round53. cbn [fst snd].
  set (s := Z.max 0 (Z.log2 p - 52)).
  assert (Hs : 0 <= s) by (unfold s; lia).
  destruct (Z.log2_spec p Hp) as [Hlo Hhi].
  assert (HB : 0 < 2 ^ s) by (apply Z.pow_pos_nonneg; lia).
  rewrite Z.shiftr_div_pow2, Z.shiftl_mul_pow2 by exact Hs.
  pose proof (Z.div_mod p (2 ^ s) ltac:(lia)) as Hdm.
  pose proof (Z.mod_pos_bound p (2 ^ s) HB) as Hr.
  set (q := p / 2 ^ s) in *. set (r := p mod 2 ^ s) in *.
  replace (p - q * 2 ^ s) with r by lia.
  split; [exact Hs|]. split; [|split].
  - destruct (Z.compare_spec (2 * r) (2 ^ s)); [destruct (Z.odd q)| |]; nia.
  - unfold s. destruct (Z.max_spec 0 (Z.log2 p - 52)) as [[H1 ->]|[H1 ->]].
    + rewrite <- Z.pow_add_r by lia.
      replace (Z.log2 p - 52 + 53) with (Z.succ (Z.log2 p)) by lia. exact Hhi.
    + change (2 ^ 0) with 1.
      eapply Z.lt_le_trans; [exact Hhi|].
      rewrite Z.mul_1_l. apply Z.pow_le_mono_r; lia.
  - unfold s. destruct (Z.max_spec 0 (Z.log2 p - 52)) as [[H1 ->]|[H1 ->]].
    + right. rewrite <- Z.pow_add_r by lia.
      replace (Z.log2 p - 52 + 52) with (Z.log2 p) by lia. exact Hlo.
    + left. reflexivity.
Qed.

Lemma ceil_fraction (v d k : Z) :
  0 < d -> (k - 1) * d < v -> v <= k * d ->
  Binary64.ceil (v # Z.to_pos d) = k.
Proof.
  intros Hd Hlo Hhi. unfold Binary64.ceil, Qceiling, Qfloor. cbn [Qopp Qnum Qden].
  rewrite Z2Pos.id by exact Hd.
  assert (H : - v / d = - k); [|lia].
  symmetry. apply (Z.div_unique_pos (- v) d (- k) (k * d - v)); lia.
Qed.

Lemma multiple_within (t b : Z) : 0 < b -> - b < t * b -> t * b < b -> t = 0.
Proof. intros Hb H1 H2. nia. Qed.

Lemma ceil_mul_int_fifths (n m e a delta : Z) :
  0 <= n < 2 ^ 32 ->
  53 <= e <= 55 ->
  1 <= a <= 4 ->
  5 * m = a * 2 ^ e + delta ->
  2 * Z.abs delta * 2 ^ 53 <= 5 * m ->
  Z.abs delta <= 2 ->
  Binary64.ceil (Binary64.mul_int n {| Binary64.significand := m; Binary64.scale := e |})
  = (a * n + 4) / 5.
Proof.
  intros Hn He Ha Hlit Htight Hdelta.
  unfold Binary64.mul_int. cbn [Binary64.significand Binary64.scale].
  assert (HD : 2 ^ 53 <= 2 ^ e) by (apply Z.pow_le_mono_r; lia).
  change (2 ^ 32) with 4294967296 in *.
  change (2 ^ 53) with 9007199254740992 in *.
  set (k := (a * n + 4) / 5).
  pose proof (Z.div_mod (a * n + 4) 5 ltac:(lia)) as Hk.
  pose proof (Z.mod_pos_bound (a * n + 4) 5 ltac:(lia)) as Hj.
  fold k in Hk. set (j := (a * n + 4) mod 5) in *.
  destruct (Z.eq_dec n 0) as [->|Hn0].
  - rewrite Z.mul_0_l.
    assert (Hk0 : k = 0) by (rewrite Z.mul_0_r in Hk; lia).
    rewrite Hk0. change (Binary64.round53 0) with (0, 0). cbv iota.
    apply ceil_fraction; lia.
  - assert (Ha1 : 1 * 2 ^ e <= a * 2 ^ e) by (apply Z.mul_le_mono_nonneg_r; lia).
    assert (Hm : 0 < m) by lia.
    assert (Hp : 0 < n * m) by (apply Z.mul_pos_pos; lia).
    pose proof (round53_near (n * m) Hp) as Hnear.
    destruct (Binary64.round53 (n * m)) as [mm s].
    cbn [fst snd] in Hnear.
    destruct Hnear as (Hs & Habs & Hup & Hlow).
    change (2 ^ 52) with 4503599627370496 in *.
    change (2 ^ 53) with 9007199254740992 in *.
    assert (HB : 0 < 2 ^ s) by (apply Z.pow_pos_nonneg; lia).
    assert (Hnm : 5 * (n * m) = (5 * k + j - 4) * 2 ^ e + n * delta).
    { replace (5 * (n * m)) with (n * (5 * m)) by ring. rewrite Hlit.
      replace (5 * k + j - 4) with (a * n) by lia. ring. }
    assert (Ha4 : a * 2 ^ e <= 4 * 2 ^ e) by (apply Z.mul_le_mono_nonneg_r; lia).
    assert (Hmlt : 5 * m < 5 * 2 ^ e) by lia.
    assert (He55 : 2 ^ e <= 2 ^ 55) by (apply Z.pow_le_mono_r; lia).
    change (2 ^ 55) with 36028797018963968 in He55.
    assert (HBn : 2 ^ s * 4503599627370496 <= n * m \/ s = 0) by tauto.
    assert (Hpn : n * m <= n * 2 ^ e) by (apply Z.mul_le_mono_nonneg_l; lia).
    assert (Hpn2 : n * 2 ^ e <= n * 36028797018963968)
      by (apply Z.mul_le_mono_nonneg_l; lia).
    assert (HB8 : 2 ^ s <= 8 * n).
    { destruct HBn as [H|H]; [lia|]. rewrite H. change (2 ^ 0) with 1. lia. }
    assert (Hs35 : s <= 35).
    { apply (Z.pow_le_mono_r_iff 2); [lia|lia|].
      change (2 ^ 35) with 34359738368. lia. }
    assert (Hsplit : 2 ^ e = 2 ^ (e - s) * 2 ^ s).
    { rewrite <- Z.pow_add_r by lia. f_equal. lia. }
    set (B := 2 ^ s) in *. set (C := 2 ^ (e - s)) in *. set (D := 2 ^ e) in *.
    set (p := n * m) in *. set (V := mm * B) in *.
    assert (Hkd : (5 * k + j - 4) * D = 5 * (k * D) + (j - 4) * D) by ring.
    set (KD := k * D) in *.
    assert (Hcases : delta = -2 \/ delta = -1 \/ delta = 0 \/ delta = 1 \/ delta = 2) by lia.
    assert (Hnd : - 2 * n <= n * delta <= 2 * n)
      by (destruct Hcases as [->|[->|[->|[->| ->]]]]; lia).
    set (ND := n * delta) in *.
    assert (Hgoal : (k - 1) * D < V <= KD).
    { replace ((k - 1) * D) with (KD - D) by (unfold KD; ring).
      destruct (Z.eq_dec j 4) as [Hj4|Hj4].
      - (* a * n = 5 * k: the product rounds to k * D exactly *)
        assert (Hd5 : ND = 5 * (p - KD)) by lia.
        assert (Htn : 2 * Z.abs ND * 9007199254740992 <= 5 * p).
        { unfold ND, p. rewrite Z.abs_mul, (Z.abs_eq n) by lia.
          replace (2 * (n * Z.abs delta) * 9007199254740992)
            with (n * (2 * Z.abs delta * 9007199254740992)) by ring.
          replace (5 * (n * m)) with (n * (5 * m)) by ring.
          apply Z.mul_le_mono_nonneg_l; lia. }
        assert (Hsmall : 2 * Z.abs (p - KD) < B) by lia.
        assert (Hex : V - KD = (mm - k * C) * B).
        { unfold V, KD. rewrite Hsplit. ring. }
        assert (Hzero : mm - k * C = 0).
        { apply (multiple_within _ B HB); rewrite <- Hex; lia. }
        rewrite Hzero in Hex. lia.
      - assert (Hj' : 0 <= j <= 3) by lia.
        assert (HjD : (j - 4) * D <= - D /\ - 4 * D <= (j - 4) * D).
        { assert (j = 0 \/ j = 1 \/ j = 2 \/ j = 3) as [->|[->|[->| ->]]] by lia; lia. }
        lia. }
    apply ceil_fraction; [lia|apply Hgoal|apply Hgoal].
Qed.

Lemma ceil_0_2 (n : Z) : 0 <= n < 2 ^ 32 ->
  Binary64.ceil (Binary64.mul_int n Binary64.lit_0_2) = (n + 4) / 5.
Proof.
  intro Hn. unfold Binary64.lit_0_2.
  rewrite (ceil_mul_int_fifths n _ _ 1 2); try lia; try (vm_compute; congruence).
  f_equal; lia.
Qed.

Lemma ceil_0_4 (n : Z) : 0 <= n < 2 ^ 32 ->
  Binary64.ceil (Binary64.mul_int n Binary64.lit_0_4) = (2 * n + 4) / 5.
Proof.
  intro Hn. unfold Binary64.lit_0_4.
  rewrite (ceil_mul_int_fifths n _ _ 2 2); try lia; try (vm_compute; congruence).
Qed.

Lemma ceil_0_6 (n : Z) : 0 <= n < 2 ^ 32 ->
  Binary64.ceil (Binary64.mul_int n Binary64.lit_0_6) = (3 * n + 4) / 5.
Proof.
  intro Hn. unfold Binary64.lit_0_6.
  rewrite (ceil_mul_int_fifths n _ _ 3 (-1)); try lia; try (vm_compute; congruence).
Qed.

(** ** Extractive summarizer *)

Lemma firstn_incl {A : Type} (n : nat) (l : list A) (x : A) :
  In x (firstn n l) -> In x l.
Proof.
  intro H. rewrite <- (firstn_skipn n l). apply in_or_app. now left.
Qed.

Lemma firstn_NoDup_map {A B : Type} (f : A -> B) (n : nat) (l : list A) :
  NoDup (map f l) -> NoDup (map f (firstn n l)).
Proof.
  intro H. rewrite <- (firstn_skipn n l), map_app in H.
  exact (NoDup_app_remove_r _ _ H).
Qed.

Lemma map_indexed_length {A B : Type} (f : A -> nat -> B) (i : nat) (l : list A) :
  List.length (CommentSummarizer.map_indexed f i l) = List.length l.
Proof.
  revert i. induction l as [|x l IH]; intro i; simpl; [reflexivity|now rewrite IH].
Qed.

Lemma map_indexed_In {A B : Type} (f : A -> nat -> B) (i : nat) (l : list A) (y : B) :
  In y (CommentSummarizer.map_indexed f i l) ->
  exists j x, nth_error l j = Some x /\ y = f x (i + j)%nat.
Proof.
  revert i. induction l as [|x l IH]; intro i; simpl; [tauto|].
  intros [<-|H].
  - exists 0%nat, x. split; [reflexivity|]. now rewrite Nat.add_0_r.
  - destruct (IH _ H) as (j & x' & Hj & ->).
    exists (S j), x'. split; [exact Hj|]. f_equal. lia.
Qed.

Lemma scoredSentences_length (text : string) :
  List.length (CommentSummarizer.scoredSentences text)
  = List.length (CommentSummarizer.sentences text).
Proof. apply map_indexed_length. Qed.

Lemma map_indexed_index (n i : nat) (l : list string) :
  map CommentSummarizer.index
    (CommentSummarizer.map_indexed (CommentSummarizer.score_sentence n) i l)
  = seq i (List.length l).
Proof.
  revert i. induction l as [|x l IH]; intro i; simpl; [reflexivity|now rewrite IH].
Qed.

(** The entries kept by [topSentences] before the final ordering. *)
Definition selected (text : string) (length : CommentSummarizer.length_setting)
  : list CommentSummarizer.scored :=
  JsArray.slice0
    (Z.to_nat (CommentSummarizer.targetSentences length
                 (List.length (CommentSummarizer.sentences text))))
    (JsArray.sort CommentSummarizer.by_score (CommentSummarizer.scoredSentences text)).

Lemma topSentences_length (text : string) (length : CommentSummarizer.length_setting) :
  List.length (CommentSummarizer.topSentences text length)
  = Nat.min
      (Z.to_nat (CommentSummarizer.targetSentences length
                   (List.length (CommentSummarizer.sentences text))))
      (List.length (CommentSummarizer.sentences text)).
Proof.
  unfold CommentSummarizer.topSentences, JsArray.slice0.
  now rewrite sort_length, length_firstn, sort_length, scoredSentences_length.
Qed.

Lemma topSentences_In (text : string) (length : CommentSummarizer.length_setting)
      (s : CommentSummarizer.scored) :
  In s (CommentSummarizer.topSentences text length) ->
  In s (CommentSummarizer.scoredSentences text).
Proof.
  unfold CommentSummarizer.topSentences, JsArray.slice0. intro H.
  apply sort_In in H. apply firstn_incl in H. now apply sort_In in H.
Qed.

Lemma topSentences_NoDup (text : string) (length : CommentSummarizer.length_setting) :
  NoDup (map CommentSummarizer.index (CommentSummarizer.topSentences text length)).
Proof.
  unfold CommentSummarizer.topSentences, JsArray.slice0.
  eapply Permutation_NoDup; [apply Permutation_map, sort_perm|].
  apply firstn_NoDup_map.
  eapply Permutation_NoDup; [apply Permutation_map, sort_perm|].
  unfold CommentSummarizer.scoredSentences. rewrite map_indexed_index. apply seq_NoDup.
Qed.

Lemma by_index_total (a b : CommentSummarizer.scored) :
  CommentSummarizer.by_index a b <= 0 \/ CommentSummarizer.by_index b a <= 0.
Proof. unfold CommentSummarizer.by_index. lia. Qed.

Lemma strictly_increasing (l : list CommentSummarizer.scored) :
  Sorted (goes_first CommentSummarizer.by_index) l ->
  NoDup (map CommentSummarizer.index l) ->
  StronglySorted
    (fun a b => (CommentSummarizer.index a < CommentSummarizer.index b)%nat) l.
Proof.
  intros Hs Hn.
  assert (Ht : StronglySorted (goes_first CommentSummarizer.by_index) l).
  { apply Sorted_StronglySorted; [|exact Hs].
    intros a b c. unfold goes_first, CommentSummarizer.by_index. lia. }
  clear Hs. induction Ht as [|a l Ht IH Hall]; [constructor|].
  inversion Hn as [|? ? Hnotin Hn']; subst.
  constructor; [now apply IH|].
  rewrite Forall_forall in *. intros b Hb.
  specialize (Hall b Hb). unfold goes_first, CommentSummarizer.by_index in Hall.
  assert (CommentSummarizer.index a <> CommentSummarizer.index b).
  { intro E. apply Hnotin. rewrite E. now apply in_map. }
  lia.
Qed.

Lemma topSentences_increasing (text : string) (length : CommentSummarizer.length_setting) :
  StronglySorted
    (fun a b => (CommentSummarizer.index a < CommentSummarizer.index b)%nat)
    (CommentSummarizer.topSentences text length).
Proof.
  apply strictly_increasing; [|apply topSentences_NoDup].
  apply sort_sorted, by_index_total.
Qed.

Lemma topSentences_original (text : string) (length : CommentSummarizer.length_setting)
      (s : CommentSummarizer.scored) :
  In s (CommentSummarizer.topSentences text length) ->
  exists original,
    nth_error (CommentSummarizer.sentences text) (CommentSummarizer.index s) = Some original
    /\ CommentSummarizer.sentence s = JsString.trim original.
Proof.
  intro H. apply topSentences_In in H.
  destruct (map_indexed_In _ _ _ _ H) as (j & x & Hj & ->).
  exists x. split; [exact Hj|reflexivity].
Qed.

(** The exact value of the ceiling of a number of fifths. *)
Lemma ceil_fifths (a n : Z) :
  Qceiling ((a # 5) * inject_Z n) = (a * n + 4) / 5.
Proof.
  unfold Qceiling, Qfloor, Qmult, Qopp, inject_Z. cbn [Qnum Qden].
  change (Z.pos (5 * 1)) with 5.
  pose proof (Z.div_mod (- (a * n)) 5 ltac:(lia)).
  pose proof (Z.mod_pos_bound (- (a * n)) 5 ltac:(lia)).
  pose proof (Z.div_mod (a * n + 4) 5 ltac:(lia)).
  pose proof (Z.mod_pos_bound (a * n + 4) 5 ltac:(lia)).
  lia.
Qed.

(** The fraction and the floor of each length setting. *)
Definition fraction (length : CommentSummarizer.length_setting) : Q :=
  match length with
  | CommentSummarizer.short => 1 # 5
  | CommentSummarizer.medium => 2 # 5
  | CommentSummarizer.long => 3 # 5
  end.

Definition least (length : CommentSummarizer.length_setting) : Z :=
  match length with
  | CommentSummarizer.short => 1
  | CommentSummarizer.medium => 2
  | CommentSummarizer.long => 3
  end.

Lemma targetSentences_exact (length : CommentSummarizer.length_setting) (n : nat) :
  Z.of_nat n < 2 ^ 32 ->
  CommentSummarizer.targetSentences length n
  = Z.max (least length) (Qceiling (fraction length * inject_Z (Z.of_nat n))).
Proof.
  intro Hn. assert (H : 0 <= Z.of_nat n < 2 ^ 32) by lia.
  destruct length; simpl; rewrite ceil_fifths.
  - rewrite (ceil_0_2 _ H). do 2 f_equal. lia.
  - now rewrite (ceil_0_4 _ H).
  - now rewrite (ceil_0_6 _ H).
Qed.

(** C5, as the code has it.  On a text of [n] sentences the summarizer
    selects exactly min(n, max(k, ceil(f * n))) sentences, where the
    fraction [f] is 20%, 40% or 60% and the floor [k] is 1, 2 or 3 for the
    short, medium and long setting. *)
Theorem C5_number_of_selected_sentences :
  forall (text : string) (length : CommentSummarizer.length_setting),
    Z.of_nat (List.length (CommentSummarizer.sentences text)) < 2 ^ 32 ->
    Z.of_nat (List.length (CommentSummarizer.topSentences text length))
    = Z.min (Z.of_nat (List.length (CommentSummarizer.sentences text)))
        (Z.max (least length)
           (Qceiling
              (fraction length
               * inject_Z (Z.of_nat (List.length (CommentSummarizer.sentences text)))))).
Proof.
  intros text length Hn.
  rewrite topSentences_length, (targetSentences_exact _ _ Hn).
  set (n := List.length (CommentSummarizer.sentences text)).
  set (t := Z.max _ _).
  assert (0 <= t) by (unfold t; destruct length; simpl; lia).
  lia.
Qed.

Lemma C5_number_of_selected_sentences_witness :
  Z.of_nat
    (List.length
       (CommentSummarizer.topSentences
          "The bill helps. It is late! Who pays? Firms do. They object. We agree."
          CommentSummarizer.short))
  = 2.
Proof.
  rewrite (C5_number_of_selected_sentences
             "The bill helps. It is late! Who pays? Firms do. They object. We agree."
             CommentSummarizer.short).
  - vm_compute. reflexivity.
  - vm_compute. reflexivity.
Defined.

(** C5 as stated fails for the medium setting on two sentences: the
    fraction gives ceil(0.4 * 2) = 1, a floor of 1 keeps it at 1, yet both
    sentences are selected. *)
Lemma C5_medium_selects_two_of_two :
  List.length (CommentSummarizer.sentences "The bill helps. It is late.") = 2%nat
  /\ Z.min 2 (Z.max 1 (Qceiling ((2 # 5) * inject_Z 2))) = 1
  /\ List.length
       (CommentSummarizer.topSentences "The bill helps. It is late."
          CommentSummarizer.medium) = 2%nat
  /\ CommentSummarizer.summarizeText "The bill helps. It is late." CommentSummarizer.medium
     = "The bill helps. It is late.".
Proof. repeat split; vm_compute; reflexivity. Qed.

(** C6. On a text of exactly ten sentences the medium setting returns
    exactly four of them, each the trimmed sentence found at its recorded
    position, listed by strictly increasing position and joined in that
    order into the summary. *)
Theorem C6_ten_sentences_medium_gives_four_in_order :
  forall text : string,
    List.length (CommentSummarizer.sentences text) = 10%nat ->
    List.length (CommentSummarizer.topSentences text CommentSummarizer.medium) = 4%nat
    /\ StronglySorted
         (fun a b => (CommentSummarizer.index a < CommentSummarizer.index b)%nat)
         (CommentSummarizer.topSentences text CommentSummarizer.medium)
    /\ (forall s,
           In s (CommentSummarizer.topSentences text CommentSummarizer.medium) ->
           exists original,
             nth_error (CommentSummarizer.sentences text) (CommentSummarizer.index s)
             = Some original
             /\ CommentSummarizer.sentence s = JsString.trim original)
    /\ CommentSummarizer.summarizeText text CommentSummarizer.medium
       = (JsString.join ". "
            (map CommentSummarizer.sentence
               (CommentSummarizer.topSentences text CommentSummarizer.medium))
          ++ ".")%string.
Proof.
  intros text Hten. split; [|split; [|split]].
  - rewrite topSentences_length, Hten. vm_compute. reflexivity.
  - apply topSentences_increasing.
  - apply topSentences_original.
  - reflexivity.
Qed.

Lemma C6_ten_sentences_medium_gives_four_in_order_witness :
  CommentSummarizer.summarizeText
    "One bill. Two. Three! Four? Five. Six company. Seven. Eight. Nine. Ten business."
    CommentSummarizer.medium
  = "One bill. Two. Six company. Ten business."
  /\ List.length
       (CommentSummarizer.topSentences
          "One bill. Two. Three! Four? Five. Six company. Seven. Eight. Nine. Ten business."
          CommentSummarizer.medium) = 4%nat.
Proof.
  split; [vm_compute; reflexivity|].
  apply (C6_ten_sentences_medium_gives_four_in_order
           "One bill. Two. Three! Four? Five. Six company. Seven. Eight. Nine. Ten business.").
  vm_compute. reflexivity.
Defined.

(** ** The [frequency] dictionary *)

Lemma get_own_put (o : JsObject.obj) (k k' : string) (v : JsObject.value) :
  JsObject.get_own (JsObject.put o k v) k'
  = if String.eqb k' k then Some v else JsObject.get_own o k'.
Proof.
  induction o as [|[k0 v0] o IH]; simpl.
  - reflexivity.
  - destruct (String.eqb_spec k k0) as [->|Hk]; simpl.
    + destruct (String.eqb_spec k' k0); reflexivity.
    + rewrite IH. destruct (String.eqb_spec k' k0) as [->|Hk'].
      * destruct (String.eqb_spec k0 k); [congruence|reflexivity].
      * reflexivity.
Qed.

Lemma put_keys (o : JsObject.obj) (k k' : string) (v : JsObject.value) :
  In k' (map fst (JsObject.put o k v)) <-> k' = k \/ In k' (map fst o).
Proof.
  induction o as [|[k0 v0] o IH]; simpl.
  - intuition congruence.
  - destruct (String.eqb_spec k k0) as [->|Hk]; simpl; intuition congruence.
Qed.

Lemma put_NoDup (o : JsObject.obj) (k : string) (v : JsObject.value) :
  NoDup (map fst o) -> NoDup (map fst (JsObject.put o k v)).
Proof.
  induction o as [|[k0 v0] o IH]; simpl; intro H.
  - constructor; [intros []|constructor].
  - destruct (String.eqb_spec k k0) as [->|Hk]; simpl; [exact H|].
    inversion H as [|? ? Hnotin Hrest]; subst. constructor; [|now apply IH].
    rewrite put_keys. intuition congruence.
Qed.

Lemma get_own_In (o : JsObject.obj) (k : string) (v : JsObject.value) :
  JsObject.get_own o k = Some v -> In (k, v) o.
Proof.
  induction o as [|[k0 v0] o IH]; simpl; [discriminate|].
  destruct (String.eqb_spec k k0) as [->|Hk].
  - intros [= ->]. now left.
  - intro H. right. now apply IH.
Qed.

Lemma In_get_own (o : JsObject.obj) (k : string) (v : JsObject.value) :
  NoDup (map fst o) -> In (k, v) o -> JsObject.get_own o k = Some v.
Proof.
  induction o as [|[k0 v0] o IH]; simpl; [tauto|].
  intros Hnd [[= -> ->]|Hin].
  - now rewrite String.eqb_refl.
  - inversion Hnd as [|? ? Hnotin Hrest]; subst.
    destruct (String.eqb_spec k k0) as [->|Hk].
    + exfalso. apply Hnotin. change k0 with (fst (k0, v)). now apply in_map.
    + now apply IH.
Qed.

Definition num_of (v : JsObject.value) : Z :=
  match v with
  | JsObject.Num n => n
  | JsObject.Str _ => 0
  end.

(** The sum of the numeric counts of a list of entries. *)
Definition total (l : list (string * JsObject.value)) : Z :=
  fold_right (fun e acc => num_of (snd e) + acc) 0 l.

Lemma total_app (l1 l2 : list (string * JsObject.value)) :
  total (l1 ++ l2) = total l1 + total l2.
Proof. induction l1 as [|e l1 IH]; simpl; [reflexivity|rewrite IH; lia]. Qed.

Lemma total_perm (l1 l2 : list (string * JsObject.value)) :
  Permutation l1 l2 -> total l1 = total l2.
Proof. induction 1; simpl; lia. Qed.

Lemma total_nonneg (l : list (string * JsObject.value)) :
  Forall (fun e => 0 <= num_of (snd e)) l -> 0 <= total l.
Proof. induction 1; simpl; lia. Qed.

Lemma total_put (o : JsObject.obj) (k : string) (v : JsObject.value) :
  total (JsObject.put o k v)
  = total o
    - match JsObject.get_own o k with Some old => num_of old | None => 0 end
    + num_of v.
Proof.
  induction o as [|[k0 v0] o IH]; simpl.
  - lia.
  - destruct (String.eqb_spec k k0) as [->|Hk]; simpl; [lia|rewrite IH; lia].
Qed.

(** What the dictionary holds for [w] once the words [seen] are counted. *)
Definition tally (seen : list string) (w : string) : option JsObject.value :=
  match count_occ string_dec seen w with
  | O => None
  | S n => Some (JsObject.Num (Z.of_nat (S n)))
  end.

Definition plain (w : string) : Prop := JsObject.inherited w = false.

Record counted (seen : list string) (o : JsObject.obj) : Prop :=
  { counted_keys : NoDup (map fst o);
    counted_lookup : forall w, JsObject.get_own o w = tally seen w;
    counted_total : total o = Z.of_nat (List.length seen) }.

Lemma counted_step (seen : list string) (o : JsObject.obj) (w : string) :
  plain w -> counted seen o ->
  counted (seen ++ [w]) (WordCloudGenerator.count_word o w).
Proof.
  intros Hw [Hk Hl Ht].
  unfold plain, JsObject.inherited in Hw. apply orb_false_iff in Hw as [Hc Hp].
  unfold WordCloudGenerator.count_word, JsObject.set, JsObject.or0_plus1.
  rewrite Hp, Hc, Hl.
  assert (Hv : match tally seen w with
               | Some (JsObject.Num n) => JsObject.Num (n + 1)
               | Some (JsObject.Str EmptyString) => JsObject.Num 1
               | Some (JsObject.Str s) => JsObject.Str (s ++ "1")
               | None => JsObject.Num 1
               end
               = JsObject.Num (Z.of_nat (S (count_occ string_dec seen w)))).
  { unfold tally. destruct (count_occ string_dec seen w); f_equal; lia. }
  rewrite Hv. split.
  - now apply put_NoDup.
  - intro w'. rewrite get_own_put. unfold tally.
    rewrite count_occ_app. simpl.
    destruct (String.eqb_spec w' w) as [->|Hne].
    + destruct (string_dec w w); [|congruence].
      rewrite Nat.add_1_r. reflexivity.
    + destruct (string_dec w w'); [congruence|].
      rewrite Nat.add_0_r. apply Hl.
  - rewrite total_put, Hl, Ht, length_app. unfold tally. simpl.
    destruct (count_occ string_dec seen w); simpl num_of; lia.
Qed.

Lemma counted_fold (ws seen : list string) (o : JsObject.obj) :
  Forall plain ws -> counted seen o ->
  counted (seen ++ ws) (fold_left WordCloudGenerator.count_word ws o).
Proof.
  revert seen o. induction ws as [|w ws IH]; intros seen o Hws Ho; simpl.
  - now rewrite app_nil_r.
  - inversion Hws as [|? ? Hw Hrest]; subst.
    replace (seen ++ w :: ws) with ((seen ++ [w]) ++ ws) by (now rewrite <- app_assoc).
    apply IH; [exact Hrest|]. now apply counted_step.
Qed.

Lemma counted_frequency (ws : list string) :
  Forall plain ws -> counted ws (WordCloudGenerator.frequency_of ws).
Proof.
  intro H. apply (counted_fold ws [] JsObject.empty H).
  split; [constructor|reflexivity|reflexivity].
Qed.

(** Keys come from the counted words, whatever the words are. *)
Lemma count_word_keys (o : JsObject.obj) (w k : string) :
  In k (map fst (WordCloudGenerator.count_word o w)) -> k = w \/ In k (map fst o).
Proof.
  unfold WordCloudGenerator.count_word, JsObject.set.
  destruct (String.eqb w "__proto__"); [tauto|]. apply put_keys.
Qed.

Lemma frequency_keys (ws : list string) (o : JsObject.obj) (k : string) :
  In k (map fst (fold_left WordCloudGenerator.count_word ws o)) ->
  In k ws \/ In k (map fst o).
Proof.
  revert o. induction ws as [|w ws IH]; intro o; simpl; [tauto|].
  intro H. destruct (IH _ H) as [H1|H1]; [tauto|].
  destruct (count_word_keys _ _ _ H1); subst; tauto.
Qed.

Lemma filter_split {A : Type} (f : A -> bool) (l : list A) :
  Permutation l (filter f l ++ filter (fun x => negb (f x)) l).
Proof.
  induction l as [|x l IH]; simpl; [constructor|].
  destruct (f x); simpl.
  - now constructor.
  - now apply Permutation_cons_app.
Qed.

Lemma entries_perm (o : JsObject.obj) : Permutation o (JsObject.entries o).
Proof.
  unfold JsObject.entries.
  eapply perm_trans; [apply (filter_split JsObject.is_index)|].
  apply Permutation_app_tail, sort_perm.
Qed.

(** The sorted entries, before the cut at 50. *)
Definition ranked (ws : list string) : list (string * JsObject.value) :=
  JsArray.sort WordCloudGenerator.by_count
    (JsObject.entries (WordCloudGenerator.frequency_of ws)).

Lemma ranked_perm (ws : list string) :
  Permutation (WordCloudGenerator.frequency_of ws) (ranked ws).
Proof.
  unfold ranked. eapply perm_trans; [apply entries_perm|apply sort_perm].
Qed.

Lemma getWordFrequency_ranked (text : string) (removeStopWords : bool) :
  WordCloudGenerator.getWordFrequency text removeStopWords
  = firstn 50 (ranked (WordCloudGenerator.filteredWords text removeStopWords)).
Proof. reflexivity. Qed.

Lemma getWordFrequency_keys (text : string) (removeStopWords : bool) (k : string) :
  In k (map fst (WordCloudGenerator.getWordFrequency text removeStopWords)) ->
  In k (WordCloudGenerator.filteredWords text removeStopWords).
Proof.
  rewrite getWordFrequency_ranked. intro H.
  apply in_map_iff in H as ([k' v] & <- & H). apply firstn_incl in H.
  apply (Permutation_in _ (Permutation_sym (ranked_perm _))) in H.
  destruct (frequency_keys
              (WordCloudGenerator.filteredWords text removeStopWords) JsObject.empty k')
    as [H1|[]]; [|exact H1].
  change k' with (fst (k', v)). apply in_map. exact H.
Qed.

Lemma filteredWords_incl (text : string) (removeStopWords : bool) (w : string) :
  In w (WordCloudGenerator.filteredWords text removeStopWords) ->
  In w (WordCloudGenerator.words text).
Proof.
  unfold WordCloudGenerator.filteredWords. destruct removeStopWords; [|tauto].
  intro H. now apply filter_In in H.
Qed.

Lemma words_long (text : string) (w : string) :
  In w (WordCloudGenerator.words text) -> (3 <= String.length w)%nat.
Proof.
  unfold WordCloudGenerator.words. intro H. apply filter_In in H as [_ H].
  apply Nat.ltb_lt in H. lia.
Qed.

(** ** Word frequencies *)

Lemma total_firstn (n : nat) (l : list (string * JsObject.value)) :
  Forall (fun e => 0 <= num_of (snd e)) l -> total (firstn n l) <= total l.
Proof.
  intro H. rewrite <- (firstn_skipn n l) at 2. rewrite total_app.
  assert (0 <= total (skipn n l)); [|lia].
  apply total_nonneg. rewrite Forall_forall in *. intros e He. apply H.
  rewrite <- (firstn_skipn n l). apply in_or_app. now right.
Qed.

Lemma counted_entry (ws : list string) (o : JsObject.obj) (w : string) (v : JsObject.value) :
  counted ws o -> In (w, v) o ->
  v = JsObject.Num (Z.of_nat (count_occ string_dec ws w))
  /\ (1 <= count_occ string_dec ws w)%nat.
Proof.
  intros [Hk Hl _] Hin. apply (In_get_own _ _ _ Hk) in Hin.
  rewrite Hl in Hin. unfold tally in Hin.
  destruct (count_occ string_dec ws w); [discriminate|].
  injection Hin as <-. split; [reflexivity|lia].
Qed.

Lemma counted_has (ws : list string) (o : JsObject.obj) (w : string) :
  counted ws o -> In w ws ->
  In (w, JsObject.Num (Z.of_nat (count_occ string_dec ws w))) o.
Proof.
  intros [_ Hl _] Hin. apply get_own_In. rewrite Hl. unfold tally.
  apply (count_occ_In string_dec) in Hin.
  destruct (count_occ string_dec ws w); [lia|reflexivity].
Qed.

(** The ranking by count *)

Lemma by_count_total (a b : string * JsObject.value) :
  WordCloudGenerator.by_count a b <= 0 \/ WordCloudGenerator.by_count b a <= 0.
Proof.
  unfold WordCloudGenerator.by_count, JsObject.descending.
  destruct (JsObject.to_number (snd a)), (JsObject.to_number (snd b)); lia.
Qed.

Definition numeric (e : string * JsObject.value) : Prop :=
  exists n, snd e = JsObject.Num n.

Definition not_below (a b : string * JsObject.value) : Prop :=
  num_of (snd b) <= num_of (snd a).

Lemma sorted_numeric (l : list (string * JsObject.value)) :
  Forall numeric l ->
  Sorted (goes_first WordCloudGenerator.by_count) l ->
  StronglySorted not_below l.
Proof.
  intros Hnum Hs. apply Sorted_StronglySorted.
  - intros a b c. unfold not_below. lia.
  - induction Hs as [|a l Hs IH Hd]; [constructor|].
    inversion Hnum as [|? ? [na Ha] Hrest]; subst.
    constructor; [now apply IH|].
    destruct Hd as [|b l' Hab]; constructor.
    inversion Hrest as [|? ? [nb Hb] _]; subst.
    unfold goes_first, WordCloudGenerator.by_count, JsObject.descending in Hab.
    unfold not_below. rewrite Ha, Hb in *. simpl in *. lia.
Qed.

Lemma StronglySorted_firstn {A : Type} (R : A -> A -> Prop) (n : nat) (l : list A) :
  StronglySorted R l -> StronglySorted R (firstn n l).
Proof.
  intro H. revert n. induction H as [|a l Hs IH Hall]; intro n.
  - rewrite firstn_nil. constructor.
  - destruct n; simpl; constructor; [apply IH|].
    rewrite Forall_forall in *. intros x Hx. apply Hall. now apply firstn_incl in Hx.
Qed.

Lemma StronglySorted_split {A : Type} (R : A -> A -> Prop) (n : nat) (l : list A) (a b : A) :
  StronglySorted R l -> In a (firstn n l) -> In b (skipn n l) -> R a b.
Proof.
  intro H. revert n. induction H as [|x l Hs IH Hx]; intros n Ha Hb.
  - rewrite firstn_nil in Ha. destruct Ha.
  - destruct n; simpl in *; [destruct Ha|].
    destruct Ha as [<-|Ha].
    + rewrite Forall_forall in Hx. apply Hx.
      rewrite <- (firstn_skipn n l). apply in_or_app. now right.
    + now apply (IH n).
Qed.

(** C1, as the code has it.  When no counted word names a member of
    [Object.prototype], the entries returned by [getWordFrequency] carry
    pairwise distinct words; each count is the number of occurrences of its
    word among the filtered words, an integer of at least 1; the counts add
    up to at most the number of filtered words, itself at most the number
    of tokens of the text; at most 50 entries are returned, and every
    distinct word has its entry when there are at most 50 of them.  The
    entries come by non-increasing count and are the top of that ranking:
    a counted word that is left out occurs at most as often as every word
    that is returned. *)
Theorem C1_returned_counts :
  forall (text : string) (removeStopWords : bool),
    Forall plain (WordCloudGenerator.filteredWords text removeStopWords) ->
    NoDup (map fst (WordCloudGenerator.getWordFrequency text removeStopWords))
    /\ (forall w v,
           In (w, v) (WordCloudGenerator.getWordFrequency text removeStopWords) ->
           v = JsObject.Num
                 (Z.of_nat
                    (count_occ string_dec
                       (WordCloudGenerator.filteredWords text removeStopWords) w))
           /\ (1 <= count_occ string_dec
                      (WordCloudGenerator.filteredWords text removeStopWords) w)%nat)
    /\ total (WordCloudGenerator.getWordFrequency text removeStopWords)
       <= Z.of_nat (List.length (WordCloudGenerator.filteredWords text removeStopWords))
    /\ (List.length (WordCloudGenerator.filteredWords text removeStopWords)
        <= List.length (WordCloudGenerator.tokens text))%nat
    /\ (List.length (WordCloudGenerator.getWordFrequency text removeStopWords) <= 50)%nat
    /\ ((List.length
           (nodup string_dec (WordCloudGenerator.filteredWords text removeStopWords))
         <= 50)%nat ->
        forall w,
          In w (WordCloudGenerator.filteredWords text removeStopWords) ->
          In (w, JsObject.Num
                   (Z.of_nat
                      (count_occ string_dec
                         (WordCloudGenerator.filteredWords text removeStopWords) w)))
            (WordCloudGenerator.getWordFrequency text removeStopWords))
    /\ StronglySorted not_below (WordCloudGenerator.getWordFrequency text removeStopWords)
    /\ (forall w e,
           In w (WordCloudGenerator.filteredWords text removeStopWords) ->
           ~ In w (map fst (WordCloudGenerator.getWordFrequency text removeStopWords)) ->
           In e (WordCloudGenerator.getWordFrequency text removeStopWords) ->
           Z.of_nat
             (count_occ string_dec
                (WordCloudGenerator.filteredWords text removeStopWords) w)
           <= num_of (snd e)).
Proof.
  intros text rsw Hplain.
  rewrite getWordFrequency_ranked.
  set (ws := WordCloudGenerator.filteredWords text rsw) in *.
  pose proof (counted_frequency ws Hplain) as Hc.
  pose proof (ranked_perm ws) as Hp.
  assert (Hin : forall e, In e (ranked ws) -> In e (WordCloudGenerator.frequency_of ws)).
  { intros e He. exact (Permutation_in _ (Permutation_sym Hp) He). }
  assert (Hsorted : StronglySorted not_below (ranked ws)).
  { apply sorted_numeric.
    - apply Forall_forall. intros [w v] He.
      destruct (counted_entry _ _ _ _ Hc (Hin _ He)) as [-> _]. eexists. reflexivity.
    - apply sort_sorted, by_count_total. }
  split; [|split; [|split; [|split; [|split; [|split; [|split]]]]]].
  - apply firstn_NoDup_map.
    eapply Permutation_NoDup; [apply Permutation_map, Hp|apply Hc].
  - intros w v H. apply firstn_incl in H. exact (counted_entry _ _ _ _ Hc (Hin _ H)).
  - rewrite <- (counted_total _ _ Hc), (total_perm _ _ Hp).
    apply total_firstn. rewrite Forall_forall. intros [w v] He.
    destruct (counted_entry _ _ _ _ Hc (Hin _ He)) as [-> _]. simpl. lia.
  - unfold ws, WordCloudGenerator.filteredWords, WordCloudGenerator.words.
    destruct rsw.
    + eapply Nat.le_trans; apply filter_length_le.
    + apply filter_length_le.
  - apply firstn_le_length.
  - intros Hfew w Hw.
    assert (Hlen : (List.length (ranked ws) <= 50)%nat).
    { rewrite <- (Permutation_length Hp), <- (length_map fst).
      eapply Nat.le_trans; [|exact Hfew].
      apply NoDup_incl_length; [apply Hc|].
      intros k Hk. apply nodup_In.
      destruct (frequency_keys ws JsObject.empty k Hk) as [H|[]]. exact H. }
    rewrite (firstn_all2 _ Hlen).
    exact (Permutation_in _ Hp (counted_has _ _ _ Hc Hw)).
  - now apply StronglySorted_firstn.
  - intros w e Hw Hout He.
    pose proof (Permutation_in _ Hp (counted_has _ _ _ Hc Hw)) as Hrank.
    rewrite <- (firstn_skipn 50 (ranked ws)) in Hrank.
    apply in_app_or in Hrank as [Hrank|Hrank].
    + exfalso. apply Hout. apply in_map_iff. eexists. split; [|exact Hrank]. reflexivity.
    + exact (StronglySorted_split _ 50 (ranked ws) e _ Hsorted He Hrank).
Qed.

Lemma C1_returned_counts_witness :
  total (WordCloudGenerator.getWordFrequency
           "The bill helps the firms; the Bill of 2024 is a fair bill." true)
  <= Z.of_nat
       (List.length
          (WordCloudGenerator.filteredWords
             "The bill helps the firms; the Bill of 2024 is a fair bill." true))
  /\ WordCloudGenerator.getWordFrequency
       "The bill helps the firms; the Bill of 2024 is a fair bill." true
     = [("bill", JsObject.Num 3); ("2024", JsObject.Num 1); ("helps", JsObject.Num 1);
        ("firms", JsObject.Num 1); ("fair", JsObject.Num 1)].
Proof.
  assert (Hplain : Forall plain
                     (WordCloudGenerator.filteredWords
                        "The bill helps the firms; the Bill of 2024 is a fair bill." true))
    by (vm_compute; repeat constructor).
  destruct (C1_returned_counts
              "The bill helps the firms; the Bill of 2024 is a fair bill." true Hplain)
    as (_ & _ & Htotal & _).
  split; [exact Htotal|vm_compute; reflexivity].
Defined.

(** A text of 51 distinct words. *)
Definition fifty_one_words : string :=
  "act aim air art ask bar bay bed bid big bit box bus buy cap car cut day dry due "
  ++ "ear eat end era eye fan far fee few fit fix fly fun gap gas get got gun hit hot "
  ++ "ice ill job joy key kid law lay leg let low".

(** C1 as stated fails on a text of 51 distinct words: every one of them
    is a filtered word occurring once, but the last one gets no count. *)
Lemma C1_fifty_first_word_has_no_count :
  Forall plain (WordCloudGenerator.filteredWords fifty_one_words true)
  /\ In "low" (WordCloudGenerator.filteredWords fifty_one_words true)
  /\ List.length
       (nodup string_dec (WordCloudGenerator.filteredWords fifty_one_words true))
     = 51%nat
  /\ List.length (WordCloudGenerator.getWordFrequency fifty_one_words true) = 50%nat
  /\ ~ In "low" (map fst (WordCloudGenerator.getWordFrequency fifty_one_words true)).
Proof.
  split; [vm_compute; repeat constructor|].
  split; [vm_compute; tauto|].
  split; [vm_compute; reflexivity|].
  split; [vm_compute; reflexivity|].
  intro H. vm_compute in H.
  repeat (destruct H as [H|H]; [discriminate H|]). exact H.
Qed.

(** ** Minimum word length *)

(** C4 fails on the code.  Whatever the sliders say, every entry shown by
    [generateWordCloud] has a word of at least three characters: with the
    minimum length set to 2, the word "ox" of the text "an ox is big" is a
    token of two characters and no stop word, yet only "big" is shown. *)
Theorem C4_two_letter_words_are_dropped :
  (forall (inputText : string) (removeStopWords : bool) (minWordLength maxWords : nat),
      Forall (fun e => (3 <= String.length (fst e))%nat
                       /\ (minWordLength <= String.length (fst e))%nat)
        (WordCloudGenerator.wordFreqs inputText removeStopWords minWordLength maxWords))
  /\ In "ox" (WordCloudGenerator.tokens "an ox is big")
  /\ String.length "ox" = 2%nat
  /\ JsString.mem "ox" WordCloudGenerator.stopWords = false
  /\ WordCloudGenerator.wordFreqs "an ox is big" true 2 50 = [("big", JsObject.Num 1)]
  /\ WordCloudGenerator.wordFreqs "an ox is big" false 2 50 = [("big", JsObject.Num 1)].
Proof.
  split; [|repeat split; vm_compute; tauto].
  intros text rsw m maxWords. rewrite Forall_forall. intros [w v] He.
  unfold WordCloudGenerator.wordFreqs, JsArray.slice0 in He.
  apply firstn_incl in He. apply filter_In in He as [He Hm]. simpl in *.
  split; [|now apply Nat.leb_le].
  apply (words_long text), (filteredWords_incl text rsw).
  apply getWordFrequency_keys. change w with (fst (w, v)). now apply in_map.
Qed.

(** * Further properties of the word counter *)

Definition chars (s : string) : list ascii := list_ascii_of_string s.

Lemma split_plus_chars (sep : ascii -> bool) (s p : string) (c : ascii) :
  In p (JsString.split_plus sep s) -> In c (chars p) ->
  sep c = false /\ In c (chars s).
Proof.
  revert p. induction s as [|a s IH]; simpl; intros p Hp Hc.
  - destruct Hp as [<-|[]]. destruct Hc.
  - destruct (sep a) eqn:Ea.
    + assert (Hp' : In p (JsString.split_plus sep s) \/ p = EmptyString).
      { destruct (JsString.starts_with sep s); [now left|].
        destruct Hp as [<-|Hp]; [now right|now left]. }
      destruct Hp' as [Hp'| ->]; [|destruct Hc].
      destruct (IH _ Hp' Hc). tauto.
    + pose proof (split_plus_nonempty sep s) as Hne.
      destruct (JsString.split_plus sep s) as [|h t]; [congruence|].
      destruct Hp as [<-|Hp].
      * destruct Hc as [<-|Hc]; [tauto|].
        destruct (IH h (or_introl eq_refl) Hc). tauto.
      * destruct (IH p (or_intror Hp) Hc). tauto.
Qed.

Lemma map_chars_chars (f : ascii -> ascii) (s : string) :
  chars (JsString.map_chars f s) = map f (chars s).
Proof. induction s as [|a s IH]; simpl; [reflexivity|now rewrite IH]. Qed.

(** The characters a counted word is made of: [a-z], [0-9] and [_]. *)
Definition lower_word_char (c : ascii) : bool :=
  JsString.in_range 48 57 c || JsString.in_range 97 122 c || (JsString.code c =? 95)%N.

Lemma normalized_char (c : ascii) :
  JsString.is_space
    (if JsString.is_word (JsString.lower_char c) || JsString.is_space (JsString.lower_char c)
     then JsString.lower_char c else " "%char) = false ->
  lower_word_char
    (if JsString.is_word (JsString.lower_char c) || JsString.is_space (JsString.lower_char c)
     then JsString.lower_char c else " "%char) = true.
Proof.
  destruct c as [[] [] [] [] [] [] [] []]; vm_compute; intro H;
    first [reflexivity|discriminate H].
Qed.

Lemma non_word_becomes_space (c : ascii) :
  JsString.is_word c = false ->
  JsString.is_space
    (if JsString.is_word (JsString.lower_char c) || JsString.is_space (JsString.lower_char c)
     then JsString.lower_char c else " "%char) = true.
Proof.
  destruct c as [[] [] [] [] [] [] [] []]; vm_compute; intro H;
    first [reflexivity|discriminate H].
Qed.

Lemma token_chars (text w : string) :
  In w (WordCloudGenerator.tokens text) ->
  Forall (fun c => lower_word_char c = true) (chars w).
Proof.
  intro Hw. apply Forall_forall. intros c Hc.
  destruct (split_plus_chars _ _ _ _ Hw Hc) as [Hs Hin].
  unfold JsString.replace_non_word, JsString.toLowerCase in Hin.
  rewrite !map_chars_chars, map_map in Hin.
  apply in_map_iff in Hin as (c0 & <- & _).
  now apply normalized_char.
Qed.

Lemma getWordFrequency_words (text : string) (removeStopWords : bool) (e : string * JsObject.value) :
  In e (WordCloudGenerator.getWordFrequency text removeStopWords) ->
  In (fst e) (WordCloudGenerator.filteredWords text removeStopWords).
Proof.
  intro H. apply getWordFrequency_keys. now apply in_map.
Qed.

(** Every word returned by [getWordFrequency] has at least three
    characters, all of them lower-case letters, digits or underscores, and
    is no stop word when stop words are removed. *)
Theorem returned_words_are_normalized :
  forall (text : string) (removeStopWords : bool),
    Forall
      (fun e =>
         (3 <= String.length (fst e))%nat
         /\ Forall (fun c => lower_word_char c = true) (chars (fst e))
         /\ (removeStopWords = true ->
             JsString.mem (fst e) WordCloudGenerator.stopWords = false))
      (WordCloudGenerator.getWordFrequency text removeStopWords).
Proof.
  intros text rsw. apply Forall_forall. intros e He.
  apply getWordFrequency_words in He.
  pose proof (filteredWords_incl _ _ _ He) as Hw.
  split; [now apply (words_long text)|]. split.
  - apply (token_chars text). unfold WordCloudGenerator.words in Hw.
    now apply filter_In in Hw.
  - intros ->. unfold WordCloudGenerator.filteredWords in He.
    apply filter_In in He as [_ He]. now apply negb_true_iff in He.
Qed.

Lemma returned_words_are_normalized_witness :
  Forall (fun e => JsString.mem (fst e) WordCloudGenerator.stopWords = false)
    (WordCloudGenerator.getWordFrequency "The good bill and the good law" true).
Proof.
  eapply Forall_impl;
    [|apply (returned_words_are_normalized "The good bill and the good law" true)].
  intros e (_ & _ & H). apply H. reflexivity.
Defined.

(** A text without a letter, a digit or an underscore, the empty text
    included, gives the empty sequence. *)
Theorem no_word_character_no_entry :
  forall (text : string) (removeStopWords : bool),
    Forall (fun c => JsString.is_word c = false) (chars text) ->
    WordCloudGenerator.getWordFrequency text removeStopWords = [].
Proof.
  intros text rsw Hnone.
  assert (Hw : WordCloudGenerator.words text = []).
  { unfold WordCloudGenerator.words.
    destruct (filter _ (WordCloudGenerator.tokens text)) as [|w ws] eqn:E; [reflexivity|].
    exfalso.
    assert (Hin : In w (filter (fun word => (2 <? String.length word)%nat)
                          (WordCloudGenerator.tokens text)))
      by (rewrite E; now left).
    apply filter_In in Hin as [Hin Hlen].
    destruct w as [|c w]; [discriminate Hlen|].
    destruct (split_plus_chars _ _ _ c Hin (or_introl eq_refl)) as [Hs Hc].
    unfold JsString.replace_non_word, JsString.toLowerCase in Hc.
    rewrite !map_chars_chars, map_map in Hc.
    apply in_map_iff in Hc as (c0 & Hc0 & Hin0).
    rewrite Forall_forall in Hnone. specialize (Hnone c0 Hin0).
    rewrite <- Hc0, (non_word_becomes_space c0 Hnone) in Hs. discriminate Hs. }
  unfold WordCloudGenerator.getWordFrequency, WordCloudGenerator.filteredWords.
  rewrite Hw. destruct rsw; reflexivity.
Qed.

Lemma no_word_character_no_entry_witness :
  WordCloudGenerator.getWordFrequency "...  -- ?!" true = [].
Proof.
  apply no_word_character_no_entry. vm_compute. repeat constructor.
Defined.

(** When no counted word names a member of [Object.prototype], the entries
    come out by non-increasing count. *)
Theorem returned_counts_descend :
  forall (text : string) (removeStopWords : bool),
    Forall plain (WordCloudGenerator.filteredWords text removeStopWords) ->
    StronglySorted not_below (WordCloudGenerator.getWordFrequency text removeStopWords).
Proof.
  intros text rsw Hplain. rewrite getWordFrequency_ranked.
  apply StronglySorted_firstn, sorted_numeric.
  - apply Forall_forall. intros [w v] He.
    apply (Permutation_in _ (Permutation_sym (ranked_perm _))) in He.
    destruct (counted_entry _ _ _ _ (counted_frequency _ Hplain) He) as [-> _].
    eexists. reflexivity.
  - apply sort_sorted, by_count_total.
Qed.

Lemma returned_counts_descend_witness :
  StronglySorted not_below
    (WordCloudGenerator.getWordFrequency
       "Audit the audit rules: rules, norms, rules and audit rules." true).
Proof.
  apply returned_counts_descend. vm_compute. repeat constructor.
Defined.

(** [getWordFrequency] already cuts at 50 entries, so a [maxWords] slider
    value above 50 shows nothing more than 50 does, and the number of
    entries shown never exceeds either bound. *)
Theorem maxWords_above_fifty_changes_nothing :
  forall (inputText : string) (removeStopWords : bool) (minWordLength extra : nat),
    WordCloudGenerator.wordFreqs inputText removeStopWords minWordLength (50 + extra)
    = WordCloudGenerator.wordFreqs inputText removeStopWords minWordLength 50
    /\ forall maxWords,
        (List.length
           (WordCloudGenerator.wordFreqs inputText removeStopWords minWordLength maxWords)
         <= Nat.min maxWords 50)%nat.
Proof.
  intros text rsw m extra.
  assert (Hlen : (List.length
                    (filter (fun e => (m <=? String.length (fst e))%nat)
                       (WordCloudGenerator.getWordFrequency text rsw)) <= 50)%nat).
  { eapply Nat.le_trans; [apply filter_length_le|].
    unfold WordCloudGenerator.getWordFrequency, JsArray.slice0. apply firstn_le_length. }
  unfold WordCloudGenerator.wordFreqs, JsArray.slice0. split.
  - rewrite !firstn_all2; [reflexivity|exact Hlen|lia].
  - intro maxWords. rewrite length_firstn. lia.
Qed.

(** The dictionary is a plain object: ["__proto__"] never becomes one of
    its keys, and the entry of ["constructor"] never holds a number. *)
Record prototype_safe (o : JsObject.obj) : Prop :=
  { safe_keys : NoDup (map fst o);
    safe_proto : ~ In "__proto__" (map fst o);
    safe_constructor :
      forall v, JsObject.get_own o "constructor" = Some v ->
                exists c s, v = JsObject.Str (String c s) }.

Lemma append_nonempty (s t : string) :
  s <> EmptyString -> exists c r, (s ++ t)%string = String c r.
Proof. destruct s as [|c s]; [congruence|]. intros _. simpl. eauto. Qed.

Lemma prototype_safe_step (o : JsObject.obj) (w : string) :
  prototype_safe o -> prototype_safe (WordCloudGenerator.count_word o w).
Proof.
  intros [Hk Hp Hc]. unfold WordCloudGenerator.count_word, JsObject.set.
  destruct (String.eqb_spec w "__proto__") as [->|Hw]; [now split|].
  split.
  - now apply put_NoDup.
  - rewrite put_keys. intuition congruence.
  - intros v. rewrite get_own_put.
    destruct (String.eqb_spec "constructor" w) as [<-|Hne]; [|apply Hc].
    intros [= <-]. unfold JsObject.or0_plus1.
    destruct (JsObject.get_own o "constructor") as [old|] eqn:E.
    + destruct (Hc old eq_refl) as (c & s & ->). simpl. eauto.
    + simpl. eauto.
Qed.

Lemma prototype_safe_frequency (ws : list string) :
  prototype_safe (WordCloudGenerator.frequency_of ws).
Proof.
  unfold WordCloudGenerator.frequency_of.
  assert (H : prototype_safe JsObject.empty).
  { split; [constructor|intros []|discriminate]. }
  revert H. generalize JsObject.empty.
  induction ws as [|w ws IH]; intros o Ho; simpl; [exact Ho|].
  apply IH, prototype_safe_step, Ho.
Qed.

(** A word that names a member of [Object.prototype] is never returned
    with a number: ["__proto__"] is never returned at all, and
    ["constructor"], when returned, carries a non-empty string in the
    place of its count. *)
Theorem inherited_names_never_get_a_number :
  forall (text : string) (removeStopWords : bool),
    ~ In "__proto__" (map fst (WordCloudGenerator.getWordFrequency text removeStopWords))
    /\ forall v,
        In ("constructor", v) (WordCloudGenerator.getWordFrequency text removeStopWords) ->
        exists s, v = JsObject.Str s /\ s <> EmptyString.
Proof.
  intros text rsw. rewrite getWordFrequency_ranked.
  set (ws := WordCloudGenerator.filteredWords text rsw).
  destruct (prototype_safe_frequency ws) as [Hk Hp Hc]. split.
  - intro H. apply Hp. apply in_map_iff in H as (e & He & Hin).
    apply firstn_incl in Hin.
    apply (Permutation_in _ (Permutation_sym (ranked_perm ws))) in Hin.
    rewrite <- He. now apply in_map.
  - intros v Hin. apply firstn_incl in Hin.
    apply (Permutation_in _ (Permutation_sym (ranked_perm ws))) in Hin.
    apply (In_get_own _ _ _ Hk) in Hin.
    destruct (Hc v Hin) as (c & s & ->). eexists. split; [reflexivity|discriminate].
Qed.

Lemma inherited_names_never_get_a_number_witness :
  exists s,
    JsObject.Str "function Object() { [native code] }11" = JsObject.Str s
    /\ s <> EmptyString.
Proof.
  apply (proj2 (inherited_names_never_get_a_number
                  "The constructor met the other constructor" true)).
  vm_compute. tauto.
Defined.

(** * Sessions and permissions *)

(** An operation of the provider. *)
Inductive auth_op : Type :=
| Login (email password : string) (role : AuthContext.UserRole)
| Register (userData : AuthContext.RegisterData) (now : string)
| Logout.

Definition run_op (st : AuthContext.auth) (op : auth_op) : AuthContext.auth :=
  match op with
  | Login e p r => fst (AuthContext.login st e p r)
  | Register d now => fst (AuthContext.register st d now)
  | Logout => AuthContext.logout st
  end.

(** The states reached from the initial one by any sequence of calls. *)
Definition run (ops : list auth_op) : AuthContext.auth :=
  fold_left run_op ops AuthContext.initial.

Definition folded_email (u : AuthContext.User) : string :=
  JsString.toLowerCase (AuthContext.email u).

Record auth_ok (st : AuthContext.auth) : Prop :=
  { ok_emails : NoDup (map folded_email (AuthContext.users st));
    ok_permissions :
      forall u, In u (AuthContext.users st) ->
                AuthContext.permissions u = AuthContext.ROLE_PERMISSIONS (AuthContext.role u);
    ok_user : forall u, AuthContext.user st = Some u -> In u (AuthContext.users st);
    ok_stored : AuthContext.stored st = AuthContext.user st }.

Lemma role_eqb_eq (a b : AuthContext.UserRole) :
  AuthContext.role_eqb a b = true <-> a = b.
Proof.
  split; [|intros ->; apply String.eqb_refl].
  destruct a, b; intro H; first [reflexivity|discriminate H].
Qed.

Lemma find_email_none (l : list AuthContext.User) (e : string) :
  find (fun u => String.eqb (folded_email u) (JsString.toLowerCase e)) l = None ->
  ~ In (JsString.toLowerCase e) (map folded_email l).
Proof.
  intros Hnone Hin. apply in_map_iff in Hin as (u & Hu & Hin).
  pose proof (find_none _ _ Hnone u Hin) as H. simpl in H.
  rewrite Hu, String.eqb_refl in H. discriminate H.
Qed.

Lemma auth_ok_initial : auth_ok AuthContext.initial.
Proof.
  split; simpl.
  - vm_compute. repeat (constructor; [simpl; intuition discriminate|]). constructor.
  - intros u Hu. repeat (destruct Hu as [<-|Hu]; [reflexivity|]). destruct Hu.
  - discriminate.
  - reflexivity.
Qed.

Lemma auth_ok_step (st : AuthContext.auth) (op : auth_op) :
  auth_ok st -> auth_ok (run_op st op).
Proof.
  intros [He Hp Hu Hs]. destruct op as [e p r|d now|]; simpl.
  - unfold AuthContext.login.
    destruct (find _ (AuthContext.users st)) as [u|] eqn:Ef;
      [destruct (String.eqb p "password123")|]; split; simpl;
      try assumption; try reflexivity.
    intros u' [= <-]. exact (proj1 (find_some _ _ Ef)).
  - unfold AuthContext.register.
    destruct (find _ (AuthContext.users st)) as [u|] eqn:Ef; split; simpl; try assumption.
    + rewrite map_app. simpl. apply NoDup_app; [exact He|repeat constructor; intros []|].
      intros x Hx [<-|[]]. exact (find_email_none _ _ Ef Hx).
    + intros u Hin. apply in_app_or in Hin as [Hin|[<-|[]]]; [now apply Hp|reflexivity].
    + intros u [= <-]. apply in_or_app. right. now left.
    + reflexivity.
  - split; simpl; try assumption; [discriminate|reflexivity].
Qed.

Lemma auth_ok_run (ops : list auth_op) : auth_ok (run ops).
Proof.
  unfold run. pose proof auth_ok_initial as H. revert H.
  generalize AuthContext.initial.
  induction ops as [|op ops IH]; intros st Hst; simpl; [exact Hst|].
  apply IH, auth_ok_step, Hst.
Qed.

(** In every state reached from the initial one: no two accounts share an
    e-mail address up to letter case; every account, the signed-in one
    included, holds exactly the permissions of its role; and the stored
    session is the signed-in user. *)
Theorem accounts_stay_consistent :
  forall ops : list auth_op,
    NoDup (map folded_email (AuthContext.users (run ops)))
    /\ Forall
         (fun u => AuthContext.permissions u
                   = AuthContext.ROLE_PERMISSIONS (AuthContext.role u))
         (AuthContext.users (run ops))
    /\ AuthContext.stored (run ops) = AuthContext.user (run ops)
    /\ forall permission,
        AuthContext.hasPermission (run ops) permission
        = match AuthContext.user (run ops) with
          | Some u =>
              JsString.mem permission (AuthContext.ROLE_PERMISSIONS (AuthContext.role u))
          | None => false
          end.
Proof.
  intro ops. destruct (auth_ok_run ops) as [He Hp Hu Hs].
  split; [exact He|]. split; [now apply Forall_forall|]. split; [exact Hs|].
  intro permission. unfold AuthContext.hasPermission.
  destruct (AuthContext.user (run ops)) as [u|] eqn:E; [|reflexivity].
  now rewrite (Hp u (Hu u eq_refl)).
Qed.

(** [login] succeeds exactly when the password is the fixed one and some
    account has the e-mail address, up to letter case, and the role; it
    then signs in such an account.  A failed [login] leaves the signed-in
    user and the stored session as they were; no [login] changes the
    accounts. *)
Theorem login_succeeds_iff :
  forall (st : AuthContext.auth) (email password : string) (role : AuthContext.UserRole),
    (snd (AuthContext.login st email password role) = true <->
     password = "password123"
     /\ exists u, In u (AuthContext.users st)
                  /\ folded_email u = JsString.toLowerCase email
                  /\ AuthContext.role u = role)
    /\ (snd (AuthContext.login st email password role) = true ->
        exists u, AuthContext.user (fst (AuthContext.login st email password role)) = Some u
                  /\ In u (AuthContext.users st)
                  /\ folded_email u = JsString.toLowerCase email
                  /\ AuthContext.role u = role)
    /\ (snd (AuthContext.login st email password role) = false ->
        AuthContext.user (fst (AuthContext.login st email password role))
        = AuthContext.user st
        /\ AuthContext.stored (fst (AuthContext.login st email password role))
           = AuthContext.stored st)
    /\ AuthContext.users (fst (AuthContext.login st email password role))
       = AuthContext.users st.
Proof.
  intros st e p r. unfold AuthContext.login.
  destruct (find _ (AuthContext.users st)) as [u|] eqn:Ef.
  - destruct (find_some _ _ Ef) as [Hin Hm]. apply andb_true_iff in Hm as [Hem Hr].
    apply String.eqb_eq in Hem. apply role_eqb_eq in Hr.
    destruct (String.eqb_spec p "password123") as [->|Hp]; simpl.
    + split; [|split; [|split]]; try discriminate; try reflexivity.
      * split; [intros _; split; [reflexivity|eauto]|reflexivity].
      * intros _. eauto.
    + split; [|split; [|split]]; try discriminate; try reflexivity; [|tauto].
      split; [discriminate|]. intros [Hp' _]. congruence.
  - simpl. split; [|split; [|split]]; try discriminate; try reflexivity; [|tauto].
    split; [discriminate|].
    intros [_ (u & Hin & Hem & Hr)].
    pose proof (find_none _ _ Ef u Hin) as H. simpl in H.
    unfold folded_email in Hem. rewrite Hem, String.eqb_refl in H.
    subst r. unfold AuthContext.role_eqb in H. rewrite String.eqb_refl in H.
    discriminate H.
Qed.

Lemma login_succeeds_iff_witness :
  exists u,
    AuthContext.user
      (fst (AuthContext.login AuthContext.initial "Admin@MCA.gov.in" "password123"
              AuthContext.mca_official)) = Some u
    /\ AuthContext.role u = AuthContext.mca_official.
Proof.
  destruct (proj1 (proj2 (login_succeeds_iff AuthContext.initial "Admin@MCA.gov.in"
                            "password123" AuthContext.mca_official)) eq_refl)
    as (u & Hu & _ & _ & Hr).
  exists u. split; assumption.
Defined.

(** [register] fails exactly when an account already has the e-mail
    address, up to letter case, and then changes neither the accounts nor
    the session.  Otherwise it appends one account and signs it in: the
    account carries the permissions of the requested role, whatever the
    role, and is verified only for citizens and media analysts. *)
Theorem register_succeeds_iff :
  forall (st : AuthContext.auth) (userData : AuthContext.RegisterData) (now : string),
    (snd (AuthContext.register st userData now) = false <->
     In (JsString.toLowerCase (AuthContext.reg_email userData))
       (map folded_email (AuthContext.users st)))
    /\ (snd (AuthContext.register st userData now) = false ->
        AuthContext.users (fst (AuthContext.register st userData now))
        = AuthContext.users st
        /\ AuthContext.user (fst (AuthContext.register st userData now))
           = AuthContext.user st)
    /\ (snd (AuthContext.register st userData now) = true ->
        exists u,
          AuthContext.users (fst (AuthContext.register st userData now))
          = AuthContext.users st ++ [u]
          /\ AuthContext.user (fst (AuthContext.register st userData now)) = Some u
          /\ AuthContext.email u = AuthContext.reg_email userData
          /\ AuthContext.role u = AuthContext.reg_role userData
          /\ AuthContext.permissions u
             = AuthContext.ROLE_PERMISSIONS (AuthContext.reg_role userData)
          /\ (AuthContext.verified u = true <->
              AuthContext.reg_role userData = AuthContext.citizen
              \/ AuthContext.reg_role userData = AuthContext.media_analyst)).
Proof.
  intros st d now. unfold AuthContext.register.
  destruct (find _ (AuthContext.users st)) as [u|] eqn:Ef; simpl.
  - destruct (find_some _ _ Ef) as [Hin Hm]. apply String.eqb_eq in Hm.
    repeat split; try discriminate.
    intros _. rewrite <- Hm. change (In (folded_email u) (map folded_email (AuthContext.users st))).
    now apply in_map.
  - split; [|split; [discriminate|]].
    + split; [discriminate|]. intro Hin. exfalso. exact (find_email_none _ _ Ef Hin).
    + intros _. eexists. repeat split; simpl;
        destruct (AuthContext.reg_role d); simpl; intros; 
        first [reflexivity|discriminate|tauto|intuition discriminate].
Qed.

Lemma register_succeeds_iff_witness :
  AuthContext.users
    (fst (AuthContext.register AuthContext.initial
            {| AuthContext.reg_email := "ADMIN@mca.gov.in";
               AuthContext.reg_password := "secret1";
               AuthContext.reg_name := "Someone";
               AuthContext.reg_role := AuthContext.citizen;
               AuthContext.reg_organization := None;
               AuthContext.reg_department := None |} "1700000000000"))
  = AuthContext.users AuthContext.initial.
Proof.
  apply (proj1 (proj2 (register_succeeds_iff AuthContext.initial
                         {| AuthContext.reg_email := "ADMIN@mca.gov.in";
                            AuthContext.reg_password := "secret1";
                            AuthContext.reg_name := "Someone";
                            AuthContext.reg_role := AuthContext.citizen;
                            AuthContext.reg_organization := None;
                            AuthContext.reg_department := None |} "1700000000000"))).
  reflexivity.
Defined.

(** * Live stream *)

Definition unit_draw (r : Q) : Prop := (0 <= r /\ r < 1)%Q.

Definition valid_draws (random : LiveStreamAnalyzer.draws) : Prop :=
  unit_draw (LiveStreamAnalyzer.first random) /\ unit_draw (LiveStreamAnalyzer.second random).

(** The three shapes of a result of the local analysis. *)
Definition fallback_shape (r : LiveStreamAnalyzer.result) : Prop :=
  exists s c : Q,
    LiveStreamAnalyzer.score r = Some s /\ LiveStreamAnalyzer.confidence r = Some c
    /\ ((LiveStreamAnalyzer.sentiment r = "positive"
         /\ 0.8 <= s /\ s <= 0.95 /\ 0.6 <= c /\ c <= 0.9)%Q
        \/ (LiveStreamAnalyzer.sentiment r = "negative"
            /\ -0.95 <= s /\ s <= -0.8 /\ 0.6 <= c /\ c <= 0.9)%Q
        \/ (LiveStreamAnalyzer.sentiment r = "neutral"
            /\ -0.2 <= s /\ s < 0.2 /\ 0.3 <= c /\ c <= 0.5)%Q).

Lemma local_fallback_shape (text : string) (random : LiveStreamAnalyzer.draws) :
  valid_draws random ->
  fallback_shape (LiveStreamAnalyzer.getLocalSentimentAnalysis text random).
Proof.
  intros [[Hf0 Hf1] [Hs0 Hs1]].
  unfold LiveStreamAnalyzer.getLocalSentimentAnalysis, fallback_shape.
  set (p := LiveStreamAnalyzer.count_present _ LiveStreamAnalyzer.positiveWords).
  set (n := LiveStreamAnalyzer.count_present _ LiveStreamAnalyzer.negativeWords).
  destruct (n <? p) eqn:Hpos; [|destruct (p <? n) eqn:Hneg]; simpl.
  - apply Z.ltb_lt in Hpos.
    destruct (capped_confidence_bounds (p - n)) as [Hlo Hhi]; [lia|].
    eexists _, _. split; [reflexivity|]. split; [reflexivity|].
    set (c := Qmin _ _) in *. left. repeat split; lra.
  - apply Z.ltb_lt in Hneg.
    destruct (capped_confidence_bounds (n - p)) as [Hlo Hhi]; [lia|].
    eexists _, _. split; [reflexivity|]. split; [reflexivity|].
    set (c := Qmin _ _) in *. right; left. repeat split; lra.
  - eexists _, _. split; [reflexivity|]. split; [reflexivity|].
    right; right. repeat split; lra.
Qed.

(** The label of the local analysis can be read off its score: the score
    is at least 0.8 exactly for a positive result, at most -0.8 exactly for
    a negative one, and within [-0.2, 0.2) exactly for a neutral one; a
    positive or negative result has a confidence of at least 0.6. *)
Theorem local_labels_are_separated_by_score :
  forall (text : string) (random : LiveStreamAnalyzer.draws),
    valid_draws random ->
    exists s c : Q,
      LiveStreamAnalyzer.score
        (LiveStreamAnalyzer.getLocalSentimentAnalysis text random) = Some s
      /\ LiveStreamAnalyzer.confidence
           (LiveStreamAnalyzer.getLocalSentimentAnalysis text random) = Some c
      /\ (LiveStreamAnalyzer.sentiment
            (LiveStreamAnalyzer.getLocalSentimentAnalysis text random) = "positive"
          <-> (0.8 <= s)%Q)
      /\ (LiveStreamAnalyzer.sentiment
            (LiveStreamAnalyzer.getLocalSentimentAnalysis text random) = "negative"
          <-> (s <= -0.8)%Q)
      /\ (LiveStreamAnalyzer.sentiment
            (LiveStreamAnalyzer.getLocalSentimentAnalysis text random) = "neutral"
          <-> (-0.2 <= s /\ s < 0.2)%Q)
      /\ (LiveStreamAnalyzer.sentiment
            (LiveStreamAnalyzer.getLocalSentimentAnalysis text random) <> "neutral"
          -> (0.6 <= c)%Q).
Proof.
  intros text random Hv.
  destruct (local_fallback_shape text random Hv) as (s & c & Hs & Hc & H).
  exists s, c. split; [exact Hs|]. split; [exact Hc|].
  destruct H as [(-> & ?)|[(-> & ?)|(-> & ?)]];
    repeat split; intros; try discriminate; try congruence; try lra; try tauto.
Qed.

Lemma local_labels_are_separated_by_score_witness :
  exists s c : Q,
    LiveStreamAnalyzer.score
      (LiveStreamAnalyzer.getLocalSentimentAnalysis "Good, helpful and great but a burden"
         {| LiveStreamAnalyzer.first := 0.5; LiveStreamAnalyzer.second := 0.5 |}) = Some s
    /\ LiveStreamAnalyzer.confidence
         (LiveStreamAnalyzer.getLocalSentimentAnalysis "Good, helpful and great but a burden"
            {| LiveStreamAnalyzer.first := 0.5; LiveStreamAnalyzer.second := 0.5 |}) = Some c
    /\ (0.8 <= s)%Q.
Proof.
  destruct (local_labels_are_separated_by_score "Good, helpful and great but a burden"
              {| LiveStreamAnalyzer.first := 0.5; LiveStreamAnalyzer.second := 0.5 |})
    as (s & c & Hs & Hc & Hpos & _).
  - split; split; vm_compute; first [discriminate|reflexivity].
  - exists s, c. split; [exact Hs|]. split; [exact Hc|].
    apply Hpos. vm_compute. reflexivity.
Defined.





















(** * Further properties of the summarizer *)

(** [a] ranks before [b]: a higher score, or the same score earlier in the
    text. *)
Definition ranks_before (a b : CommentSummarizer.scored) : Prop :=
  CommentSummarizer.score b < CommentSummarizer.score a
  \/ (CommentSummarizer.score a = CommentSummarizer.score b
      /\ (CommentSummarizer.index a < CommentSummarizer.index b)%nat).

Lemma insert_In {A : Type} (cmp : A -> A -> Z) (x y : A) (l : list A) :
  In y (JsArray.insert cmp x l) -> y = x \/ In y l.
Proof.
  intro H. apply (Permutation_in _ (Permutation_sym (insert_perm cmp x l))) in H.
  destruct H as [<-|H]; tauto.
Qed.

Lemma insert_ranked (x : CommentSummarizer.scored) (l : list CommentSummarizer.scored) :
  StronglySorted ranks_before l ->
  Forall (fun y => (CommentSummarizer.index x < CommentSummarizer.index y)%nat) l ->
  StronglySorted ranks_before (JsArray.insert CommentSummarizer.by_score x l).
Proof.
  intros Hs Hx. induction Hs as [|y l Hs IH Hy]; simpl.
  - repeat constructor.
  - inversion Hx as [|? ? Hxy Hxl]; subst.
    unfold CommentSummarizer.by_score at 1.
    destruct (CommentSummarizer.score y - CommentSummarizer.score x <=? 0) eqn:E.
    + apply Z.leb_le in E. constructor; [now constructor|].
      constructor; [unfold ranks_before; lia|].
      rewrite Forall_forall in *. intros z Hz.
      specialize (Hy z Hz). specialize (Hxl z Hz). unfold ranks_before in *. lia.
    + apply Z.leb_gt in E. constructor; [now apply IH|].
      apply Forall_forall. intros z Hz. apply insert_In in Hz as [->|Hz].
      * unfold ranks_before. lia.
      * rewrite Forall_forall in Hy. now apply Hy.
Qed.

Lemma sort_ranked (l : list CommentSummarizer.scored) :
  StronglySorted
    (fun a b => (CommentSummarizer.index a < CommentSummarizer.index b)%nat) l ->
  StronglySorted ranks_before (JsArray.sort CommentSummarizer.by_score l).
Proof.
  induction 1 as [|x l Hs IH Hx]; simpl; [constructor|].
  apply insert_ranked; [exact IH|].
  apply Forall_forall. intros y Hy. apply sort_In in Hy.
  rewrite Forall_forall in Hx. now apply Hx.
Qed.

Lemma seq_increasing (n i : nat) (l : list string) :
  StronglySorted
    (fun a b => (CommentSummarizer.index a < CommentSummarizer.index b)%nat)
    (CommentSummarizer.map_indexed (CommentSummarizer.score_sentence n) i l).
Proof.
  revert i. induction l as [|x l IH]; intro i; simpl; constructor; [apply IH|].
  apply Forall_forall. intros y Hy.
  destruct (map_indexed_In _ _ _ _ Hy) as (j & x' & _ & ->). simpl. lia.
Qed.

(** ** The summarizer does not depend on how the engine sorts *)

(** [x] comes before [y] in [l]. *)
Definition earlier {A : Type} (l : list A) (x y : A) : Prop :=
  exists l1 l2 l3, l = l1 ++ x :: l2 ++ y :: l3.

(** What ECMAScript asks of [l.sort(cmp)] for a consistent comparator,
    whatever the algorithm: the result [r] holds the elements of [l], an
    element never comes after one that the comparator puts behind it, and
    elements that compare equal keep the order they had in [l] (the sort
    is stable). *)
Definition sorts_to {A : Type} (cmp : A -> A -> Z) (l r : list A) : Prop :=
  Permutation l r
  /\ StronglySorted (fun x y => cmp x y < 0 \/ (cmp x y = 0 /\ earlier l x y)) r.

(** A run of [summarizeText] on an engine: [ranked] is what the first
    sort returns, [top] what the second one returns. *)
Definition summarizer_run (text : string) (length : CommentSummarizer.length_setting)
           (top : list CommentSummarizer.scored) (summary : string) : Prop :=
  exists ranked,
    sorts_to CommentSummarizer.by_score (CommentSummarizer.scoredSentences text) ranked
    /\ sorts_to CommentSummarizer.by_index
         (JsArray.slice0
            (Z.to_nat
               (CommentSummarizer.targetSentences length
                  (List.length (CommentSummarizer.sentences text))))
            ranked)
         top
    /\ summary
       = (JsString.join ". " (map CommentSummarizer.sentence top) ++ ".")%string.

Definition by_position (a b : CommentSummarizer.scored) : Prop :=
  (CommentSummarizer.index a < CommentSummarizer.index b)%nat.

Lemma sorted_unique {A : Type} (R : A -> A -> Prop) (r1 r2 : list A) :
  (forall x y, R x y -> R y x -> False) ->
  StronglySorted R r1 -> StronglySorted R r2 -> Permutation r1 r2 -> r1 = r2.
Proof.
  intros Hasym H1. revert r2. induction H1 as [|x t1 Ht1 IH Hx]; intros r2 H2 Hp.
  - now apply Permutation_nil in Hp.
  - destruct H2 as [|y t2 Ht2 Hy].
    + apply Permutation_sym, Permutation_nil in Hp. discriminate.
    + assert (Exy : x = y).
      { assert (Hxin : In x (y :: t2)) by (apply (Permutation_in _ Hp); now left).
        assert (Hyin : In y (x :: t1))
          by (apply (Permutation_in _ (Permutation_sym Hp)); now left).
        destruct Hxin as [E|Hxin]; [now symmetry|].
        destruct Hyin as [E|Hyin]; [exact E|].
        rewrite Forall_forall in Hx, Hy. exfalso.
        exact (Hasym x y (Hx y Hyin) (Hy x Hxin)). }
      subst y. f_equal. apply IH; [exact Ht2|].
      exact (Permutation_cons_inv Hp).
Qed.

Lemma StronglySorted_weaken {A : Type} (R S : A -> A -> Prop) (l : list A) :
  (forall x y, In x l -> In y l -> R x y -> S x y) ->
  StronglySorted R l -> StronglySorted S l.
Proof.
  intros H Hs. induction Hs as [|x l Hs IH Hx]; constructor.
  - apply IH. intros a b Ha Hb. apply H; now right.
  - rewrite Forall_forall in *. intros y Hy. apply H; [now left|now right|now apply Hx].
Qed.

Lemma earlier_sorted {A : Type} (R : A -> A -> Prop) (l : list A) (x y : A) :
  StronglySorted R l -> earlier l x y -> R x y.
Proof.
  intros Hs (l1 & l2 & l3 & ->). induction l1 as [|a l1 IH]; simpl in Hs.
  - inversion Hs as [|? ? _ Hall]; subst. rewrite Forall_forall in Hall.
    apply Hall. apply in_or_app. right. now left.
  - inversion Hs; subst. now apply IH.
Qed.

Lemma sorted_earlier {A : Type} (R : A -> A -> Prop) (l : list A) (x y : A) :
  (forall a b, R a b -> R b a -> False) -> (forall a, R a a -> False) ->
  StronglySorted R l -> In x l -> In y l -> R x y -> earlier l x y.
Proof.
  intros Hasym Hirr Hs. induction Hs as [|a l Hs IH Ha]; intros Hx Hy Hxy; [destruct Hx|].
  rewrite Forall_forall in Ha. destruct Hx as [->|Hx].
  - destruct Hy as [->|Hy]; [exfalso; exact (Hirr _ Hxy)|].
    apply in_split in Hy as (l2 & l3 & ->). now exists [], l2, l3.
  - destruct Hy as [->|Hy]; [exfalso; exact (Hasym _ _ Hxy (Ha x Hx))|].
    destruct (IH Hx Hy Hxy) as (l1 & l2 & l3 & ->). now exists (a :: l1), l2, l3.
Qed.

Lemma by_position_asym (a b : CommentSummarizer.scored) :
  by_position a b -> by_position b a -> False.
Proof. unfold by_position. lia. Qed.

Lemma ranks_before_asym (a b : CommentSummarizer.scored) :
  ranks_before a b -> ranks_before b a -> False.
Proof. unfold ranks_before. lia. Qed.

Lemma scoredSentences_by_position (text : string) :
  StronglySorted by_position (CommentSummarizer.scoredSentences text).
Proof. apply seq_increasing. Qed.

(** On the scored sentences, the contract of the first sort says exactly
    that the result is ranked by score, earlier sentences first among
    equal scores. *)
Lemma first_sort_ranks (text : string) (ranked : list CommentSummarizer.scored) :
  Permutation (CommentSummarizer.scoredSentences text) ranked ->
  (StronglySorted
     (fun x y => CommentSummarizer.by_score x y < 0
                 \/ (CommentSummarizer.by_score x y = 0
                     /\ earlier (CommentSummarizer.scoredSentences text) x y))
     ranked
   <-> StronglySorted ranks_before ranked).
Proof.
  intro Hp. pose proof (scoredSentences_by_position text) as Hpos.
  split; apply StronglySorted_weaken; intros x y Hx Hy.
  - intros [H|[H He]]; unfold CommentSummarizer.by_score, ranks_before in *.
    + left. lia.
    + right. split; [lia|]. exact (earlier_sorted _ _ _ _ Hpos He).
  - intros [H|[H Hi]]; unfold CommentSummarizer.by_score.
    + left. lia.
    + right. split; [lia|].
      apply (sorted_earlier by_position); try assumption.
      * exact by_position_asym.
      * unfold by_position. intros a Ha. lia.
      * exact (Permutation_in _ (Permutation_sym Hp) Hx).
      * exact (Permutation_in _ (Permutation_sym Hp) Hy).
Qed.

Lemma sorted_NoDup_index (R : CommentSummarizer.scored -> CommentSummarizer.scored -> Prop)
      (l : list CommentSummarizer.scored) :
  (forall x y, R x y -> (CommentSummarizer.index x <= CommentSummarizer.index y)%nat) ->
  NoDup (map CommentSummarizer.index l) ->
  StronglySorted R l -> StronglySorted by_position l.
Proof.
  intros HR Hnd Hs. induction Hs as [|x l Hs IH Hx]; constructor.
  - apply IH. now inversion Hnd.
  - inversion Hnd as [|? ? Hnotin _]; subst.
    rewrite Forall_forall in *. intros y Hy. specialize (HR _ _ (Hx y Hy)).
    assert (CommentSummarizer.index x <> CommentSummarizer.index y).
    { intro E. apply Hnotin. rewrite E. now apply in_map. }
    unfold by_position. lia.
Qed.

(** The run of the embedding is a run on a conforming engine. *)
Lemma embedded_run (text : string) (length : CommentSummarizer.length_setting) :
  summarizer_run text length
    (CommentSummarizer.topSentences text length)
    (CommentSummarizer.summarizeText text length).
Proof.
  exists (JsArray.sort CommentSummarizer.by_score (CommentSummarizer.scoredSentences text)).
  split; [|split; [|reflexivity]].
  - split; [apply sort_perm|].
    apply (proj2 (first_sort_ranks text _ (sort_perm _ _))).
    apply sort_ranked, seq_increasing.
  - split; [apply sort_perm|]. fold (CommentSummarizer.topSentences text length).
    pose proof (topSentences_increasing text length) as Hinc.
    revert Hinc. apply StronglySorted_weaken. intros x y _ _ H. left.
    unfold CommentSummarizer.by_index. lia.
Qed.

Lemma run_is_embedded_run (text : string) (length : CommentSummarizer.length_setting)
      (top : list CommentSummarizer.scored) (summary : string) :
  summarizer_run text length top summary ->
  top = CommentSummarizer.topSentences text length
  /\ summary = CommentSummarizer.summarizeText text length.
Proof.
  intros (ranked & [Hp1 Hs1] & [Hp2 Hs2] & ->).
  assert (Eranked : ranked = JsArray.sort CommentSummarizer.by_score
                               (CommentSummarizer.scoredSentences text)).
  { apply (sorted_unique ranks_before).
    - exact ranks_before_asym.
    - exact (proj1 (first_sort_ranks text ranked Hp1) Hs1).
    - apply sort_ranked, seq_increasing.
    - eapply perm_trans; [apply Permutation_sym, Hp1|apply sort_perm]. }
  subst ranked. fold (CommentSummarizer.topSentences text length).
  assert (Etop : top = CommentSummarizer.topSentences text length).
  { apply (sorted_unique by_position).
    - exact by_position_asym.
    - apply (sorted_NoDup_index _ top) in Hs2; [exact Hs2| |].
      + intros x y [H|[H _]]; unfold CommentSummarizer.by_index in H; lia.
      + eapply Permutation_NoDup; [apply Permutation_map, Hp2|].
        apply firstn_NoDup_map.
        eapply Permutation_NoDup; [apply Permutation_map, sort_perm|].
        unfold CommentSummarizer.scoredSentences. rewrite map_indexed_index.
        apply seq_NoDup.
    - apply topSentences_increasing.
    - eapply perm_trans; [apply Permutation_sym, Hp2|].
      unfold CommentSummarizer.topSentences. apply sort_perm. }
  split; [exact Etop|]. rewrite Etop. reflexivity.
Qed.

(** C9. A run of [summarizeText] leaves the engine one freedom, the
    algorithm of its two sorts.  Every text and length setting has a run,
    and whatever conforming sorts two runs on the same text and length
    setting use, they select the same sentences in the same order and
    return the same string, the ones computed by the embedding: the score
    comparator never returns NaN, ties are settled by the stability of the
    sort, the positions compared by the second sort are pairwise
    different, and nothing else is consulted. *)
Theorem C9_summarizer_deterministic :
  forall (text : string) (length : CommentSummarizer.length_setting),
    summarizer_run text length
      (CommentSummarizer.topSentences text length)
      (CommentSummarizer.summarizeText text length)
    /\ forall (top1 top2 : list CommentSummarizer.scored) (summary1 summary2 : string),
        summarizer_run text length top1 summary1 ->
        summarizer_run text length top2 summary2 ->
        top1 = top2 /\ summary1 = summary2
        /\ top1 = CommentSummarizer.topSentences text length
        /\ summary1 = CommentSummarizer.summarizeText text length.
Proof.
  intros text length. split; [apply embedded_run|].
  intros top1 top2 summary1 summary2 H1 H2.
  destruct (run_is_embedded_run _ _ _ _ H1) as [-> ->].
  destruct (run_is_embedded_run _ _ _ _ H2) as [-> ->].
  repeat split.
Qed.

Lemma C9_summarizer_deterministic_witness :
  [{| CommentSummarizer.sentence := "The bill is good";
      CommentSummarizer.score := 3; CommentSummarizer.index := 0 |}]
  = CommentSummarizer.topSentences "The bill is good. It helps." CommentSummarizer.short
  /\ "The bill is good."
     = CommentSummarizer.summarizeText "The bill is good. It helps." CommentSummarizer.short.
Proof.
  assert (Hrun : summarizer_run "The bill is good. It helps." CommentSummarizer.short
                   [{| CommentSummarizer.sentence := "The bill is good";
                       CommentSummarizer.score := 3; CommentSummarizer.index := 0 |}]
                   "The bill is good.").
  { exists [{| CommentSummarizer.sentence := "The bill is good";
               CommentSummarizer.score := 3; CommentSummarizer.index := 0 |};
            {| CommentSummarizer.sentence := "It helps";
               CommentSummarizer.score := 0; CommentSummarizer.index := 1 |}].
    split; [|split; [|reflexivity]].
    - split; [vm_compute; apply Permutation_refl|]. repeat constructor.
    - split; [vm_compute; apply Permutation_refl|]. repeat constructor. }
  destruct (proj2 (C9_summarizer_deterministic
                     "The bill is good. It helps." CommentSummarizer.short)
              _ _ _ _ Hrun Hrun) as (_ & _ & Ht & Hs).
  split; [exact Ht|exact Hs].
Defined.

(** The selection is the top of the ranking: every selected sentence ranks
    before every sentence that is left out, by a higher score or, at equal
    scores, by coming earlier in the text. *)
Theorem selected_sentences_outrank_the_others :
  forall (text : string) (length : CommentSummarizer.length_setting)
         (s t : CommentSummarizer.scored),
    In s (CommentSummarizer.topSentences text length) ->
    In t (CommentSummarizer.scoredSentences text) ->
    ~ In t (CommentSummarizer.topSentences text length) ->
    ranks_before s t.
Proof.
  intros text length s t Hs Ht Hnt.
  unfold CommentSummarizer.topSentences, JsArray.slice0 in *.
  set (k := Z.to_nat _) in *.
  set (ranking := JsArray.sort CommentSummarizer.by_score
                    (CommentSummarizer.scoredSentences text)) in *.
  apply sort_In in Hs.
  assert (Hrank : StronglySorted ranks_before ranking)
    by (apply sort_ranked, seq_increasing).
  apply (StronglySorted_split _ k ranking s t Hrank Hs).
  assert (Hin : In t ranking) by (now apply sort_In).
  rewrite <- (firstn_skipn k ranking) in Hin.
  apply in_app_or in Hin as [Hin|Hin]; [|exact Hin].
  exfalso. apply Hnt. now apply sort_In.
Qed.

Lemma selected_sentences_outrank_the_others_witness :
  ranks_before
    {| CommentSummarizer.sentence := "The bill helps firms";
       CommentSummarizer.score := 3; CommentSummarizer.index := 0 |}
    {| CommentSummarizer.sentence := "Who pays";
       CommentSummarizer.score := 0; CommentSummarizer.index := 2 |}.
Proof.
  apply (selected_sentences_outrank_the_others
           "The bill helps firms. It is late! Who pays? Firms do. They object. We agree."
           CommentSummarizer.short).
  - vm_compute. tauto.
  - vm_compute. tauto.
  - vm_compute. intros [H|[H|[]]]; discriminate H.
Defined.

(** ** Trimming *)

Lemma trim_start_chars (s : string) (c : ascii) :
  In c (chars (JsString.trim_start s)) -> In c (chars s).
Proof.
  induction s as [|a s IH]; simpl; [tauto|].
  destruct (JsString.is_space a); simpl; tauto.
Qed.

Lemma trim_end_chars (s : string) (c : ascii) :
  In c (chars (JsString.trim_end s)) -> In c (chars s).
Proof.
  induction s as [|a s IH]; simpl; [tauto|].
  destruct (JsString.trim_end s) as [|b r] eqn:E.
  - destruct (JsString.is_space a); simpl; tauto.
  - simpl. intros [<-|H]; [tauto|]. right. apply IH. exact H.
Qed.

Lemma trim_chars (s : string) (c : ascii) :
  In c (chars (JsString.trim s)) -> In c (chars s).
Proof. intro H. apply trim_start_chars, trim_end_chars, H. Qed.

Lemma trim_end_idempotent (s : string) :
  JsString.trim_end (JsString.trim_end s) = JsString.trim_end s.
Proof.
  induction s as [|a s IH]; simpl; [reflexivity|].
  destruct (JsString.trim_end s) as [|b r] eqn:E.
  - destruct (JsString.is_space a) eqn:Ea; simpl; [reflexivity|now rewrite Ea].
  - change (JsString.trim_end (String a (String b r)))
      with (match JsString.trim_end (String b r) with
            | EmptyString =>
                if JsString.is_space a then EmptyString else String a EmptyString
            | String b' r' => String a (String b' r')
            end).
    now rewrite IH.
Qed.

Lemma trim_end_head (a : ascii) (s : string) :
  JsString.is_space a = false ->
  exists r, JsString.trim_end (String a s) = String a r.
Proof.
  intro Ha. simpl. destruct (JsString.trim_end s); rewrite ?Ha; eauto.
Qed.

Lemma trim_start_head (s : string) :
  JsString.trim_start s = EmptyString
  \/ exists a r, JsString.trim_start s = String a r /\ JsString.is_space a = false.
Proof.
  induction s as [|a s IH]; simpl; [now left|].
  destruct (JsString.is_space a) eqn:Ea; [exact IH|]. right. eauto.
Qed.

Lemma trim_head (s : string) :
  JsString.trim s = EmptyString
  \/ exists a r, JsString.trim s = String a r /\ JsString.is_space a = false.
Proof.
  unfold JsString.trim. destruct (trim_start_head s) as [->|(a & r & -> & Ha)].
  - now left.
  - right. destruct (trim_end_head a r Ha) as (r' & ->). eauto.
Qed.

(** Trimming a trimmed string changes nothing. *)
Lemma trim_idempotent (s : string) : JsString.trim (JsString.trim s) = JsString.trim s.
Proof.
  destruct (trim_head s) as [E|(a & r & E & Ha)].
  - rewrite E. reflexivity.
  - unfold JsString.trim at 1. rewrite E. simpl JsString.trim_start. rewrite Ha.
    rewrite <- E. unfold JsString.trim. apply trim_end_idempotent.
Qed.

Lemma trim_blank (s : string) :
  Forall (fun c => JsString.is_space c = true) (chars s) -> JsString.trim s = EmptyString.
Proof.
  unfold JsString.trim. induction s as [|a s IH]; simpl; intro H; [reflexivity|].
  inversion H as [|? ? Ha Hs]; subst. rewrite Ha. now apply IH.
Qed.

(** ** Sentences of a summary *)

Definition clean (s : string) : Prop :=
  Forall (fun c => CommentSummarizer.is_terminal c = false) (chars s).

Lemma split_clean_prefix (q rest : string) (c : ascii) :
  clean q -> CommentSummarizer.is_terminal c = true ->
  JsString.starts_with CommentSummarizer.is_terminal rest = false ->
  JsString.split_plus CommentSummarizer.is_terminal (q ++ String c rest)
  = q :: JsString.split_plus CommentSummarizer.is_terminal rest.
Proof.
  intros Hq Hc Hrest. induction q as [|a q IH]; simpl.
  - now rewrite Hc, Hrest.
  - inversion Hq as [|? ? Ha Hq']; subst. rewrite Ha, (IH Hq'). reflexivity.
Qed.

Lemma append_assoc (a b c : string) : ((a ++ b) ++ c = a ++ (b ++ c))%string.
Proof. induction a as [|x a IH]; simpl; [reflexivity|now rewrite IH]. Qed.

Lemma join_cons (sep a b : string) (l : list string) :
  String.concat sep (a :: b :: l) = (a ++ sep ++ String.concat sep (b :: l))%string.
Proof. reflexivity. Qed.

Lemma split_joined (s : string) (l : list string) :
  clean s -> Forall clean l ->
  JsString.split_plus CommentSummarizer.is_terminal (JsString.join ". " (s :: l) ++ ".")
  = s :: map (String " ") l ++ [EmptyString].
Proof.
  revert s. induction l as [|s2 l IH]; intros s Hs Hl.
  - simpl. now rewrite (split_clean_prefix s EmptyString "." Hs).
  - inversion Hl as [|? ? Hs2 Hl']; subst.
    unfold JsString.join in *. rewrite join_cons, append_assoc.
    change ((". " ++ String.concat ". " (s2 :: l)) ++ ".")%string
      with (String "." (String " " (String.concat ". " (s2 :: l) ++ "."))).
    rewrite (split_clean_prefix s (String " " (String.concat ". " (s2 :: l) ++ ".")) "." Hs
               eq_refl eq_refl).
    cbn [JsString.split_plus]. change (CommentSummarizer.is_terminal " ") with false.
    cbv iota. rewrite (IH s2 Hs2 Hl'). reflexivity.
Qed.

Definition tidy (s : string) : Prop :=
  s <> EmptyString /\ clean s /\ JsString.trim s = s.

Lemma sentence_pieces_clean (text original : string) :
  In original (CommentSummarizer.sentences text) ->
  clean original /\ JsString.trim original <> EmptyString.
Proof.
  unfold CommentSummarizer.sentences. intro H. apply filter_In in H as [Hin Hlen].
  split.
  - apply Forall_forall. intros c Hc. exact (proj1 (split_plus_chars _ _ _ _ Hin Hc)).
  - intro E. rewrite E in Hlen. discriminate Hlen.
Qed.

Lemma selected_tidy (text : string) (length : CommentSummarizer.length_setting)
      (s : CommentSummarizer.scored) :
  In s (CommentSummarizer.topSentences text length) -> tidy (CommentSummarizer.sentence s).
Proof.
  intro H. destruct (topSentences_original _ _ _ H) as (original & Hnth & ->).
  apply nth_error_In in Hnth.
  destruct (sentence_pieces_clean _ _ Hnth) as [Hc Hne].
  split; [exact Hne|]. split; [|apply trim_idempotent].
  apply Forall_forall. intros c Hin. unfold clean in Hc. rewrite Forall_forall in Hc.
  apply Hc. now apply trim_chars.
Qed.

(** Whatever the text and the setting, the selected sentences are listed
    by strictly increasing position in the text; each is the trimmed form
    of the sentence at its position, is not empty, and holds none of the
    terminators [.], [!] and [?]. *)
Theorem summary_keeps_the_order_of_the_text :
  forall (text : string) (length : CommentSummarizer.length_setting),
    StronglySorted
      (fun a b => (CommentSummarizer.index a < CommentSummarizer.index b)%nat)
      (CommentSummarizer.topSentences text length)
    /\ Forall
         (fun s =>
            (exists original,
                nth_error (CommentSummarizer.sentences text) (CommentSummarizer.index s)
                = Some original
                /\ CommentSummarizer.sentence s = JsString.trim original)
            /\ CommentSummarizer.sentence s <> EmptyString
            /\ Forall (fun c => CommentSummarizer.is_terminal c = false)
                 (chars (CommentSummarizer.sentence s)))
         (CommentSummarizer.topSentences text length).
Proof.
  intros text length. split; [apply topSentences_increasing|].
  apply Forall_forall. intros s Hs.
  destruct (selected_tidy _ _ _ Hs) as (Hne & Hc & _).
  split; [now apply (topSentences_original text length)|]. split; assumption.
Qed.

Lemma trim_after_space (x : string) :
  JsString.trim (String " " x) = JsString.trim x.
Proof. reflexivity. Qed.

Lemma tidy_kept (x : string) :
  tidy x -> (0 <? String.length (JsString.trim x))%nat = true.
Proof.
  intros (Hne & _ & Ht). rewrite Ht. destruct x; [congruence|reflexivity].
Qed.

Lemma keep_tidy (l : list string) :
  Forall tidy l ->
  map JsString.trim
    (filter (fun s => (0 <? String.length (JsString.trim s))%nat)
       (map (String " ") l ++ [EmptyString]))
  = l.
Proof.
  induction 1 as [|x l Hx _ IH]; [reflexivity|].
  cbn [map app filter]. rewrite trim_after_space, (tidy_kept x Hx).
  cbn [map]. rewrite trim_after_space, IH. f_equal. apply Hx.
Qed.

(** Splitting a summary into sentences gives back the selected sentences:
    the summary holds them and nothing else. *)
Theorem summary_splits_into_the_selected_sentences :
  forall (text : string) (length : CommentSummarizer.length_setting),
    map JsString.trim
      (CommentSummarizer.sentences (CommentSummarizer.summarizeText text length))
    = map CommentSummarizer.sentence (CommentSummarizer.topSentences text length).
Proof.
  intros text length.
  assert (Htidy : Forall tidy
                    (map CommentSummarizer.sentence
                       (CommentSummarizer.topSentences text length))).
  { apply Forall_forall. intros s Hs. apply in_map_iff in Hs as (e & <- & He).
    now apply (selected_tidy text length). }
  unfold CommentSummarizer.summarizeText, CommentSummarizer.sentences.
  destruct (map CommentSummarizer.sentence (CommentSummarizer.topSentences text length))
    as [|s l]; [reflexivity|].
  inversion Htidy as [|? ? (Hne & Hc & Ht) Hl]; subst.
  rewrite split_joined;
    [|exact Hc|apply Forall_forall; intros x Hx; rewrite Forall_forall in Hl;
               exact (proj1 (proj2 (Hl x Hx)))].
  cbn [filter]. rewrite (tidy_kept s (conj Hne (conj Hc Ht))).
  cbn [map]. now rewrite Ht, keep_tidy.
Qed.

(** A text made of terminators and white space only, the empty text
    included, has no sentence and is summarized as a lone full stop. *)
Theorem text_without_sentence_gives_a_full_stop :
  forall (text : string) (length : CommentSummarizer.length_setting),
    Forall (fun c => CommentSummarizer.is_terminal c || JsString.is_space c = true)
      (chars text) ->
    CommentSummarizer.sentences text = []
    /\ CommentSummarizer.summarizeText text length = ".".
Proof.
  intros text length Hall.
  assert (Hs : CommentSummarizer.sentences text = []).
  { unfold CommentSummarizer.sentences.
    destruct (filter _ (JsString.split_plus CommentSummarizer.is_terminal text))
      as [|p ps] eqn:E; [reflexivity|]. exfalso.
    assert (Hin : In p (filter (fun s => (0 <? String.length (JsString.trim s))%nat)
                          (JsString.split_plus CommentSummarizer.is_terminal text)))
      by (rewrite E; now left).
    apply filter_In in Hin as [Hin Hlen].
    rewrite trim_blank in Hlen; [discriminate Hlen|].
    apply Forall_forall. intros c Hc.
    destruct (split_plus_chars _ _ _ _ Hin Hc) as [Hnt Hct].
    rewrite Forall_forall in Hall. specialize (Hall c Hct).
    now rewrite Hnt in Hall. }
  split; [exact Hs|].
  unfold CommentSummarizer.summarizeText, CommentSummarizer.topSentences,
    CommentSummarizer.scoredSentences.
  rewrite Hs. simpl. rewrite firstn_nil. reflexivity.
Qed.

Lemma text_without_sentence_gives_a_full_stop_witness :
  CommentSummarizer.summarizeText " ... ?! " CommentSummarizer.long = ".".
Proof.
  apply text_without_sentence_gives_a_full_stop.
  vm_compute. repeat constructor.
Defined.

(** * Further properties of the lexical score *)

Lemma occurrences_bounds (l words : list string) :
  0 <= occurrences l words <= Z.of_nat (List.length words).
Proof.
  unfold occurrences. pose proof (filter_length_le (fun word => JsString.mem word l) words).
  lia.
Qed.

(** The lexical score never exceeds the number of tokens in absolute
    value: it lies between minus the number of negative tokens and the
    number of positive tokens. *)
Theorem lexical_score_within_token_count :
  forall (positive negative : list string) (text : string),
    - occurrences negative (JsString.split_spaces (JsString.toLowerCase text))
    <= CombinedInsights.lexicalScoreWith positive negative text
    <= occurrences positive (JsString.split_spaces (JsString.toLowerCase text))
    /\ Z.abs (CombinedInsights.lexicalScoreWith positive negative text)
       <= Z.of_nat (List.length (JsString.split_spaces (JsString.toLowerCase text))).
Proof.
  intros positive negative text. unfold CombinedInsights.lexicalScoreWith.
  rewrite score_words_from.
  pose proof (occurrences_bounds positive (JsString.split_spaces (JsString.toLowerCase text))).
  pose proof (occurrences_bounds negative (JsString.split_spaces (JsString.toLowerCase text))).
  lia.
Qed.

Lemma inject_Z_pos (n : Z) : 0 < n -> (0 < inject_Z n)%Q.
Proof. intro H. change 0%Q with (inject_Z 0). now rewrite <- Zlt_Qlt. Qed.

Lemma ratio_above (k s n : Q) :
  (0 < n -> k * n <= 5 * s -> k <= s / n * 5)%Q.
Proof.
  intros Hq Hz.
  setoid_replace (s / n * 5)%Q with ((5 * s) / n)%Q
    by (field; intro E; rewrite E in Hq; discriminate Hq).
  now apply Qle_shift_div_l.
Qed.

Lemma ratio_below (k s n : Q) :
  (0 < n -> 5 * s <= k * n -> s / n * 5 <= k)%Q.
Proof.
  intros Hq Hz.
  setoid_replace (s / n * 5)%Q with ((5 * s) / n)%Q
    by (field; intro E; rewrite E in Hq; discriminate Hq).
  now apply Qle_shift_div_r.
Qed.

Lemma scaled_ratio (s n k : Z) :
  0 < n ->
  (k * n <= 5 * s -> (inject_Z k <= inject_Z s / inject_Z n * 5)%Q)
  /\ (5 * s <= k * n -> (inject_Z s / inject_Z n * 5 <= inject_Z k)%Q).
Proof.
  intro Hn. pose proof (inject_Z_pos n Hn) as Hq. split; intro H.
  - assert (Hz : (inject_Z (k * n) <= inject_Z (5 * s))%Q) by (now rewrite <- Zle_Qle).
    rewrite !inject_Z_mult in Hz. now apply ratio_above.
  - assert (Hz : (inject_Z (5 * s) <= inject_Z (k * n))%Q) by (now rewrite <- Zle_Qle).
    rewrite !inject_Z_mult in Hz. now apply ratio_below.
Qed.

(** When the backend returns a row, the normalized score of the dashboard
    is 1 as soon as the lexical score reaches a fifth of the number of
    tokens, -1 as soon as it falls to minus a fifth, and five times the
    score over the number of tokens in between. *)
Theorem normalized_score_saturates_at_a_fifth :
  forall (text : string) (row : Backend.row) (rows : list Backend.row),
    (Z.of_nat (List.length (JsString.split_spaces (JsString.toLowerCase text)))
     <= 5 * SentimentDashboard.score
              (SentimentDashboard.analyzeSentiment text (Backend.Answer (row :: rows))) ->
     (SentimentDashboard.normalizedScore
        (SentimentDashboard.analyzeSentiment text (Backend.Answer (row :: rows))) == 1)%Q)
    /\ (5 * SentimentDashboard.score
              (SentimentDashboard.analyzeSentiment text (Backend.Answer (row :: rows)))
        <= - Z.of_nat (List.length (JsString.split_spaces (JsString.toLowerCase text))) ->
        (SentimentDashboard.normalizedScore
           (SentimentDashboard.analyzeSentiment text (Backend.Answer (row :: rows)))
         == -1)%Q)
    /\ (- Z.of_nat (List.length (JsString.split_spaces (JsString.toLowerCase text)))
        <= 5 * SentimentDashboard.score
                 (SentimentDashboard.analyzeSentiment text (Backend.Answer (row :: rows)))
        <= Z.of_nat (List.length (JsString.split_spaces (JsString.toLowerCase text))) ->
        (SentimentDashboard.normalizedScore
           (SentimentDashboard.analyzeSentiment text (Backend.Answer (row :: rows)))
         == inject_Z (SentimentDashboard.score
                        (SentimentDashboard.analyzeSentiment text
                           (Backend.Answer (row :: rows))))
            / inject_Z (Z.of_nat
                          (List.length (JsString.split_spaces (JsString.toLowerCase text))))
            * 5)%Q).
Proof.
  intros text row rows. cbn [SentimentDashboard.analyzeSentiment
                               SentimentDashboard.score SentimentDashboard.normalizedScore].
  set (s := fold_left _ _ 0).
  set (n := Z.of_nat (List.length (JsString.split_spaces (JsString.toLowerCase text)))).
  assert (Hn : 0 < n) by (pose proof (split_plus_length JsString.is_space
                                        (JsString.toLowerCase text));
                          unfold n, JsString.split_spaces; lia).
  unfold SentimentDashboard.clamp_unit.
  set (x := (inject_Z s / inject_Z n * 5)%Q).
  destruct (scaled_ratio s n 1 Hn) as [Hge1 Hle1].
  destruct (scaled_ratio s n (-1) Hn) as [Hgem Hlem].
  change (inject_Z 1) with 1%Q in *. change (inject_Z (-1)) with (-1)%Q in *.
  fold x in Hge1, Hle1, Hgem, Hlem.
  split; [|split]; intro H.
  - assert (Hx : (1 <= x)%Q) by (apply Hge1; lia).
    rewrite (Q.min_l 1 x Hx). apply Q.max_r. lra.
  - assert (Hx : (x <= -1)%Q) by (apply Hlem; lia).
    rewrite (Q.min_r 1 x) by lra. apply Q.max_l. exact Hx.
  - assert (Hx1 : (x <= 1)%Q) by (apply Hle1; lia).
    assert (Hx2 : (-1 <= x)%Q) by (apply Hgem; lia).
    rewrite (Q.min_r 1 x Hx1). apply Q.max_r. exact Hx2.
Qed.

Lemma normalized_score_saturates_at_a_fifth_witness :
  (SentimentDashboard.normalizedScore
     (SentimentDashboard.analyzeSentiment "good and useful"
        (Backend.Answer [{| Backend.label := "Positive"; Backend.percent := Some 90%Q |}]))
   == 1)%Q.
Proof.
  apply (proj1 (normalized_score_saturates_at_a_fifth "good and useful"
                  {| Backend.label := "Positive"; Backend.percent := Some 90%Q |} [])).
  vm_compute. discriminate.
Defined.

(** ** Scores of joined texts *)

(** The non-empty pieces of a split. *)
Definition proper (pieces : list string) : list string :=
  filter (fun p => negb (String.eqb p EmptyString)) pieces.

Lemma split_starts_with (sep : ascii -> bool) (s : string) :
  JsString.starts_with sep s = true ->
  exists t, JsString.split_plus sep s = EmptyString :: t.
Proof.
  induction s as [|a s IH]; simpl; [discriminate|]. intro Ha. rewrite Ha.
  destruct (JsString.starts_with sep s); [now apply IH|eauto].
Qed.

Lemma starts_with_append (sep : ascii -> bool) (a : ascii) (s rest : string) :
  JsString.starts_with sep (String a s ++ rest) = JsString.starts_with sep (String a s).
Proof. reflexivity. Qed.

Lemma split_append (sep : ascii -> bool) (a b : string) (c : ascii) :
  sep c = true ->
  exists h t t',
    JsString.split_plus sep (a ++ String c b) = h :: t
    /\ JsString.split_plus sep a = h :: t'
    /\ proper t = proper t' ++ proper (JsString.split_plus sep b).
Proof.
  intro Hc. induction a as [|x a IH].
  - cbn [append JsString.split_plus]. rewrite Hc.
    destruct (JsString.starts_with sep b) eqn:Eb.
    + destruct (split_starts_with sep b Eb) as (t & ->).
      exists EmptyString, t, []. repeat split.
    + exists EmptyString, (JsString.split_plus sep b), []. repeat split.
  - destruct IH as (h & t & t' & E1 & E2 & E3).
    cbn [append JsString.split_plus]. rewrite E1, E2.
    destruct (sep x) eqn:Ex.
    + destruct a as [|y a].
      * cbn [append JsString.starts_with]. rewrite Hc.
        simpl in E2. injection E2 as <- <-.
        exists EmptyString, t, [EmptyString]. repeat split. exact E3.
      * rewrite starts_with_append.
        destruct (JsString.starts_with sep (String y a)).
        -- exists h, t, t'. repeat split. exact E3.
        -- exists EmptyString, (h :: t), (h :: t'). repeat split.
           unfold proper in *. cbn [filter].
           destruct (negb (String.eqb h EmptyString)); simpl; now rewrite E3.
    + exists (String x h), t, t'. repeat split. exact E3.
Qed.

Lemma occurrences_proper (l pieces : list string) :
  JsString.mem EmptyString l = false ->
  occurrences l (proper pieces) = occurrences l pieces.
Proof.
  intro Hl. unfold occurrences, proper. f_equal. f_equal.
  induction pieces as [|p pieces IH]; [reflexivity|]. cbn [filter].
  destruct (String.eqb_spec p EmptyString) as [->|Hp]; cbn [negb filter].
  - now rewrite Hl.
  - now rewrite IH.
Qed.

Lemma occurrences_app (l a b : list string) :
  occurrences l (a ++ b) = occurrences l a + occurrences l b.
Proof. unfold occurrences. rewrite filter_app, length_app. lia. Qed.

Lemma occurrences_cons (l : list string) (h : string) (t : list string) :
  occurrences l (h :: t) = occurrences l [h] + occurrences l t.
Proof. apply (occurrences_app l [h] t). Qed.

Lemma occurrences_append (l : list string) (a b : string) (c : ascii) :
  JsString.mem EmptyString l = false -> JsString.is_space c = true ->
  occurrences l (JsString.split_spaces (a ++ String c b))
  = occurrences l (JsString.split_spaces a) + occurrences l (JsString.split_spaces b).
Proof.
  intros Hl Hc. unfold JsString.split_spaces.
  destruct (split_append JsString.is_space a b c Hc) as (h & t & t' & -> & -> & E).
  rewrite (occurrences_cons l h t), (occurrences_cons l h t').
  rewrite <- (occurrences_proper l t Hl), E, occurrences_app.
  rewrite !(occurrences_proper l _ Hl). lia.
Qed.

Lemma toLowerCase_append (a b : string) :
  JsString.toLowerCase (a ++ b)
  = (JsString.toLowerCase a ++ JsString.toLowerCase b)%string.
Proof.
  unfold JsString.toLowerCase. induction a as [|x a IH]; simpl; [reflexivity|now rewrite IH].
Qed.

Lemma lower_space (c : ascii) :
  JsString.is_space c = true -> JsString.lower_char c = c.
Proof.
  destruct c as [[] [] [] [] [] [] [] []]; vm_compute; intro H;
    first [reflexivity|discriminate H].
Qed.

(** The lexical score of two texts joined by a white-space character, a
    line break for instance, is the sum of their scores. *)
Theorem lexical_score_adds_over_lines :
  forall (a b : string) (c : ascii),
    JsString.is_space c = true ->
    CombinedInsights.lexicalScore (a ++ String c b)
    = CombinedInsights.lexicalScore a + CombinedInsights.lexicalScore b.
Proof.
  intros a b c Hc.
  unfold CombinedInsights.lexicalScore, CombinedInsights.lexicalScoreWith.
  rewrite !score_words_from, toLowerCase_append.
  change (JsString.toLowerCase (String c b))
    with (String (JsString.lower_char c) (JsString.toLowerCase b)).
  rewrite (lower_space c Hc).
  rewrite !occurrences_append by (reflexivity || exact Hc). lia.
Qed.

Lemma lexical_score_adds_over_lines_witness :
  CombinedInsights.lexicalScore
    ("A good and useful bill" ++ String "010" "It is wrong and harmful, a bad idea")
  = 2 + -2.
Proof.
  rewrite lexical_score_adds_over_lines by reflexivity.
  vm_compute. reflexivity.
Defined.

(** ** Signing in again *)

Definition run_from (st : AuthContext.auth) (ops : list auth_op) : AuthContext.auth :=
  fold_left run_op ops st.

Lemma auth_ok_from (st : AuthContext.auth) (ops : list auth_op) :
  auth_ok st -> auth_ok (run_from st ops).
Proof.
  unfold run_from. revert st. induction ops as [|op ops IH]; intros st Hst; simpl;
    [exact Hst|]. apply IH, auth_ok_step, Hst.
Qed.

Lemma users_kept_step (st : AuthContext.auth) (op : auth_op) (u : AuthContext.User) :
  In u (AuthContext.users st) -> In u (AuthContext.users (run_op st op)).
Proof.
  intro H. destruct op as [e p r|d now|]; simpl.
  - unfold AuthContext.login.
    destruct (find _ (AuthContext.users st));
      [destruct (String.eqb p "password123")|]; exact H.
  - unfold AuthContext.register.
    destruct (find _ (AuthContext.users st)); simpl; [exact H|].
    apply in_or_app. now left.
  - exact H.
Qed.

Lemma users_kept (st : AuthContext.auth) (ops : list auth_op) (u : AuthContext.User) :
  In u (AuthContext.users st) -> In u (AuthContext.users (run_from st ops)).
Proof.
  unfold run_from. revert st. induction ops as [|op ops IH]; intros st H; simpl;
    [exact H|]. apply IH, users_kept_step, H.
Qed.

Lemma NoDup_map_injective {A B : Type} (f : A -> B) (l : list A) (a b : A) :
  NoDup (map f l) -> In a l -> In b l -> f a = f b -> a = b.
Proof.
  induction l as [|x l IH]; simpl; [tauto|].
  intros Hnd Ha Hb E. inversion Hnd as [|? ? Hx Hl]; subst.
  destruct Ha as [->|Ha], Hb as [->|Hb]; try reflexivity.
  - exfalso. apply Hx. rewrite E. now apply in_map.
  - exfalso. apply Hx. rewrite <- E. now apply in_map.
  - now apply IH.
Qed.

(** An account that has been registered can always sign in again: after
    any further calls, [login] with its e-mail address in any letter case,
    its role and the fixed password succeeds and signs in that very
    account. *)
Theorem registered_account_can_sign_in :
  forall (before after : list auth_op) (userData : AuthContext.RegisterData)
         (now email : string),
    snd (AuthContext.register (run before) userData now) = true ->
    JsString.toLowerCase email = JsString.toLowerCase (AuthContext.reg_email userData) ->
    snd (AuthContext.login
           (run_from (fst (AuthContext.register (run before) userData now)) after)
           email "password123" (AuthContext.reg_role userData)) = true
    /\ AuthContext.user
         (fst (AuthContext.login
                 (run_from (fst (AuthContext.register (run before) userData now)) after)
                 email "password123" (AuthContext.reg_role userData)))
       = AuthContext.user (fst (AuthContext.register (run before) userData now))
    /\ exists u,
        AuthContext.user (fst (AuthContext.register (run before) userData now)) = Some u
        /\ AuthContext.id u = now
        /\ AuthContext.email u = AuthContext.reg_email userData.
Proof.
  intros before after d now e Hreg He.
  pose proof (auth_ok_step (run before) (Register d now) (auth_ok_run before)) as Hok1.
  simpl in Hok1.
  set (st1 := fst (AuthContext.register (run before) d now)) in *.
  assert (Hnew : exists u,
             AuthContext.user st1 = Some u /\ In u (AuthContext.users st1)
             /\ AuthContext.id u = now /\ AuthContext.email u = AuthContext.reg_email d
             /\ AuthContext.role u = AuthContext.reg_role d).
  { unfold st1 in *. unfold AuthContext.register in *.
    destruct (find _ (AuthContext.users (run before))); [discriminate Hreg|].
    simpl. eexists. split; [reflexivity|]. split; [|repeat split].
    apply in_or_app. right. now left. }
  destruct Hnew as (u & Hu & Hin & Hid & Hem & Hr).
  pose proof (auth_ok_from st1 after Hok1) as [Hnd _ _ _].
  pose proof (users_kept st1 after u Hin) as Hin'.
  set (st := run_from st1 after) in *.
  unfold AuthContext.login.
  destruct (find _ (AuthContext.users st)) as [u'|] eqn:Ef.
  - destruct (find_some _ _ Ef) as [Hin'' Hm]. apply andb_true_iff in Hm as [Hm _].
    apply String.eqb_eq in Hm.
    assert (u' = u).
    { apply (NoDup_map_injective folded_email (AuthContext.users st)); try assumption.
      unfold folded_email. rewrite Hm, He, Hem. reflexivity. }
    subst u'. simpl. rewrite Hu. repeat split. eauto.
  - exfalso. pose proof (find_none _ _ Ef u Hin') as H. simpl in H.
    rewrite Hem, He, String.eqb_refl, Hr in H.
    unfold AuthContext.role_eqb in H. rewrite String.eqb_refl in H. discriminate H.
Qed.

Lemma registered_account_can_sign_in_witness :
  snd (AuthContext.login
         (run_from
            (fst (AuthContext.register (run [])
                    {| AuthContext.reg_email := "New.User@Example.org";
                       AuthContext.reg_password := "secret1";
                       AuthContext.reg_name := "New User";
                       AuthContext.reg_role := AuthContext.think_tank;
                       AuthContext.reg_organization := None;
                       AuthContext.reg_department := None |} "1700000000000"))
            [Logout; Login "citizen@email.com" "password123" AuthContext.citizen])
         "new.user@example.ORG" "password123" AuthContext.think_tank) = true.
Proof.
  apply (registered_account_can_sign_in [] 
           [Logout; Login "citizen@email.com" "password123" AuthContext.citizen]
           {| AuthContext.reg_email := "New.User@Example.org";
              AuthContext.reg_password := "secret1";
              AuthContext.reg_name := "New User";
              AuthContext.reg_role := AuthContext.think_tank;
              AuthContext.reg_organization := None;
              AuthContext.reg_department := None |} "1700000000000"
           "new.user@example.ORG"); reflexivity.
Defined.

(** ** Administrative access *)

Lemma admin_access_role (role : AuthContext.UserRole) :
  JsString.mem "admin_access" (AuthContext.ROLE_PERMISSIONS role) = true
  <-> role = AuthContext.mca_official.
Proof. destruct role; split; intro H; first [reflexivity|discriminate H]. Qed.

(** In every state reached from the initial one, ["admin_access"] is
    granted exactly when the signed-in user has the role of an MCA
    official; signing out withdraws every permission. *)
Theorem admin_access_needs_the_official_role :
  forall ops : list auth_op,
    (AuthContext.hasPermission (run ops) "admin_access" = true
     <-> exists u, AuthContext.user (run ops) = Some u
                   /\ AuthContext.role u = AuthContext.mca_official)
    /\ forall permission,
        AuthContext.hasPermission (run (ops ++ [Logout])) permission = false.
Proof.
  intro ops. split.
  - destruct (auth_ok_run ops) as [_ Hp Hu _]. unfold AuthContext.hasPermission.
    destruct (AuthContext.user (run ops)) as [u|] eqn:E.
    + rewrite (Hp u (Hu u eq_refl)), admin_access_role.
      split; [intro H; exists u; tauto|intros (u' & [= <-] & H); exact H].
    + split; [discriminate|intros (u & H & _); discriminate H].
  - intro permission. unfold run. rewrite fold_left_app. reflexivity.
Qed.

(** [register] asks for no proof of the requested role: from any reached
    state, registering a fresh e-mail address with the role of an MCA
    official signs in an unverified account that holds ["admin_access"]. *)
Theorem registering_as_official_grants_admin_access :
  forall (ops : list auth_op) (userData : AuthContext.RegisterData) (now : string),
    AuthContext.reg_role userData = AuthContext.mca_official ->
    ~ In (JsString.toLowerCase (AuthContext.reg_email userData))
        (map folded_email (AuthContext.users (run ops))) ->
    snd (AuthContext.register (run ops) userData now) = true
    /\ AuthContext.hasPermission (fst (AuthContext.register (run ops) userData now))
         "admin_access" = true
    /\ exists u,
        AuthContext.user (fst (AuthContext.register (run ops) userData now)) = Some u
        /\ AuthContext.verified u = false.
Proof.
  intros ops d now Hrole Hfresh.
  unfold AuthContext.register, AuthContext.hasPermission.
  destruct (find _ (AuthContext.users (run ops))) as [u|] eqn:Ef.
  - exfalso. apply Hfresh. destruct (find_some _ _ Ef) as [Hin Hm].
    apply String.eqb_eq in Hm. rewrite <- Hm.
    change (In (folded_email u) (map folded_email (AuthContext.users (run ops)))).
    now apply in_map.
  - simpl. rewrite Hrole. repeat split. eexists. split; reflexivity.
Qed.

Lemma registering_as_official_grants_admin_access_witness :
  AuthContext.hasPermission
    (fst (AuthContext.register (run [])
            {| AuthContext.reg_email := "anyone@example.org";
               AuthContext.reg_password := "secret1";
               AuthContext.reg_name := "Anyone";
               AuthContext.reg_role := AuthContext.mca_official;
               AuthContext.reg_organization := None;
               AuthContext.reg_department := None |} "1700000000000"))
    "admin_access" = true.
Proof.
  apply (registering_as_official_grants_admin_access []
           {| AuthContext.reg_email := "anyone@example.org";
              AuthContext.reg_password := "secret1";
              AuthContext.reg_name := "Anyone";
              AuthContext.reg_role := AuthContext.mca_official;
              AuthContext.reg_organization := None;
              AuthContext.reg_department := None |} "1700000000000").
  - reflexivity.
  - vm_compute. intuition discriminate.
Defined.

(** * Combined insights *)

Lemma map_i_length {A B : Type} (f : A -> nat -> B) (i : nat) (l : list A) :
  List.length (CombinedInsightsCalls.map_i f i l) = List.length l.
Proof. revert i. induction l; intro i; simpl; [reflexivity|now rewrite IHl]. Qed.

Lemma map_i_map {A B C : Type} (f : A -> nat -> B) (g : B -> C) (h : A -> C)
      (i : nat) (l : list A) :
  (forall x j, g (f x j) = h x) ->
  map g (CombinedInsightsCalls.map_i f i l) = map h l.
Proof.
  intro H. revert i. induction l; intro i; simpl; [reflexivity|now rewrite H, IHl].
Qed.

Lemma map_i_index {A B : Type} (f : A -> nat -> B) (g : B -> nat) (i : nat) (l : list A) :
  (forall x j, g (f x j) = j) ->
  map g (CombinedInsightsCalls.map_i f i l) = seq i (List.length l).
Proof.
  intro H. revert i. induction l; intro i; simpl; [reflexivity|now rewrite H, IHl].
Qed.

Lemma three_labels (l : list CombinedInsightsCalls.analyzed) :
  (CombinedInsightsCalls.count_label "positive" l
   + CombinedInsightsCalls.count_label "negative" l
   + CombinedInsightsCalls.count_label "neutral" l <= List.length l)%nat.
Proof.
  unfold CombinedInsightsCalls.count_label. induction l as [|c l IH]; simpl; [lia|].
  destruct (String.eqb_spec (CombinedInsightsCalls.a_sentiment c) "positive") as [E|_];
    [rewrite E; simpl; lia|].
  destruct (String.eqb_spec (CombinedInsightsCalls.a_sentiment c) "negative") as [E|_];
    [rewrite E; simpl; lia|].
  destruct (String.eqb (CombinedInsightsCalls.a_sentiment c) "neutral"); simpl; lia.
Qed.

Lemma one_analysis_per_comment_facts (comments : list string)
      (response : Backend.outcome (list Backend.row)) :
  map CombinedInsightsCalls.a_text
    (fst (CombinedInsightsCalls.fetchBackendSentiment comments response)) = comments
  /\ CombinedInsightsCalls.total
       (snd (CombinedInsightsCalls.fetchBackendSentiment comments response))
     = List.length comments.
Proof.
  destruct response as [| |rows];
    cbn [CombinedInsightsCalls.fetchBackendSentiment fst snd CombinedInsightsCalls.total];
    rewrite map_i_length; (split; [|reflexivity]);
    rewrite (map_i_map _ _ (fun x => x)) by reflexivity; apply map_id.
Qed.

(** [fetchBackendSentiment] returns one analyzed comment per input
    comment, in order and numbered from 0, whatever the backend returns,
    even fewer rows than comments; the three label counts never add up to
    more than the total.  With an answer the score is the lexical score of
    the text; with a failure every comment is neutral with score 0. *)
Theorem one_analysis_per_comment :
  forall (comments : list string) (response : Backend.outcome (list Backend.row)),
    map CombinedInsightsCalls.a_text
      (fst (CombinedInsightsCalls.fetchBackendSentiment comments response)) = comments
    /\ map CombinedInsightsCalls.a_id
         (fst (CombinedInsightsCalls.fetchBackendSentiment comments response))
       = seq 0 (List.length comments)
    /\ CombinedInsightsCalls.total
         (snd (CombinedInsightsCalls.fetchBackendSentiment comments response))
       = List.length comments
    /\ (CombinedInsightsCalls.positive
          (snd (CombinedInsightsCalls.fetchBackendSentiment comments response))
        + CombinedInsightsCalls.negative
            (snd (CombinedInsightsCalls.fetchBackendSentiment comments response))
        + CombinedInsightsCalls.neutral
            (snd (CombinedInsightsCalls.fetchBackendSentiment comments response))
        <= List.length comments)%nat
    /\ map CombinedInsightsCalls.a_score
         (fst (CombinedInsightsCalls.fetchBackendSentiment comments response))
       = (if Backend.failed response then map (fun _ => 0) comments
          else map CombinedInsights.lexicalScore comments)
    /\ (Backend.failed response = true ->
        CombinedInsightsCalls.neutral
          (snd (CombinedInsightsCalls.fetchBackendSentiment comments response))
        = List.length comments
        /\ Forall (fun c => CombinedInsightsCalls.a_sentiment c = "neutral")
             (fst (CombinedInsightsCalls.fetchBackendSentiment comments response))).
Proof.
  intros comments response.
  assert (Hfail :
            forall l,
              l = CombinedInsightsCalls.map_i
                    (fun text i =>
                       {| CombinedInsightsCalls.a_id := i;
                          CombinedInsightsCalls.a_text := text;
                          CombinedInsightsCalls.a_sentiment := "neutral";
                          CombinedInsightsCalls.a_score := 0 |}) 0 comments ->
              map CombinedInsightsCalls.a_text l = comments
              /\ map CombinedInsightsCalls.a_id l = seq 0 (List.length comments)
              /\ List.length l = List.length comments
              /\ map CombinedInsightsCalls.a_score l = map (fun _ => 0) comments
              /\ Forall (fun c => CombinedInsightsCalls.a_sentiment c = "neutral") l).
  { intros l ->. split; [|split; [|split; [|split]]].
    - rewrite (map_i_map _ _ (fun x => x)) by reflexivity. apply map_id.
    - now apply map_i_index.
    - apply map_i_length.
    - now apply map_i_map.
    - apply Forall_forall. intros c Hc.
      apply (in_map CombinedInsightsCalls.a_sentiment) in Hc.
      rewrite (map_i_map _ _ (fun _ => "neutral")) in Hc by reflexivity.
      apply in_map_iff in Hc as (x & <- & _). reflexivity. }
  destruct response as [| |rows];
    cbn [CombinedInsightsCalls.fetchBackendSentiment fst snd
           CombinedInsightsCalls.total CombinedInsightsCalls.positive
           CombinedInsightsCalls.negative CombinedInsightsCalls.neutral Backend.failed].
  - destruct (Hfail _ eq_refl) as (H1 & H2 & H3 & H4 & H5).
    rewrite H3. repeat split; try assumption; lia.
  - destruct (Hfail _ eq_refl) as (H1 & H2 & H3 & H4 & H5).
    rewrite H3. repeat split; try assumption; lia.
  - set (l := CombinedInsightsCalls.map_i _ 0 comments).
    assert (Hlen : List.length l = List.length comments) by apply map_i_length.
    split; [|split; [|split; [|split; [|split]]]].
    + unfold l. rewrite (map_i_map _ _ (fun x => x)) by reflexivity. apply map_id.
    + now apply map_i_index.
    + exact Hlen.
    + rewrite <- Hlen. apply three_labels.
    + now apply map_i_map.
    + discriminate.
Qed.

Lemma one_analysis_per_comment_witness :
  CombinedInsightsCalls.neutral
    (snd (CombinedInsightsCalls.fetchBackendSentiment ["Good bill"; "Bad idea"]
            Backend.Rejected)) = 2%nat.
Proof.
  apply (one_analysis_per_comment ["Good bill"; "Bad idea"] Backend.Rejected).
  reflexivity.
Defined.

Lemma split_plus_covers (sep : ascii -> bool) (s : string) (c : ascii) :
  In c (chars s) -> sep c = false ->
  exists p, In p (JsString.split_plus sep s) /\ In c (chars p).
Proof.
  induction s as [|a s IH]; simpl; [tauto|]. intros [->|Hin] Hc.
  - rewrite Hc. pose proof (split_plus_nonempty sep s) as Hne.
    destruct (JsString.split_plus sep s) as [|h t]; [congruence|].
    exists (String c h). split; [now left|now left].
  - destruct (IH Hin Hc) as (p & Hp & Hcp).
    destruct (sep a).
    + exists p. split; [|exact Hcp].
      destruct (JsString.starts_with sep s); [exact Hp|now right].
    + destruct (JsString.split_plus sep s) as [|h t]; [destruct Hp|].
      destruct Hp as [<-|Hp].
      * exists (String a h). split; [now left|now right].
      * exists p. split; [now right|exact Hcp].
Qed.

Lemma trim_start_keeps (s : string) (c : ascii) :
  In c (chars s) -> JsString.is_space c = false -> In c (chars (JsString.trim_start s)).
Proof.
  induction s as [|a s IH]; simpl; [tauto|]. intros [->|Hin] Hc.
  - rewrite Hc. now left.
  - destruct (JsString.is_space a); [now apply IH|now right].
Qed.

Lemma trim_end_keeps (s : string) (c : ascii) :
  In c (chars s) -> JsString.is_space c = false -> In c (chars (JsString.trim_end s)).
Proof.
  induction s as [|a s IH]; simpl; [tauto|]. intros [->|Hin] Hc.
  - destruct (JsString.trim_end s); [rewrite Hc|]; now left.
  - specialize (IH Hin Hc). destruct (JsString.trim_end s); [destruct IH|now right].
Qed.

Lemma trim_keeps (s : string) (c : ascii) :
  In c (chars s) -> JsString.is_space c = false -> In c (chars (JsString.trim s)).
Proof. intros Hin Hc. apply trim_end_keeps; [now apply trim_start_keeps|exact Hc]. Qed.

Lemma not_blank (s : string) :
  JsString.trim s <> EmptyString ->
  exists c, In c (chars s) /\ JsString.is_space c = false.
Proof.
  intro H.
  destruct (Forall_Exists_dec (fun c => JsString.is_space c = true)
              (fun c => bool_dec (JsString.is_space c) true) (chars s)) as [Hall|Hex].
  - exfalso. apply H. now apply trim_blank.
  - apply Exists_exists in Hex as (c & Hin & Hc). exists c. split; [exact Hin|].
    now destruct (JsString.is_space c).
Qed.

Lemma comment_lines_nonempty (inputText : string) :
  JsString.trim inputText <> EmptyString ->
  CombinedInsightsCalls.comment_lines inputText <> [].
Proof.
  intro H. destruct (not_blank _ H) as (c & Hin & Hc).
  assert (Hnl : CombinedInsightsCalls.is_newline c = false).
  { unfold CombinedInsightsCalls.is_newline.
    destruct (Ascii.eqb_spec c "010") as [->|]; [discriminate Hc|reflexivity]. }
  destruct (split_plus_covers _ _ _ Hin Hnl) as (p & Hp & Hcp).
  assert (Hl : In (JsString.trim p) (CombinedInsightsCalls.comment_lines inputText)).
  { unfold CombinedInsightsCalls.comment_lines. apply filter_In. split.
    - now apply in_map.
    - pose proof (trim_keeps p c Hcp Hc) as Hk.
      destruct (JsString.trim p); [destruct Hk|reflexivity]. }
  intro E. rewrite E in Hl. destruct Hl.
Qed.

(** [handleAnalyze] does nothing on a blank input.  Otherwise it shows
    results with at least one comment, so that the shares computed from
    the total never divide by zero; the analyzed comments are the trimmed
    non-blank lines of the input, in order, none of them empty. *)
Theorem combined_analysis_has_a_comment :
  forall (st : CombinedInsightsCalls.state)
         (sentimentResponse : Backend.outcome (list Backend.row))
         (summaryResponse : Backend.outcome string),
    (JsString.trim (CombinedInsightsCalls.inputText st) = EmptyString ->
     CombinedInsightsCalls.handleAnalyze st sentimentResponse summaryResponse = st)
    /\ (JsString.trim (CombinedInsightsCalls.inputText st) <> EmptyString ->
        exists r,
          CombinedInsightsCalls.analysisResults
            (CombinedInsightsCalls.handleAnalyze st sentimentResponse summaryResponse)
          = Some r
          /\ (1 <= CombinedInsightsCalls.total (CombinedInsightsCalls.sentiment r))%nat
          /\ map CombinedInsightsCalls.a_text (CombinedInsightsCalls.comments r)
             = CombinedInsightsCalls.comment_lines (CombinedInsightsCalls.inputText st)
          /\ Forall (fun c => CombinedInsightsCalls.a_text c <> EmptyString
                              /\ JsString.trim (CombinedInsightsCalls.a_text c)
                                 = CombinedInsightsCalls.a_text c)
               (CombinedInsightsCalls.comments r)
          /\ CombinedInsightsCalls.isProcessing
               (CombinedInsightsCalls.handleAnalyze st sentimentResponse summaryResponse)
             = false).
Proof.
  intros st rs rm. unfold CombinedInsightsCalls.handleAnalyze. split; intro H.
  - now rewrite H.
  - destruct (String.eqb_spec (JsString.trim (CombinedInsightsCalls.inputText st)) "")
      as [E|_]; [congruence|].
    eexists. split; [reflexivity|].
    cbn [CombinedInsightsCalls.sentiment CombinedInsightsCalls.comments
           CombinedInsightsCalls.isProcessing].
    destruct (one_analysis_per_comment_facts
                (CombinedInsightsCalls.comment_lines (CombinedInsightsCalls.inputText st)) rs)
      as (Htexts & Htotal).
    rewrite Htotal. split; [|split; [exact Htexts|split; [|reflexivity]]].
    + pose proof (comment_lines_nonempty _ H) as Hne.
      destruct (CombinedInsightsCalls.comment_lines (CombinedInsightsCalls.inputText st));
        [congruence|simpl; lia].
    + apply Forall_forall. intros c Hc.
      apply (in_map CombinedInsightsCalls.a_text) in Hc. rewrite Htexts in Hc.
      unfold CombinedInsightsCalls.comment_lines in Hc.
      apply filter_In in Hc as [Hc Hlen]. apply in_map_iff in Hc as (p & Hp & _).
      split.
      * intro E. rewrite E in Hlen. discriminate Hlen.
      * rewrite <- Hp. apply trim_idempotent.
Qed.

Lemma combined_analysis_has_a_comment_witness :
  exists r,
    CombinedInsightsCalls.analysisResults
      (CombinedInsightsCalls.handleAnalyze
         {| CombinedInsightsCalls.inputText := "  Good bill.  
  
 Bad idea. ";
            CombinedInsightsCalls.analysisResults := None;
            CombinedInsightsCalls.isProcessing := false |}
         Backend.Rejected Backend.Malformed) = Some r
    /\ (1 <= CombinedInsightsCalls.total (CombinedInsightsCalls.sentiment r))%nat.
Proof.
  destruct (proj2 (combined_analysis_has_a_comment
                     {| CombinedInsightsCalls.inputText := "  Good bill.  
  
 Bad idea. ";
                        CombinedInsightsCalls.analysisResults := None;
                        CombinedInsightsCalls.isProcessing := false |}
                     Backend.Rejected Backend.Malformed))
    as (r & Hr & Ht & _).
  - vm_compute. discriminate.
  - exists r. split; assumption.
Defined.

(** * Word-cloud layout *)





(** For entries whose counts are numbers of at least 1: wherever the
    layout and the simulation put a word built by [generateWordCloud], the
    final clamping leaves its centre at least one radius inside the
    1000 x 650 canvas. *)
Theorem every_placed_word_ends_on_the_canvas :
  forall (wordFreqs : list (string * Z)) (w : WordCloudWords.word) (x y : Q),
    Forall (fun e => 1 <= snd e) wordFreqs ->
    In w (WordCloudWords.layout_words wordFreqs) ->
    (-500 + WordCloudWords.w_radius w
       <= WordCloudLayout.x (WordCloudLayout.clamp (WordCloudWords.node_of w x y))
     /\ WordCloudLayout.x (WordCloudLayout.clamp (WordCloudWords.node_of w x y))
        <= 500 - WordCloudWords.w_radius w
     /\ -325 + WordCloudWords.w_radius w
        <= WordCloudLayout.y (WordCloudLayout.clamp (WordCloudWords.node_of w x y))
     /\ WordCloudLayout.y (WordCloudLayout.clamp (WordCloudWords.node_of w x y))
        <= 325 - WordCloudWords.w_radius w)%Q.
Proof.
  intros wordFreqs w x y _ Hw. unfold WordCloudWords.layout_words in Hw.
  destruct (WordCloudWords.maximum (map snd wordFreqs)) as [m|]; [|destruct Hw].
  apply in_map_iff in Hw as (e & <- & _).
  cbn [WordCloudWords.node_of WordCloudLayout.clamp WordCloudLayout.x WordCloudLayout.y
         WordCloudLayout.radius WordCloudWords.w_radius WordCloudWords.w_text].
  set (r := WordCloudLayout.adjustedRadius _ _).
  destruct (generated_nodes_fit (WordCloudLayout.size_of (snd e) m)
              (String.length (fst e))) as [Hh Hw].
  fold r in Hh, Hw.
  assert (EW : (WordCloudLayout.halfW == 500)%Q) by reflexivity.
  assert (EH : (WordCloudLayout.halfH == 325)%Q) by reflexivity.
  assert (Hx : (- WordCloudLayout.halfW + r <= WordCloudLayout.halfW - r)%Q) by lra.
  assert (Hy : (- WordCloudLayout.halfH + r <= WordCloudLayout.halfH - r)%Q) by lra.
  destruct (clamp_between _ _ x Hx) as [X1 X2], (clamp_between _ _ y Hy) as [Y1 Y2].
  repeat split; lra.
Qed.

Lemma every_placed_word_ends_on_the_canvas_witness :
  (WordCloudLayout.x
     (WordCloudLayout.clamp
        (WordCloudWords.node_of
           {| WordCloudWords.w_text := "bill"; WordCloudWords.w_count := 1;
              WordCloudWords.w_size := WordCloudLayout.size_of 1 1;
              WordCloudWords.w_radius :=
                WordCloudLayout.adjustedRadius (WordCloudLayout.size_of 1 1) 4 |}
           9999 (-9999)))
   <= 500 - WordCloudLayout.adjustedRadius (WordCloudLayout.size_of 1 1) 4)%Q.
Proof.
  apply (every_placed_word_ends_on_the_canvas [("bill", 1)]
           {| WordCloudWords.w_text := "bill"; WordCloudWords.w_count := 1;
              WordCloudWords.w_size := WordCloudLayout.size_of 1 1;
              WordCloudWords.w_radius :=
                WordCloudLayout.adjustedRadius (WordCloudLayout.size_of 1 1) 4 |}
           9999 (-9999)).
  - repeat constructor. simpl. lia.
  - left. reflexivity.
Defined.

(** * Sentiment dashboard *)

(** What happens to the dashboard: typing, choosing a filter, and the
    completion of a handler that was started in the state [seen].  A
    handler started and completed with nothing in between has the current
    state for [seen]; overlapping handlers have an earlier one. *)
Inductive dashboard_op : Type :=
| TypeText (value : string)
| ChooseFilter (value : string)
| Analyze (seen : SentimentDashboardView.state) (w : SentimentDashboardView.world)
| BulkUpload (seen : SentimentDashboardView.state) (w : SentimentDashboardView.world).

Definition dashboard_step (st : SentimentDashboardView.state) (op : dashboard_op)
  : SentimentDashboardView.state :=
  match op with
  | TypeText value => SentimentDashboardView.setInputText st value
  | ChooseFilter value => SentimentDashboardView.setFilter st value
  | Analyze seen w => SentimentDashboardView.handleAnalyzeFrom seen st w
  | BulkUpload seen w => SentimentDashboardView.handleBulkUploadFrom seen st w
  end.

Definition run_dashboard (ops : list dashboard_op) : SentimentDashboardView.state :=
  fold_left dashboard_step ops SentimentDashboardView.initial.

Definition in_unit (q : Q) : Prop := (-1 <= q /\ q <= 1)%Q.

Definition dashboard_ok (st : SentimentDashboardView.state) : Prop :=
  Forall (fun c => in_unit (SentimentDashboardView.normalizedScore c))
    (SentimentDashboardView.comments st).

Lemma analysis_in_unit (text : string) (response : Backend.outcome (list Backend.row)) :
  in_unit (SentimentDashboard.normalizedScore
             (SentimentDashboard.analyzeSentiment text response)).
Proof.
  unfold in_unit.
  destruct response as [| |[|row rows]];
    cbn [SentimentDashboard.analyzeSentiment SentimentDashboard.normalizedScore
           SentimentDashboard.neutral_result];
    try (split; discriminate).
  apply clamp_unit_bounds.
Qed.

Lemma newComments_texts (seen : SentimentDashboardView.state)
      (w : SentimentDashboardView.world) (texts : list string) :
  map SentimentDashboardView.text (SentimentDashboardView.newComments seen w texts) = texts.
Proof.
  unfold SentimentDashboardView.newComments.
  rewrite (map_i_map _ _ (fun x => x)) by reflexivity. apply map_id.
Qed.

Lemma newComments_in_unit (seen : SentimentDashboardView.state)
      (w : SentimentDashboardView.world) (texts : list string) :
  Forall (fun c => in_unit (SentimentDashboardView.normalizedScore c))
    (SentimentDashboardView.newComments seen w texts).
Proof.
  unfold SentimentDashboardView.newComments. generalize 0%nat as i.
  induction texts as [|t texts IH]; intro i; cbn [CombinedInsightsCalls.map_i];
    constructor; [|apply IH].
  cbn [SentimentDashboardView.normalizedScore]. apply analysis_in_unit.
Qed.

Lemma dashboard_ok_step (st : SentimentDashboardView.state) (op : dashboard_op) :
  dashboard_ok st -> dashboard_ok (dashboard_step st op).
Proof.
  unfold dashboard_ok. intro H.
  destruct op as [value|value|seen w|seen w]; cbn [dashboard_step].
  - exact H.
  - exact H.
  - unfold SentimentDashboardView.handleAnalyzeFrom.
    destruct (String.eqb _ ""); [exact H|]. cbn [SentimentDashboardView.comments].
    apply Forall_app. split; [apply newComments_in_unit|exact H].
  - unfold SentimentDashboardView.handleBulkUploadFrom.
    cbn [SentimentDashboardView.comments].
    apply Forall_app. split; [apply newComments_in_unit|exact H].
Qed.

Lemma dashboard_ok_from (ops : list dashboard_op) (st : SentimentDashboardView.state) :
  dashboard_ok st -> dashboard_ok (fold_left dashboard_step ops st).
Proof.
  revert st. induction ops as [|op ops IH]; intros st H; simpl; [exact H|].
  apply IH. now apply dashboard_ok_step.
Qed.

Lemma dashboard_ok_run (ops : list dashboard_op) : dashboard_ok (run_dashboard ops).
Proof. apply dashboard_ok_from. constructor. Qed.

Lemma dashboard_labels (l : list SentimentDashboardView.comment) :
  (SentimentDashboardView.count_label "positive" l
   + SentimentDashboardView.count_label "negative" l
   + SentimentDashboardView.count_label "neutral" l <= List.length l)%nat.
Proof.
  unfold SentimentDashboardView.count_label. induction l as [|c l IH]; simpl; [lia|].
  destruct (String.eqb_spec (SentimentDashboardView.sentiment c) "positive") as [E|_];
    [rewrite E; simpl; lia|].
  destruct (String.eqb_spec (SentimentDashboardView.sentiment c) "negative") as [E|_];
    [rewrite E; simpl; lia|].
  destruct (String.eqb (SentimentDashboardView.sentiment c) "neutral"); simpl; lia.
Qed.

Lemma series_ids {A : Type} (f : A -> Q) (g : A -> string) (i : nat) (l : list A) :
  map SentimentDashboardView.p_id
    (CombinedInsightsCalls.map_i
       (fun c j => {| SentimentDashboardView.p_id := j + 1;
                      SentimentDashboardView.p_sentiment := f c;
                      SentimentDashboardView.p_type := g c |}) i l)
  = seq (i + 1) (List.length l).
Proof.
  revert i. induction l as [|x l IH]; intro i; simpl; [reflexivity|].
  f_equal. apply (IH (S i)).
Qed.

(** Whatever sequence of typing, filtering, analysing and bulk uploads the
    dashboard goes through, handlers overlapping or not, and whatever the
    backend answers: every listed comment has a normalized score in
    [-1, 1], the three label counts never add up to more than the total,
    and the chart shows the ten newest comments at most, oldest first,
    numbered 1, 2, ..., with values in [-1, 1]. *)
Theorem dashboard_lists_and_charts_stay_consistent :
  forall ops : list dashboard_op,
    let st := run_dashboard ops in
    let shown := Nat.min 10 (List.length (SentimentDashboardView.comments st)) in
    Forall (fun c => in_unit (SentimentDashboardView.normalizedScore c))
      (SentimentDashboardView.comments st)
    /\ (SentimentDashboardView.positive (SentimentDashboardView.stats st)
        + SentimentDashboardView.negative (SentimentDashboardView.stats st)
        + SentimentDashboardView.neutral (SentimentDashboardView.stats st)
        <= SentimentDashboardView.total (SentimentDashboardView.stats st))%nat
    /\ map SentimentDashboardView.p_id (SentimentDashboardView.timeSeriesData st)
       = seq 1 shown
    /\ map SentimentDashboardView.p_sentiment (SentimentDashboardView.timeSeriesData st)
       = rev (map SentimentDashboardView.normalizedScore
                (firstn shown (SentimentDashboardView.comments st)))
    /\ Forall (fun p => in_unit (SentimentDashboardView.p_sentiment p))
         (SentimentDashboardView.timeSeriesData st).
Proof.
  intros ops st shown. pose proof (dashboard_ok_run ops) as Hs.
  unfold dashboard_ok in Hs. fold st in Hs.
  assert (Hshown : firstn shown (SentimentDashboardView.comments st)
                   = firstn 10 (SentimentDashboardView.comments st)).
  { unfold shown. destruct (Nat.le_ge_cases 10 (List.length (SentimentDashboardView.comments st)))
      as [H|H].
    - now rewrite Nat.min_l.
    - rewrite Nat.min_r by exact H. rewrite !firstn_all2 by lia. reflexivity. }
  assert (Hvals : map SentimentDashboardView.p_sentiment
                    (SentimentDashboardView.timeSeriesData st)
                  = rev (map SentimentDashboardView.normalizedScore
                           (firstn shown (SentimentDashboardView.comments st)))).
  { unfold SentimentDashboardView.timeSeriesData, JsArray.slice0.
    rewrite (map_i_map _ _ SentimentDashboardView.normalizedScore) by reflexivity.
    rewrite map_rev, Hshown. reflexivity. }
  split; [exact Hs|]. split; [apply dashboard_labels|].
  split; [|split; [exact Hvals|]].
  - unfold SentimentDashboardView.timeSeriesData, JsArray.slice0.
    rewrite series_ids, length_rev, length_firstn. reflexivity.
  - apply Forall_forall. intros p Hp.
    apply (in_map SentimentDashboardView.p_sentiment) in Hp. rewrite Hvals in Hp.
    apply in_rev in Hp. apply in_map_iff in Hp as (c & <- & Hc).
    apply firstn_incl in Hc. rewrite Forall_forall in Hs. now apply Hs.
Qed.

Lemma split_char_covers (sep : ascii) (s : string) (c : ascii) :
  In c (chars s) -> c <> sep ->
  exists p, In p (SentimentDashboardView.split_char sep s) /\ In c (chars p).
Proof.
  induction s as [|a s IH]; simpl; [tauto|]. intros [->|Hin] Hc.
  - destruct (Ascii.eqb_spec c sep) as [E|_]; [congruence|].
    destruct (SentimentDashboardView.split_char sep s) as [|h t];
      eexists; (split; [now left|now left]).
  - destruct (IH Hin Hc) as (p & Hp & Hcp).
    destruct (Ascii.eqb a sep).
    + exists p. split; [now right|exact Hcp].
    + destruct (SentimentDashboardView.split_char sep s) as [|h t]; [destruct Hp|].
      destruct Hp as [<-|Hp].
      * exists (String a h). split; [now left|now right].
      * exists p. split; [now right|exact Hcp].
Qed.

Lemma lines_nonempty (inputText : string) :
  JsString.trim inputText <> EmptyString -> SentimentDashboardView.lines inputText <> [].
Proof.
  intro H. destruct (not_blank _ H) as (c & Hin & Hc).
  assert (Hnl : c <> "010"%char) by (intros ->; discriminate Hc).
  destruct (split_char_covers _ _ _ Hin Hnl) as (p & Hp & Hcp).
  assert (Hl : In (JsString.trim p) (SentimentDashboardView.lines inputText)).
  { unfold SentimentDashboardView.lines. apply filter_In. split.
    - now apply in_map.
    - pose proof (trim_keeps p c Hcp Hc) as Hk.
      destruct (JsString.trim p); [destruct Hk|reflexivity]. }
  intro E. rewrite E in Hl. destruct Hl.
Qed.

(** A run of [handleAnalyze] on an input that is not blank lists one new
    comment per non-blank line, trimmed and in the order of the lines,
    ahead of the comments already listed, which it keeps; there is at
    least one new comment, and the input is emptied. *)
Theorem analyze_lists_one_comment_per_line :
  forall (st : SentimentDashboardView.state) (w : SentimentDashboardView.world),
    JsString.trim (SentimentDashboardView.inputText st) <> EmptyString ->
    exists added,
      SentimentDashboardView.comments (SentimentDashboardView.handleAnalyze st w)
      = added ++ SentimentDashboardView.comments st
      /\ added <> []
      /\ map SentimentDashboardView.text added
         = SentimentDashboardView.lines (SentimentDashboardView.inputText st)
      /\ Forall (fun c => SentimentDashboardView.text c <> EmptyString
                          /\ JsString.trim (SentimentDashboardView.text c)
                             = SentimentDashboardView.text c) added
      /\ SentimentDashboardView.inputText (SentimentDashboardView.handleAnalyze st w)
         = EmptyString.
Proof.
  intros st w H.
  unfold SentimentDashboardView.handleAnalyze, SentimentDashboardView.handleAnalyzeFrom.
  destruct (String.eqb_spec (JsString.trim (SentimentDashboardView.inputText st)) "")
    as [E|_]; [congruence|].
  cbn [SentimentDashboardView.comments SentimentDashboardView.inputText].
  exists (SentimentDashboardView.newComments st w
            (SentimentDashboardView.lines (SentimentDashboardView.inputText st))).
  pose proof (newComments_texts st w
                (SentimentDashboardView.lines (SentimentDashboardView.inputText st)))
    as Htexts.
  split; [reflexivity|]. split; [|split; [exact Htexts|split; [|reflexivity]]].
  - intro E. rewrite E in Htexts. simpl in Htexts.
    apply (lines_nonempty _ H). now rewrite <- Htexts.
  - apply Forall_forall. intros c Hc.
    apply (in_map SentimentDashboardView.text) in Hc. rewrite Htexts in Hc.
    unfold SentimentDashboardView.lines in Hc.
    apply filter_In in Hc as [Hc Hne]. apply in_map_iff in Hc as (p & Hp & _).
    split.
    + intro E. rewrite E in Hne. discriminate Hne.
    + rewrite <- Hp. apply trim_idempotent.
Qed.

Lemma analyze_lists_one_comment_per_line_witness :
  exists added,
    SentimentDashboardView.comments
      (SentimentDashboardView.handleAnalyze
         (SentimentDashboardView.setInputText SentimentDashboardView.initial
            " good bill 

bad idea")
         {| SentimentDashboardView.response := fun _ => Backend.Rejected;
            SentimentDashboardView.random := fun _ => 0%Q |})
    = added ++ []
    /\ map SentimentDashboardView.text added = ["good bill"; "bad idea"].
Proof.
  destruct (analyze_lists_one_comment_per_line
              (SentimentDashboardView.setInputText SentimentDashboardView.initial
                 " good bill 

bad idea")
              {| SentimentDashboardView.response := fun _ => Backend.Rejected;
                 SentimentDashboardView.random := fun _ => 0%Q |})
    as (added & Hc & _ & Ht & _).
  - vm_compute. discriminate.
  - exists added. split; [exact Hc|exact Ht].
Defined.

(** * Key phrases *)

Definition occurs_in (p s : string) : Prop :=
  exists before after : string, s = (before ++ p ++ after)%string.

Definition two_capitalized_words (p : string) : Prop :=
  exists (u1 : ascii) (l1 : string) (u2 : ascii) (l2 : string),
    p = String u1 (l1 ++ String " " (String u2 l2))
    /\ KeyPhrases.is_AZ u1 = true /\ KeyPhrases.is_AZ u2 = true
    /\ l1 <> EmptyString /\ l2 <> EmptyString
    /\ Forall (fun c => KeyPhrases.is_az c = true) (chars l1)
    /\ Forall (fun c => KeyPhrases.is_az c = true) (chars l2).

Lemma prefix_occurs (t s : string) :
  String.prefix t s = true -> exists after, s = (t ++ after)%string.
Proof.
  revert s. induction t as [|a t IH]; intros s H.
  - now exists s.
  - destruct s as [|b s]; [discriminate|]. simpl in H.
    destruct (Ascii.ascii_dec a b) as [->|]; [|discriminate].
    destruct (IH _ H) as (after & ->). now exists after.
Qed.

Lemma includes_occurs (s t : string) : JsString.includes s t = true -> occurs_in t s.
Proof.
  induction s as [|a s IH]; cbn [JsString.includes]; intro H.
  - rewrite orb_false_r in H. destruct (prefix_occurs _ _ H) as (after & E).
    now exists EmptyString, after.
  - apply orb_true_iff in H as [H|H].
    + destruct (prefix_occurs _ _ H) as (after & E). now exists EmptyString, after.
    + destruct (IH H) as (before & after & ->). now exists (String a before), after.
Qed.

Lemma run_spec (class : ascii -> bool) (s taken rest : string) :
  KeyPhrases.run class s = (taken, rest) ->
  s = (taken ++ rest)%string /\ Forall (fun c => class c = true) (chars taken).
Proof.
  revert taken rest. induction s as [|a s IH]; simpl; intros taken rest H.
  - injection H as <- <-. split; [reflexivity|constructor].
  - destruct (class a) eqn:Ea.
    + destruct (KeyPhrases.run class s) as [t r]. injection H as <- <-.
      destruct (IH _ _ eq_refl) as [-> Hall]. split; [reflexivity|].
      simpl. now constructor.
    + injection H as <- <-. split; [reflexivity|constructor].
Qed.

Lemma match_here_spec (s m : string) :
  KeyPhrases.match_here s = Some m ->
  two_capitalized_words m /\ exists after, s = (m ++ after)%string.
Proof.
  unfold KeyPhrases.match_here. destruct s as [|u1 r1]; [discriminate|].
  destruct (KeyPhrases.is_AZ u1) eqn:E1; [|discriminate].
  destruct (KeyPhrases.run KeyPhrases.is_az r1) as [l1 r2] eqn:R1.
  destruct l1 as [|a1 l1]; [discriminate|].
  destruct r2 as [|sp r3]; [discriminate|].
  destruct (Ascii.ascii_dec sp " ") as [->|Hsp].
  2:{ intro H. exfalso. revert H.
      destruct sp as [[] [] [] [] [] [] [] []]; try discriminate.
      now contradiction Hsp. }
  destruct r3 as [|u2 r4]; [discriminate|].
  destruct (KeyPhrases.is_AZ u2) eqn:E2; [|discriminate].
  destruct (KeyPhrases.run KeyPhrases.is_az r4) as [l2 r5] eqn:R2.
  destruct l2 as [|a2 l2]; [discriminate|].
  intros [= <-].
  destruct (run_spec _ _ _ _ R1) as [-> H1], (run_spec _ _ _ _ R2) as [-> H2].
  split.
  - exists u1, (String a1 l1), u2, (String a2 l2).
    repeat split; try assumption; discriminate.
  - exists r5. simpl. f_equal. f_equal. rewrite append_assoc. reflexivity.
Qed.

Lemma scan_spec (s m : string) (skip : nat) :
  In m (KeyPhrases.scan skip s) -> two_capitalized_words m /\ occurs_in m s.
Proof.
  revert skip. induction s as [|a s IH]; intros skip H; [destruct H|].
  assert (Hrest : forall k, In m (KeyPhrases.scan k s) ->
                            two_capitalized_words m /\ occurs_in m (String a s)).
  { intros k Hk. destruct (IH _ Hk) as [Hw (before & after & ->)].
    split; [exact Hw|]. now exists (String a before), after. }
  cbn [KeyPhrases.scan] in H. destruct skip as [|k]; [|now apply (Hrest k)].
  destruct (KeyPhrases.match_here (String a s)) as [m'|] eqn:E; [|now apply (Hrest 0%nat)].
  destruct H as [<-|H]; [|now apply (Hrest _ H)].
  destruct (match_here_spec _ _ E) as [Hw (after & Hs)].
  split; [exact Hw|]. now exists EmptyString, after.
Qed.

Lemma mem_In (x : string) (l : list string) : JsString.mem x l = true <-> In x l.
Proof.
  unfold JsString.mem. rewrite existsb_exists. split.
  - intros (y & Hy & E). apply String.eqb_eq in E. now subst.
  - intro H. exists x. split; [exact H|apply String.eqb_refl].
Qed.

Lemma unique_from_In (seen l : list string) (x : string) :
  In x (KeyPhrases.unique_from seen l) -> In x l /\ ~ In x seen.
Proof.
  revert seen. induction l as [|y l IH]; intros seen H; simpl in H; [destruct H|].
  destruct (JsString.mem y seen) eqn:E.
  - destruct (IH _ H) as [H1 H2]. split; [now right|exact H2].
  - destruct H as [<-|H].
    + split; [now left|]. intro Hin. apply mem_In in Hin. congruence.
    + destruct (IH _ H) as [H1 H2]. split; [now right|].
      intro Hin. apply H2. now right.
Qed.

Lemma unique_from_NoDup (seen l : list string) : NoDup (KeyPhrases.unique_from seen l).
Proof.
  revert seen. induction l as [|y l IH]; intro seen; simpl; [constructor|].
  destruct (JsString.mem y seen); [apply IH|].
  constructor; [|apply IH]. intro H. apply unique_from_In in H as [_ H].
  apply H. now left.
Qed.

Lemma unique_from_keeps (seen l : list string) (x : string) :
  In x l -> ~ In x seen -> In x (KeyPhrases.unique_from seen l).
Proof.
  revert seen. induction l as [|y l IH]; intros seen H Hs; [destruct H|]. simpl.
  destruct (JsString.mem y seen) eqn:E.
  - destruct H as [->|H]; [apply mem_In in E; contradiction|now apply IH].
  - destruct (string_dec y x) as [->|Hne]; [now left|]. right.
    destruct H as [->|H]; [congruence|]. apply IH; [exact H|].
    intros [->|Hin]; [congruence|contradiction].
Qed.

Lemma filter_unique_length (P : string -> bool) (seen l : list string) :
  (List.length (filter P (KeyPhrases.unique_from seen l)) <= List.length (filter P l))%nat.
Proof.
  revert seen. induction l as [|y l IH]; intro seen; simpl; [lia|].
  destruct (JsString.mem y seen).
  - specialize (IH seen). destruct (P y); simpl; lia.
  - specialize (IH (y :: seen)). simpl. destruct (P y); simpl; lia.
Qed.

Lemma filter_firstn_length {A : Type} (P : A -> bool) (n : nat) (l : list A) :
  (List.length (filter P (firstn n l)) <= List.length (filter P l))%nat.
Proof.
  rewrite <- (firstn_skipn n l) at 2. rewrite filter_app, length_app. lia.
Qed.

Lemma filter_length_le {A : Type} (P : A -> bool) (l : list A) :
  (List.length (filter P l) <= List.length l)%nat.
Proof. induction l as [|x l IH]; simpl; [lia|]. destruct (P x); simpl; lia. Qed.

Lemma firstn_NoDup {A : Type} (n : nat) (l : list A) : NoDup l -> NoDup (firstn n l).
Proof.
  intro H. rewrite <- (map_id l) in H. apply (firstn_NoDup_map _ n) in H.
  now rewrite map_id in H.
Qed.

Lemma filter_true_length (l : list string) :
  List.length (filter (fun _ => true) l) = List.length l.
Proof. induction l as [|x l IH]; simpl; [reflexivity|now rewrite IH]. Qed.

Lemma filter_none {A : Type} (P : A -> bool) (l : list A) :
  (forall x, In x l -> P x = false) -> filter P l = [].
Proof.
  induction l as [|x l IH]; intro H; simpl; [reflexivity|].
  rewrite (H x) by now left. apply IH. intros y Hy. apply H. now right.
Qed.

Lemma importantTerms_lower :
  Forall (fun t => JsString.toLowerCase t = t /\ JsString.starts_with KeyPhrases.is_AZ t = false)
    KeyPhrases.importantTerms.
Proof. repeat constructor. Qed.

(** [extractKeyPhrases] returns at most eight phrases, all different, of
    which at most five start with a capital letter. *)
Theorem key_phrases_are_few_and_distinct :
  forall text : string,
    (List.length (KeyPhrases.extractKeyPhrases text) <= 8)%nat
    /\ NoDup (KeyPhrases.extractKeyPhrases text)
    /\ (List.length (filter (JsString.starts_with KeyPhrases.is_AZ)
                       (KeyPhrases.extractKeyPhrases text)) <= 5)%nat.
Proof.
  intro text. unfold KeyPhrases.extractKeyPhrases, JsArray.slice0, KeyPhrases.unique.
  split; [apply firstn_le_length|]. split; [apply firstn_NoDup, unique_from_NoDup|].
  eapply Nat.le_trans; [apply filter_firstn_length|].
  eapply Nat.le_trans; [apply filter_unique_length|].
  rewrite filter_app, length_app.
  assert (H0 : filter (JsString.starts_with KeyPhrases.is_AZ)
                 (filter (fun term => JsString.includes (JsString.toLowerCase text) term)
                    KeyPhrases.importantTerms) = []).
  { apply filter_none. intros t Ht. apply filter_In in Ht as [Ht _].
    pose proof importantTerms_lower as Hall. rewrite Forall_forall in Hall.
    now destruct (Hall t Ht) as [_ ->]. }
  rewrite H0. cbn [List.length Nat.add].
  eapply Nat.le_trans; [apply filter_length_le|]. apply firstn_le_length.
Qed.

(** Every phrase returned by [extractKeyPhrases] is one of the twelve
    listed terms or two capitalized words separated by one space, and it
    occurs in the text up to the case of the letters. *)
Theorem key_phrases_occur_in_the_text :
  forall text phrase : string,
    In phrase (KeyPhrases.extractKeyPhrases text) ->
    (In phrase KeyPhrases.importantTerms \/ two_capitalized_words phrase)
    /\ occurs_in (JsString.toLowerCase phrase) (JsString.toLowerCase text).
Proof.
  intros text phrase H. unfold KeyPhrases.extractKeyPhrases, JsArray.slice0 in H.
  apply firstn_incl in H. apply unique_from_In in H as [H _].
  apply in_app_or in H as [H|H].
  - apply filter_In in H as [Hin Hinc]. split; [now left|].
    pose proof importantTerms_lower as Hall. rewrite Forall_forall in Hall.
    destruct (Hall _ Hin) as [-> _]. now apply includes_occurs.
  - apply firstn_incl in H. destruct (scan_spec _ _ _ H) as [Hw (before & after & ->)].
    split; [now right|].
    exists (JsString.toLowerCase before), (JsString.toLowerCase after).
    now rewrite !toLowerCase_append.
Qed.

Lemma key_phrases_occur_in_the_text_witness :
  occurs_in (JsString.toLowerCase "Audit Committee")
    (JsString.toLowerCase "The new Audit Committee sets audit requirements.").
Proof.
  apply (key_phrases_occur_in_the_text
           "The new Audit Committee sets audit requirements." "Audit Committee").
  vm_compute. right. left. reflexivity.
Defined.

Lemma unique_from_fresh (seen fresh rest : list string) :
  NoDup fresh -> (forall x, In x fresh -> ~ In x seen) ->
  KeyPhrases.unique_from seen (fresh ++ rest)
  = fresh ++ KeyPhrases.unique_from (rev fresh ++ seen) rest.
Proof.
  revert seen. induction fresh as [|x fresh IH]; intros seen Hnd Hs; [reflexivity|].
  inversion Hnd as [|? ? Hx Hnd']; subst. cbn [app KeyPhrases.unique_from].
  destruct (JsString.mem x seen) eqn:E.
  - apply mem_In in E. exfalso. apply (Hs x); [now left|exact E].
  - f_equal. rewrite IH; [|exact Hnd'|].
    + cbn [rev]. now rewrite <- app_assoc.
    + intros y Hy [<-|Hin]; [contradiction|]. apply (Hs y); [now right|exact Hin].
Qed.

Lemma importantTerms_NoDup : NoDup KeyPhrases.importantTerms.
Proof.
  unfold KeyPhrases.importantTerms.
  repeat (constructor; [simpl; intuition discriminate|]). constructor.
Qed.

(** The listed terms that the lower-cased text contains come first among
    the key phrases, in the order of the list; capitalized pairs follow
    them, and the whole is cut after eight phrases. *)
Theorem listed_terms_come_first :
  forall text : string,
    exists pairs : list string,
      KeyPhrases.extractKeyPhrases text
      = firstn 8
          (filter (fun term => JsString.includes (JsString.toLowerCase text) term)
             KeyPhrases.importantTerms ++ pairs)
      /\ Forall two_capitalized_words pairs
      /\ (List.length pairs <= 5)%nat.
Proof.
  intro text. unfold KeyPhrases.extractKeyPhrases, JsArray.slice0, KeyPhrases.unique.
  set (terms := filter _ KeyPhrases.importantTerms).
  exists (KeyPhrases.unique_from (rev terms ++ [])
            (firstn 5 (KeyPhrases.capitalizedPhrases text))).
  split; [|split].
  - rewrite unique_from_fresh; [reflexivity| |intros x _ []].
    apply NoDup_filter, importantTerms_NoDup.
  - apply Forall_forall. intros p Hp. apply unique_from_In in Hp as [Hp _].
    apply firstn_incl in Hp. now destruct (scan_spec _ _ _ Hp).
  - eapply Nat.le_trans; [|apply (firstn_le_length 5 (KeyPhrases.capitalizedPhrases text))].
    rewrite <- (filter_true_length (KeyPhrases.unique_from (rev terms ++ [])
                                      (firstn 5 (KeyPhrases.capitalizedPhrases text)))).
    rewrite <- (filter_true_length (firstn 5 (KeyPhrases.capitalizedPhrases text))).
    apply filter_unique_length.
Qed.
